(** * Academic progression engine: promote / rollback handlers

    Shallow embedding of [promoteStudentsToNextSemester] and
    [rollbackStudents] (controllers/StudentController.js) together with the
    JavaScript primitives they rely on ([parseInt], [Number#toString],
    [String#split], [String#slice], [%]) and a small model of the
    MongoDB session the handlers run in.

    Conventions of the embedding.
    - A JavaScript string is a [string]; a character stands for a code unit
      below 256.
    - A JavaScript number is a [jsnum]: [NaN] or an integer [Num z].  The
      integer arithmetic used by the handlers ([+ 1], [- 1], [% 2], [>=],
      [<=]) is exact on the safe-integer range
      [-MAX_SAFE_INTEGER .. MAX_SAFE_INTEGER]; statements about arithmetic
      carry that range as a hypothesis.  Negative zero is identified with
      [Num 0]: every use the handlers make of a number ([isNaN], [>=], [<=],
      [+], [-], [% 2 === 0], [toString]) treats the two alike.
    - A collection is the list of its documents in natural order. *)

From Stdlib Require Import ZArith List String Ascii Bool Lia Permutation.
Import ListNotations.
Local Open Scope string_scope.
Local Open Scope Z_scope.

(** ** JavaScript primitives *)

Module JS.

Inductive jsnum : Type :=
| NaN
| Num (z : Z).

Definition MAX_SAFE_INTEGER : Z := 2 ^ 53 - 1.

Definition safeInteger (z : Z) : Prop :=
  - MAX_SAFE_INTEGER <= z <= MAX_SAFE_INTEGER.

Definition isNaN (x : jsnum) : bool :=
  match x with NaN => true | Num _ => false end.

(** [x + k] and [x - k] for an integer literal [k]. *)
Definition add (x : jsnum) (k : Z) : jsnum :=
  match x with NaN => NaN | Num z => Num (z + k) end.

Definition sub (x : jsnum) (k : Z) : jsnum :=
  match x with NaN => NaN | Num z => Num (z - k) end.

(** [x % 2 === 0]: the remainder takes the sign of the dividend. *)
Definition remIsZero (x : jsnum) (k : Z) : bool :=
  match x with NaN => false | Num z => Z.rem z k =? 0 end.

(** [x >= k] and [x <= k]; a comparison with [NaN] is false. *)
Definition geq (x : jsnum) (k : Z) : bool :=
  match x with NaN => false | Num z => k <=? z end.

Definition leq (x : jsnum) (k : Z) : bool :=
  match x with NaN => false | Num z => z <=? k end.

(** White space skipped by [parseInt]: TAB, LF, VT, FF, CR, SP, NBSP. *)
Definition isWhiteSpace (c : ascii) : bool :=
  let n := nat_of_ascii c in
  ((n =? 9) || (n =? 10) || (n =? 11) || (n =? 12) || (n =? 13)
   || (n =? 32) || (n =? 160))%nat.

Fixpoint trimStart (s : string) : string :=
  match s with
  | String c r => if isWhiteSpace c then trimStart r else s
  | EmptyString => s
  end.

Definition digitValue (c : ascii) : option Z :=
  let n := Z.of_nat (nat_of_ascii c) in
  if (48 <=? n) && (n <=? 57) then Some (n - 48) else None.

(** Value of the longest prefix of radix-10 digits; [acc] is [None] until a
    digit has been read. *)
Fixpoint parseDigits (s : string) (acc : option Z) : option Z :=
  match s with
  | String c r =>
      match digitValue c with
      | Some d =>
          let a := match acc with Some a => a | None => 0 end in
          parseDigits r (Some (10 * a + d))
      | None => acc
      end
  | EmptyString => acc
  end.

(** [parseInt(s, 10)]. *)
Definition parseInt10 (s : string) : jsnum :=
  let t := trimStart s in
  let '(sign, u) :=
    match t with
    | String "-" r => (-1, r)
    | String "+" r => (1, r)
    | _ => (1, t)
    end in
  match parseDigits u None with
  | None => NaN
  | Some m => Num (sign * m)
  end.

Definition digitChar (d : Z) : ascii := ascii_of_nat (Z.to_nat (48 + d)).

Fixpoint digitsAux (fuel : nat) (n : Z) (acc : string) : string :=
  match fuel with
  | O => acc
  | S f =>
      let acc' := String (digitChar (n mod 10)) acc in
      if n <? 10 then acc' else digitsAux f (n / 10) acc'
  end.

(** Decimal digits of a non-negative integer. *)
Definition digits (n : Z) : string :=
  digitsAux (S (Z.to_nat (Z.log2 n))) n "".

(** [Number.prototype.toString()] and the conversion done by a template
    literal. *)
Definition toString (x : jsnum) : string :=
  match x with
  | NaN => "NaN"
  | Num z => if z <? 0 then String "-" (digits (- z)) else digits z
  end.

(** [const [first] = s.split("-")]: the text before the first hyphen. *)
Fixpoint splitFirst (s : string) : string :=
  match s with
  | String c r => if Ascii.eqb c "-" then "" else String c (splitFirst r)
  | EmptyString => ""
  end.

(** [s.slice(start)]: a negative [start] counts from the end. *)
Definition slice (start : Z) (s : string) : string :=
  let len := Z.of_nat (String.length s) in
  let from := if start <? 0 then Z.max (len + start) 0 else Z.min start len in
  substring (Z.to_nat from) (Z.to_nat (len - from)) s.

End JS.

(** ** Documents and collections *)

(** A document id as the request carries it.  Every id is taken to be
    well-formed: the cast error Mongoose raises for a malformed id is not
    modelled. *)
Definition ObjectId : Type := string.

(** The fields of a Student document the handlers read or write.  The
    schema (models/Student.js) is not among the sources; the fields are
    taken as the handlers use them: [semId] is handed to [parseInt] and
    stored back from [toString()], [academicYear] is a string the handlers
    call [split] on. *)
Module Student.
Record t : Type := mk {
  _id : ObjectId;
  courseId : string;
  semId : string;
  academicYear : string
}.
End Student.

(** The fields of a Course document the handlers read (models/Course.js is
    not among the sources): the key the lookup filters on and the number of
    semesters, an integer. *)
Module Course.
Record t : Type := mk {
  Course_Id : string;
  No_of_Sem : Z
}.
End Course.

(** models/Attendance.js: one entry of [records], then the document. *)
Module Attendance.
Record record : Type := mkRecord {
  date : string;
  present : bool;
  markedBy : option string;
  markedAt : string
}.
Record t : Type := mk {
  studentId : ObjectId;
  subjectCode : string;
  currAcademicYear : string;
  records : list record
}.
End Attendance.

(** The [$set] document passed to [Student.updateOne]; an absent key is
    [None]. *)
Module Payload.
Record t : Type := mk {
  semId : option string;
  academicYear : option string
}.
End Payload.

Record Database : Type := mkDatabase {
  students : list Student.t;
  courses : list Course.t;
  attendances : list Attendance.t
}.

(** ** The session the handlers run in *)

Inductive Collection : Type := Students | Courses | Attendances.

Inductive Access : Type :=
| Read (c : Collection)
| Write (c : Collection).

(** [committed] is what readers outside the transaction see, [staged] what
    the transaction sees.  [trace] records every access attempted.  [fuse]
    injects a storage failure: [Some n] makes the storage call number [n]
    (counted from 0) throw, [None] lets every call succeed. *)
Record Session : Type := mkSession {
  committed : Database;
  staged : Database;
  trace : list Access;
  fuse : option nat
}.

Inductive Result (A : Type) : Type :=
| Ok (a : A)
| Throw (error : string).
Arguments Ok {A} a.
Arguments Throw {A} error.

Definition M (A : Type) : Type := Session -> Result A * Session.

Definition ret {A : Type} (a : A) : M A := fun s => (Ok a, s).

Definition bind {A B : Type} (m : M A) (k : A -> M B) : M B :=
  fun s =>
    match m s with
    | (Ok a, s') => k a s'
    | (Throw e, s') => (Throw e, s')
    end.

Notation "x <- m ;; k" := (bind m (fun x => k))
  (at level 61, m at next level, right associativity).
Notation "m ;;; k" := (bind m (fun _ => k))
  (at level 61, right associativity).

Definition storageError : string := "storage failure".

Definition burn (f : option nat) : option nat :=
  match f with
  | Some (S n) => Some n
  | other => other
  end.

(** One awaited call on a collection inside the session. *)
Definition storageCall {A : Type} (a : Access) (f : Database -> A * Database)
  : M A :=
  fun s =>
    match fuse s with
    | Some O =>
        (Throw storageError,
         mkSession (committed s) (staged s) (trace s ++ [a]) (fuse s))
    | _ =>
        let '(r, d) := f (staged s) in
        (Ok r, mkSession (committed s) d (trace s ++ [a]) (burn (fuse s)))
    end.

Definition startSession (db : Database) (fault : option nat) : Session :=
  mkSession db db [] fault.

Definition commitTransaction : M unit :=
  fun s =>
    match fuse s with
    | Some O => (Throw storageError, s)
    | _ => (Ok tt, mkSession (staged s) (staged s) (trace s) (burn (fuse s)))
    end.

Definition abortTransaction (s : Session) : Session :=
  mkSession (committed s) (committed s) (trace s) (fuse s).

(** [_id: { $in: ids }]. *)
Definition idIn (ids : list ObjectId) (s : Student.t) : bool :=
  existsb (String.eqb (Student._id s)) ids.

(** [Student.find({ _id: { $in: ids } }).session(session)]. *)
Definition Student_find (ids : list ObjectId) : M (list Student.t) :=
  storageCall (Read Students) (fun d => (filter (idIn ids) (students d), d)).

(** [Course.findOne({ Course_Id: id }, { No_of_Sem: 1 }).session(session)]. *)
Definition Course_findOne (id : string) : M (option Course.t) :=
  storageCall (Read Courses)
    (fun d =>
       (find (fun c => String.eqb (Course.Course_Id c) id) (courses d), d)).

Definition applySet (p : Payload.t) (s : Student.t) : Student.t :=
  Student.mk (Student._id s) (Student.courseId s)
    (match Payload.semId p with Some v => v | None => Student.semId s end)
    (match Payload.academicYear p with
     | Some v => v
     | None => Student.academicYear s
     end).

(** [updateOne] changes the first document that matches the filter. *)
Fixpoint updateFirst (id : ObjectId) (p : Payload.t) (l : list Student.t)
  : list Student.t :=
  match l with
  | [] => []
  | s :: r =>
      if String.eqb (Student._id s) id then applySet p s :: r
      else s :: updateFirst id p r
  end.

(** [Student.updateOne({ _id: id }, { $set: p }, { session })]. *)
Definition Student_updateOne (id : ObjectId) (p : Payload.t) : M unit :=
  storageCall (Write Students)
    (fun d =>
       (tt, mkDatabase (updateFirst id p (students d)) (courses d)
              (attendances d))).

(** [for (const x of l) { ... }] with the arrays the body pushes to as
    loop state. *)
Fixpoint forOf {A S : Type} (body : A -> S -> M S) (l : list A) (st : S)
  : M S :=
  match l with
  | [] => ret st
  | x :: r => st' <- body x st ;; forOf body r st'
  end.

(** ** Requests and responses *)

(** A value found under a key of [req.body]; [JOther] is any value that is
    neither [undefined], a boolean nor an array. *)
Inductive jsval : Type :=
| JUndefined
| JBool (b : bool)
| JArray (items : list ObjectId)
| JOther.

Record Request : Type := mkRequest {
  studentIds : jsval;
  resetAttendance : jsval
}.

Module Skipped.
Record t : Type := mk {
  studentId : ObjectId;
  reason : string
}.
End Skipped.

Module Promoted.
Record t : Type := mk {
  studentId : ObjectId;
  fromSem : JS.jsnum;
  toSem : JS.jsnum;
  academicYear : string
}.
End Promoted.

(** An entry of [rolledBack]; the keys a variant does not set are [None]. *)
Module RolledBack.
Record t : Type := mk {
  studentId : ObjectId;
  sem : option string;
  fromSem : option string;
  toSem : option string;
  academicYearFrom : string;
  academicYearTo : string;
  type : string
}.
End RolledBack.

Inductive Body : Type :=
| Message (message : string)
| PromoteOk (requested promotedCount skippedCount : nat)
    (promoted : list Promoted.t) (skipped : list Skipped.t)
| RollbackOk (requested rolledBackCount skippedCount : nat)
    (rolledBack : list RolledBack.t) (skipped : list Skipped.t)
| Failure (message error : string).

Record Response : Type := mkResponse {
  status : nat;
  body : Body
}.

(** ** The handlers *)

(** [l.push(x)]. *)
Definition push {A : Type} (l : list A) (x : A) : list A := (l ++ [x])%list.

(** The template literal
    [`${n}-${(n + 1).toString().slice(-2)}`] that all three year
    computations share. *)
Definition yearLabel (n : JS.jsnum) : string :=
  JS.toString n ++ "-" ++ JS.slice (-2) (JS.toString (JS.add n 1)).

(** Lines 260-264, and again lines 354-360: the label of the next academic
    year.  The additions are exact while the start year [S] read from the
    label has [S + 2] in the safe-integer range; the statements about the
    label carry that bound. *)
Definition forwardYear (academicYear : string) : string :=
  let start := JS.splitFirst academicYear in
  let newStart := JS.add (JS.parseInt10 start) 1 in
  yearLabel newStart.

(** Lines 391-396: the label of the previous academic year.  The
    arithmetic is exact while the start year [S] read from the label has
    [S - 1] in the safe-integer range. *)
Definition backwardYear (academicYear : string) : string :=
  let startYear := JS.splitFirst academicYear in
  let prevStart := JS.sub (JS.parseInt10 startYear) 1 in
  yearLabel prevStart.

(** Body of the loop of [promoteStudentsToNextSemester]. *)
Definition promoteStep (student : Student.t)
    (st : list Promoted.t * list Skipped.t)
  : M (list Promoted.t * list Skipped.t) :=
  let '(promoted, skipped) := st in
  course <- Course_findOne (Student.courseId student) ;;
  match course with
  | None =>
      ret (promoted,
           push skipped
             (Skipped.mk (Student._id student) "Course not found"))
  | Some course =>
      let currentSem := JS.parseInt10 (Student.semId student) in
      if JS.isNaN currentSem then
        ret (promoted,
             push skipped
               (Skipped.mk (Student._id student) "Invalid semester"))
      else if JS.geq currentSem (Course.No_of_Sem course) then
        ret (promoted,
             push skipped
               (Skipped.mk (Student._id student) "Final semester"))
      else
        let nextSem := JS.add currentSem 1 in
        let nextAcademicYear :=
          if JS.remIsZero currentSem 2
          then forwardYear (Student.academicYear student)
          else Student.academicYear student in
        Student_updateOne (Student._id student)
          (Payload.mk (Some (JS.toString nextSem)) (Some nextAcademicYear)) ;;;
        ret (push promoted
               (Promoted.mk (Student._id student) currentSem nextSem
                  nextAcademicYear),
             skipped)
  end.

Definition badRequest : Response :=
  mkResponse 400 (Message "studentIds must be a non-empty array").

(** The [try] block of [promoteStudentsToNextSemester]. *)
Definition promoteTry (req : Request) : M Response :=
  match studentIds req with
  | JArray (i :: r) =>
      let ids := i :: r in
      found <- Student_find ids ;;
      match found with
      | [] => ret (mkResponse 404 (Message "No valid students found"))
      | _ =>
          out <- forOf promoteStep found ([], []) ;;
          let '(promoted, skipped) := out in
          commitTransaction ;;;
          ret (mkResponse 200
                 (PromoteOk (List.length ids) (List.length promoted)
                    (List.length skipped) promoted skipped))
      end
  | _ => ret badRequest
  end.

(** [promoteStudentsToNextSemester]: the response sent and the session as
    the handler leaves it. *)
Definition promoteStudentsToNextSemester (req : Request) (db : Database)
    (fault : option nat) : Response * Session :=
  match promoteTry req (startSession db fault) with
  | (Ok r, s) => (r, s)
  | (Throw e, s) =>
      (mkResponse 500 (Failure "Promotion failed" e), abortTransaction s)
  end.

(** [resetAttendance = false] on destructuring, then
    [resetAttendance === true]. *)
Definition isTrue (v : jsval) : bool :=
  match v with
  | JBool true => true
  | _ => false
  end.

(** [a || b] on strings: the empty string and [undefined] are falsy. *)
Definition orElse (a : option string) (b : string) : string :=
  match a with
  | Some EmptyString => b
  | Some v => v
  | None => b
  end.

(** Body of the loop of [rollbackStudents]. *)
Definition rollbackStep (reset : jsval) (student : Student.t)
    (st : list RolledBack.t * list Skipped.t)
  : M (list RolledBack.t * list Skipped.t) :=
  let '(rolledBack, skipped) := st in
  let currentSem := JS.parseInt10 (Student.semId student) in
  if JS.isNaN currentSem then
    ret (rolledBack,
         push skipped
           (Skipped.mk (Student._id student) "Invalid semester value"))
  else if isTrue reset then
    let updatePayload :=
      Payload.mk None (Some (forwardYear (Student.academicYear student))) in
    let rolledBack' :=
      push rolledBack
        (RolledBack.mk (Student._id student)
           (Some (Student.semId student)) None None
           (Student.academicYear student)
           (forwardYear (Student.academicYear student))
           "RESET_YEAR_ONLY") in
    Student_updateOne (Student._id student) updatePayload ;;;
    ret (rolledBack', skipped)
  else if JS.leq currentSem 1 then
    ret (rolledBack,
         push skipped
           (Skipped.mk (Student._id student) "Already in first semester"))
  else
    let previousSem := JS.toString (JS.sub currentSem 1) in
    let updatePayload :=
      Payload.mk (Some previousSem)
        (if JS.remIsZero currentSem 2
         then Some (backwardYear (Student.academicYear student))
         else None) in
    let rolledBack' :=
      push rolledBack
        (RolledBack.mk (Student._id student) None
           (Some (Student.semId student)) (Some previousSem)
           (Student.academicYear student)
           (orElse (Payload.academicYear updatePayload)
              (Student.academicYear student))
           "NORMAL_ROLLBACK") in
    Student_updateOne (Student._id student) updatePayload ;;;
    ret (rolledBack', skipped).

(** The [try] block of [rollbackStudents]. *)
Definition rollbackTry (req : Request) : M Response :=
  match studentIds req with
  | JArray (i :: r) =>
      let ids := i :: r in
      found <- Student_find ids ;;
      out <- forOf (rollbackStep (resetAttendance req)) found ([], []) ;;
      let '(rolledBack, skipped) := out in
      commitTransaction ;;;
      ret (mkResponse 200
             (RollbackOk (List.length ids) (List.length rolledBack)
                (List.length skipped) rolledBack skipped))
  | _ => ret badRequest
  end.

(** [rollbackStudents]. *)
Definition rollbackStudents (req : Request) (db : Database)
    (fault : option nat) : Response * Session :=
  match rollbackTry req (startSession db fault) with
  | (Ok r, s) => (r, s)
  | (Throw e, s) =>
      (mkResponse 500 (Failure "Rollback failed" e), abortTransaction s)
  end.

(** ** Vocabulary of the specification *)

(** The reason codes of the specification and the message each handler
    pushes for them. *)
Inductive ReasonCode : Type :=
| COURSE_NOT_FOUND
| INVALID_SEMESTER
| FINAL_SEMESTER
| ALREADY_FIRST_SEMESTER.

Definition reasonCode (message : string) : option ReasonCode :=
  if String.eqb message "Course not found" then Some COURSE_NOT_FOUND
  else if String.eqb message "Invalid semester" then Some INVALID_SEMESTER
  else if String.eqb message "Invalid semester value" then Some INVALID_SEMESTER
  else if String.eqb message "Final semester" then Some FINAL_SEMESTER
  else if String.eqb message "Already in first semester"
  then Some ALREADY_FIRST_SEMESTER
  else None.

(** The document with a given [_id], if any. *)
Definition findById (id : ObjectId) (l : list Student.t) : option Student.t :=
  find (fun s => String.eqb (Student._id s) id) l.

(** Two decimal digits: "the last two digits, zero-padded". *)
Definition lastTwoDigits (n : Z) : string :=
  String (JS.digitChar ((n / 10) mod 10))
    (String (JS.digitChar (n mod 10)) "").

(** ** The loop body as a classification

    What one iteration decides for its student: a [$set] to stage together
    with the entry pushed to the applied list, or the entry pushed to
    [skipped].  [promoteStep_decision] and [rollbackStep_decision] show that
    the loop bodies compute exactly this. *)

Inductive Decision (E : Type) : Type :=
| Apply (p : Payload.t) (e : E)
| Skip (k : Skipped.t).
Arguments Apply {E} p e.
Arguments Skip {E} k.

Definition promoteDecision (cs : list Course.t) (student : Student.t)
  : Decision Promoted.t :=
  match find (fun c => String.eqb (Course.Course_Id c)
                         (Student.courseId student)) cs with
  | None => Skip (Skipped.mk (Student._id student) "Course not found")
  | Some course =>
      let currentSem := JS.parseInt10 (Student.semId student) in
      if JS.isNaN currentSem then
        Skip (Skipped.mk (Student._id student) "Invalid semester")
      else if JS.geq currentSem (Course.No_of_Sem course) then
        Skip (Skipped.mk (Student._id student) "Final semester")
      else
        let nextAcademicYear :=
          if JS.remIsZero currentSem 2
          then forwardYear (Student.academicYear student)
          else Student.academicYear student in
        Apply
          (Payload.mk (Some (JS.toString (JS.add currentSem 1)))
             (Some nextAcademicYear))
          (Promoted.mk (Student._id student) currentSem
             (JS.add currentSem 1) nextAcademicYear)
  end.

Definition rollbackDecision (reset : jsval) (student : Student.t)
  : Decision RolledBack.t :=
  let currentSem := JS.parseInt10 (Student.semId student) in
  if JS.isNaN currentSem then
    Skip (Skipped.mk (Student._id student) "Invalid semester value")
  else if isTrue reset then
    Apply
      (Payload.mk None (Some (forwardYear (Student.academicYear student))))
      (RolledBack.mk (Student._id student) (Some (Student.semId student))
         None None (Student.academicYear student)
         (forwardYear (Student.academicYear student)) "RESET_YEAR_ONLY")
  else if JS.leq currentSem 1 then
    Skip (Skipped.mk (Student._id student) "Already in first semester")
  else
    let previousSem := JS.toString (JS.sub currentSem 1) in
    let year :=
      if JS.remIsZero currentSem 2
      then Some (backwardYear (Student.academicYear student))
      else None in
    Apply (Payload.mk (Some previousSem) year)
      (RolledBack.mk (Student._id student) None
         (Some (Student.semId student)) (Some previousSem)
         (Student.academicYear student)
         (orElse year (Student.academicYear student)) "NORMAL_ROLLBACK").

Section Batch.
Context {E : Type} (decide : Student.t -> Decision E).

(** Entries pushed to the applied list, in order. *)
Fixpoint appliedOf (l : list Student.t) : list E :=
  match l with
  | [] => []
  | s :: r =>
      match decide s with
      | Apply _ e => e :: appliedOf r
      | Skip _ => appliedOf r
      end
  end.

(** Entries pushed to [skipped], in order. *)
Fixpoint skippedOf (l : list Student.t) : list Skipped.t :=
  match l with
  | [] => []
  | s :: r =>
      match decide s with
      | Apply _ _ => skippedOf r
      | Skip k => k :: skippedOf r
      end
  end.

(** Accesses made after the per-student prelude [pre]. *)
Fixpoint accessesOf (pre : list Access) (l : list Student.t)
  : list Access :=
  match l with
  | [] => []
  | s :: r =>
      (pre ++
       match decide s with
       | Apply _ _ => [Write Students]
       | Skip _ => []
       end ++ accessesOf pre r)%list
  end.

(** The staged Students collection after the loop. *)
Fixpoint stageAll (l : list Student.t) (docs : list Student.t)
  : list Student.t :=
  match l with
  | [] => docs
  | s :: r =>
      stageAll r
        match decide s with
        | Apply p _ => updateFirst (Student._id s) p docs
        | Skip _ => docs
        end
  end.

(** What the store holds for a student the loop has visited. *)
Definition after (s : Student.t) : Student.t :=
  match decide s with
  | Apply p _ => applySet p s
  | Skip _ => s
  end.
End Batch.

(** Replace the collections a handler is claimed not to touch. *)
Definition reframeDb (cs : list Course.t) (ats : list Attendance.t)
    (d : Database) : Database :=
  mkDatabase (students d) cs ats.

Definition reframe (cs : list Course.t) (ats : list Attendance.t)
    (s : Session) : Session :=
  mkSession (reframeDb cs ats (committed s)) (reframeDb cs ats (staged s))
    (trace s) (fuse s).

Definition onStudents (a : Access) : Prop :=
  a = Read Students \/ a = Write Students.

Definition skippedOfBody (b : Body) : list Skipped.t :=
  match b with
  | PromoteOk _ _ _ _ k => k
  | RollbackOk _ _ _ _ k => k
  | _ => []
  end.

(** The student ids of the applied list of a response. *)
Definition appliedIds (b : Body) : list ObjectId :=
  match b with
  | PromoteOk _ _ _ p _ => map Promoted.studentId p
  | RollbackOk _ _ _ r _ => map RolledBack.studentId r
  | _ => []
  end.

Definition skippedIds (b : Body) : list ObjectId :=
  map Skipped.studentId (skippedOfBody b).

Definition uniqueIds (db : Database) : Prop :=
  NoDup (map Student._id (students db)).

Definition sampleCourses : list Course.t := [Course.mk "MCA" 8].

Definition sampleDb (semId academicYear : string) : Database :=
  mkDatabase [Student.mk "s1" "MCA" semId academicYear] sampleCourses [].

Definition batch (ids : list ObjectId) (reset : bool) : Request :=
  mkRequest (JArray ids) (JBool reset).

(** The operations of the specification: a batch run in which no storage
    call fails, returning the response and the committed database. *)
Definition Advance (ids : list ObjectId) (db : Database)
  : Response * Database :=
  let '(r, s) :=
    promoteStudentsToNextSemester (mkRequest (JArray ids) JUndefined) db None
  in (r, committed s).

Definition Rollback (ids : list ObjectId) (reset : bool) (db : Database)
  : Response * Database :=
  let '(r, s) := rollbackStudents (batch ids reset) db None in
  (r, committed s).

(** A student document of the store that a batch request names. *)
Definition resolved (db : Database) (ids : list ObjectId) (s : Student.t)
  : Prop :=
  In s (students db) /\ In (Student._id s) ids.

Definition courseOf (db : Database) (s : Student.t) : option Course.t :=
  find (fun c => String.eqb (Course.Course_Id c) (Student.courseId s))
    (courses db).

Definition promotedOfBody (b : Body) : list Promoted.t :=
  match b with
  | PromoteOk _ _ _ p _ => p
  | _ => []
  end.

Definition rolledBackOfBody (b : Body) : list RolledBack.t :=
  match b with
  | RollbackOk _ _ _ r _ => r
  | _ => []
  end.

(** [holds P Q out]: the session left behind satisfies [Q], and so does the
    value returned when nothing was thrown. *)
Definition holds {A : Type} (P : A -> Prop) (Q : Session -> Prop)
    (out : Result A * Session) : Prop :=
  Q (snd out) /\ match fst out with Ok a => P a | Throw _ => True end.

(** Apply [g] to the session of an outcome. *)
Definition onSession {X : Type} (g : Session -> Session)
    (out : X * Session) : X * Session :=
  (fst out, g (snd out)).

Definition notCourseNotFound (k : Skipped.t) : Prop :=
  reasonCode (Skipped.reason k) <> Some COURSE_NOT_FOUND.

Definition twoStudents : Database :=
  mkDatabase
    [Student.mk "s1" "MCA" "4" "2024-25"; Student.mk "s2" "MCA" "8" "2022-23"]
    sampleCourses [].

(** ** Request bodies of the CRUD handlers *)

(** A JSON value, or [undefined] for a key that is absent.  Numbers are
    the integers and [NaN] of [JS.jsnum]. *)
#[warnings="-register-all"]
Inductive value : Type :=
| VUndefined
| VNull
| VBool (b : bool)
| VNumber (n : JS.jsnum)
| VString (s : string)
| VArray (items : list value)
| VObject (fields : list (string * value)).

(** A plain object: its own keys in insertion order. *)
Definition object : Type := list (string * value).

(** [o.key]; a missing key reads as [undefined]. *)
Fixpoint get (key : string) (o : object) : value :=
  match o with
  | [] => VUndefined
  | (k, v) :: r => if String.eqb k key then v else get key r
  end.

(** [o.key = v]: an existing key keeps its place, a new one goes last. *)
Fixpoint set (key : string) (v : value) (o : object) : object :=
  match o with
  | [] => [(key, v)]
  | (k, w) :: r =>
      if String.eqb k key then (k, v) :: r else (k, w) :: set key v r
  end.

(** [v.key] on any value that is neither [null] nor [undefined]. *)
Definition getProp (key : string) (v : value) : value :=
  match v with
  | VObject fields => get key fields
  | _ => VUndefined
  end.

(** [!!v]. *)
Definition truthy (v : value) : bool :=
  match v with
  | VUndefined | VNull => false
  | VBool b => b
  | VNumber JS.NaN => false
  | VNumber (JS.Num z) => negb (z =? 0)
  | VString s => negb (String.eqb s "")
  | VArray _ | VObject _ => true
  end.

(** String methods the CRUD handlers call. *)
Module Text.

(** [s.trimEnd()]. *)
Fixpoint trimEnd (s : string) : string :=
  match s with
  | EmptyString => EmptyString
  | String c r =>
      match trimEnd r with
      | EmptyString => if JS.isWhiteSpace c then EmptyString else String c ""
      | r' => String c r'
      end
  end.

(** [s.trim()]. *)
Definition trim (s : string) : string := trimEnd (JS.trimStart s).

(** The upper-case form of one character: a-z and the accented letters
    0xE0-0xFE (but not the division sign 0xF7) move down by 32, 0xDF
    (sharp s) becomes "SS".  The upper-case forms of 0xB5 (micro sign) and
    0xFF (y with diaeresis) lie above 0xFF; they are left in place here,
    which a match against [rollNumberPattern] cannot tell apart. *)
Definition upperChar (c : ascii) : string :=
  let n := nat_of_ascii c in
  if ((97 <=? n) && (n <=? 122))%nat then String (ascii_of_nat (n - 32)) ""
  else if (n =? 223)%nat then "SS"
  else if ((224 <=? n) && (n <=? 254) && negb (n =? 247))%nat
       then String (ascii_of_nat (n - 32)) ""
  else String c "".

(** Does every character of [s] satisfy [p]? *)
Fixpoint all (p : ascii -> bool) (s : string) : bool :=
  match s with
  | EmptyString => true
  | String c r => p c && all p r
  end.

(** [s.toUpperCase()]. *)
Fixpoint toUpperCase (s : string) : string :=
  match s with
  | EmptyString => EmptyString
  | String c r => upperChar c ++ toUpperCase r
  end.

End Text.

(** Regular expressions without captures, matched against a whole string
    by derivatives: what [/^...$/.test(s)] answers. *)
Module Regex.

Inductive t : Type :=
| Never
| Empty
| Class (p : ascii -> bool)
| Seq (r1 r2 : t)
| Or (r1 r2 : t)
| Star (r : t).

Fixpoint nullable (r : t) : bool :=
  match r with
  | Never => false
  | Empty => true
  | Class _ => false
  | Seq r1 r2 => nullable r1 && nullable r2
  | Or r1 r2 => nullable r1 || nullable r2
  | Star _ => true
  end.

Fixpoint derive (c : ascii) (r : t) : t :=
  match r with
  | Never => Never
  | Empty => Never
  | Class p => if p c then Empty else Never
  | Seq r1 r2 =>
      if nullable r1 then Or (Seq (derive c r1) r2) (derive c r2)
      else Seq (derive c r1) r2
  | Or r1 r2 => Or (derive c r1) (derive c r2)
  | Star r1 => Seq (derive c r1) (Star r1)
  end.

Fixpoint test (r : t) (s : string) : bool :=
  match s with
  | EmptyString => nullable r
  | String c s' => test (derive c r) s'
  end.

(** The strings a regular expression denotes. *)
Inductive lang : t -> string -> Prop :=
| lang_empty : lang Empty ""
| lang_class p c : p c = true -> lang (Class p) (String c "")
| lang_seq r1 r2 s1 s2 :
    lang r1 s1 -> lang r2 s2 -> lang (Seq r1 r2) (s1 ++ s2)
| lang_or_l r1 r2 s : lang r1 s -> lang (Or r1 r2) s
| lang_or_r r1 r2 s : lang r2 s -> lang (Or r1 r2) s
| lang_star_nil r : lang (Star r) ""
| lang_star_cons r s1 s2 :
    lang r s1 -> lang (Star r) s2 -> lang (Star r) (s1 ++ s2).

(** [[A-Z]], [\d] and a literal character. *)
Definition upperAZ (c : ascii) : bool :=
  let n := nat_of_ascii c in ((65 <=? n) && (n <=? 90))%nat.

Definition digit (c : ascii) : bool :=
  let n := nat_of_ascii c in ((48 <=? n) && (n <=? 57))%nat.

Definition lit (a : ascii) : t := Class (Ascii.eqb a).

End Regex.

(** [/^[A-Z]{2}-2K\d{2}-\d+$/]. *)
Definition rollNumberPattern : Regex.t :=
  Regex.Seq (Regex.Class Regex.upperAZ)
    (Regex.Seq (Regex.Class Regex.upperAZ)
       (Regex.Seq (Regex.lit "-")
          (Regex.Seq (Regex.lit "2")
             (Regex.Seq (Regex.lit "K")
                (Regex.Seq (Regex.Class Regex.digit)
                   (Regex.Seq (Regex.Class Regex.digit)
                      (Regex.Seq (Regex.lit "-")
                         (Regex.Seq (Regex.Class Regex.digit)
                            (Regex.Star (Regex.Class Regex.digit)))))))))).

(** [isValidRollNumber]. *)
Definition isValidRollNumber (rollNumber : value) : bool :=
  if negb (truthy rollNumber) then false
  else
    match rollNumber with
    | VString s =>
        let cleanedRollNumber := Text.toUpperCase (Text.trim s) in
        Regex.test rollNumberPattern cleanedRollNumber
    | _ => false
    end.

(** [convertEmptyToNull]. *)
Definition convertEmptyToNull (v : value) : value :=
  match v with
  | VString EmptyString => VNull
  | VUndefined => VNull
  | _ => v
  end.

(** The test of the [filter] in [processStudentData]:
    [spec !== "" && spec !== null && spec !== undefined]. *)
Definition keepSpecialization (spec : value) : bool :=
  match spec with
  | VString EmptyString => false
  | VNull => false
  | VUndefined => false
  | _ => true
  end.

(** Lines 51-61, the value stored under [specializations]. *)
Definition processSpecializations (v : value) : value :=
  match v with
  | VArray items =>
      match filter keepSpecialization items with
      | [] => VNull
      | filtered => VArray filtered
      end
  | VString EmptyString => VNull
  | _ => v
  end.

(** Line 29, [data.rollNumber ? data.rollNumber.toUpperCase() : null];
    [toUpperCase] exists on strings only. *)
Definition upperOrNull (v : value) : Result value :=
  if truthy v then
    match v with
    | VString s => Ok (VString (Text.toUpperCase s))
    | _ => Throw "data.rollNumber.toUpperCase is not a function"
    end
  else Ok VNull.

(** Line 38, [data.semId || null]. *)
Definition orNull (v : value) : value := if truthy v then v else VNull.

(** One statement [if (data.key !== undefined) processed.key = f(data.key)]. *)
Definition assign (key : string) (f : value -> value) (data : object)
    (processed : object) : object :=
  match get key data with
  | VUndefined => processed
  | v => set key (f v) processed
  end.

(** [processStudentData]. *)
Definition processStudentData (data : object) : Result object :=
  let processed : object := [] in
  let rolled :=
    match get "rollNumber" data with
    | VUndefined => Ok processed
    | v =>
        match upperOrNull v with
        | Ok u => Ok (set "rollNumber" u processed)
        | Throw e => Throw e
        end
    end in
  match rolled with
  | Throw e => Throw e
  | Ok processed =>
      let processed := assign "fullName" convertEmptyToNull data processed in
      let processed := assign "courseId" convertEmptyToNull data processed in
      let processed := assign "semId" orNull data processed in
      let processed := assign "email" convertEmptyToNull data processed in
      let processed :=
        assign "phoneNumber" convertEmptyToNull data processed in
      let processed := assign "section" convertEmptyToNull data processed in
      let processed :=
        assign "specializations" processSpecializations data processed in
      Ok processed
  end.

(** The keys [processStudentData] may write, in the order it writes
    them. *)
Definition studentKeys : list string :=
  ["rollNumber"; "fullName"; "courseId"; "semId"; "email"; "phoneNumber";
   "section"; "specializations"].

(** [data.key !== undefined]. *)
Definition defined (key : string) (data : object) : bool :=
  match get key data with
  | VUndefined => false
  | _ => true
  end.

(** [processStudentData] in closed form: the statements after the first
    as a list of keys with the function each applies, and the object they
    build as the list of the entries they write. *)
Definition laterFields : list (string * (value -> value)) :=
  [("fullName", convertEmptyToNull); ("courseId", convertEmptyToNull);
   ("semId", orNull); ("email", convertEmptyToNull);
   ("phoneNumber", convertEmptyToNull); ("section", convertEmptyToNull);
   ("specializations", processSpecializations)].

Fixpoint assignAll (fs : list (string * (value -> value))) (data : object)
    (processed : object) : object :=
  match fs with
  | [] => processed
  | (k, f) :: r => assignAll r data (assign k f data processed)
  end.

(** What [upperOrNull] returns when it returns. *)
Definition upperOrNullValue (v : value) : value :=
  match upperOrNull v with
  | Ok u => u
  | Throw _ => VNull
  end.

Definition entry (data : object) (kf : string * (value -> value))
  : object :=
  match get (fst kf) data with
  | VUndefined => []
  | v => [(fst kf, snd kf v)]
  end.

Definition entriesOf (data : object) : object :=
  flat_map (entry data) (("rollNumber", upperOrNullValue) :: laterFields).

(** A field function settles: on a defined value it returns neither
    [undefined] nor the empty string, and applying it again changes
    nothing. *)
Definition settles (f : value -> value) : Prop :=
  forall w,
    w <> VUndefined ->
    f w <> VUndefined /\ f w <> VString "" /\ f (f w) = f w.

(** ** The CRUD handlers

    The Student and Course schemas are not among the sources, so what the
    store answers is left open: a handler is a script that sends a response
    or awaits a query and goes on from the reply, whatever it is. *)

Inductive Query : Type :=
| CourseFindOne (Course_Name : value)
| StudentFindOne (rollNumber : string)
| StudentSave (studentData : object)
| StudentFind
| StudentFindById (id : ObjectId)
| StudentFindByIdAndUpdate (id : ObjectId) (updateData : object)
| StudentFindByIdAndDelete (id : ObjectId).

(** What an awaited query yields: a value ([null] when nothing matches), a
    Mongoose validation error with its message per field, or any other
    error. *)
Inductive Reply : Type :=
| Resolved (v : value)
| ValidationError (errors : list (string * string))
| Rejected (message : string).

Inductive Json : Type :=
| JsonMessage (message : string)
| JsonValidation (details : list (string * string))
| JsonValue (v : value).

Inductive Script : Type :=
| Send (status : nat) (body : Json)
| Await (q : Query) (k : Reply -> Script).

(** The [catch] of [createStudent] and [updateStudent]. *)
Definition orCatch (failure : string) (r : Reply) (k : value -> Script)
  : Script :=
  match r with
  | Resolved v => k v
  | ValidationError errors => Send 400 (JsonValidation errors)
  | Rejected _ => Send 500 (JsonMessage failure)
  end.

(** The [catch] of the handlers that only read or delete. *)
Definition orFail (failure : string) (r : Reply) (k : value -> Script)
  : Script :=
  match r with
  | Resolved v => k v
  | _ => Send 500 (JsonMessage failure)
  end.

(** [v?.length]. *)
Definition lengthProp (v : value) : value :=
  match v with
  | VString s => VNumber (JS.Num (Z.of_nat (String.length s)))
  | VArray items => VNumber (JS.Num (Z.of_nat (List.length items)))
  | VObject fields => get "length" fields
  | _ => VUndefined
  end.

Definition invalidRollNumber : Json :=
  JsonMessage
    "Invalid roll number format. Use XX-2KYY-NNN (e.g., IT-2K21-36)".

(** The object literal [createStudent] hands to [processStudentData]. *)
Definition studentLiteral (body : object) (course : value) : object :=
  [("rollNumber", get "rollNumber" body);
   ("fullName", get "fullName" body);
   ("courseId", getProp "Course_Id" course);
   ("semId", get "semId" body);
   ("email", get "email" body);
   ("phoneNumber", get "phoneNumber" body);
   ("section", get "section" body);
   ("specializations",
    if truthy (lengthProp (get "specializations" body))
    then get "specializations" body
    else VNull)].

(** [createStudent]. *)
Definition createStudent (body : object) : Script :=
  let rollNumber := get "rollNumber" body in
  let fullName := get "fullName" body in
  let courseName := get "courseName" body in
  let semId := get "semId" body in
  if negb (truthy rollNumber) || negb (truthy fullName)
     || negb (truthy courseName) || negb (truthy semId)
  then
    Send 400
      (JsonMessage
         "Roll number, full name, course name, and semester ID are required")
  else
    match rollNumber with
    | VString s =>
        if negb (isValidRollNumber (VString (Text.trim s))) then
          Send 400 invalidRollNumber
        else
          Await (CourseFindOne courseName) (fun r =>
          orCatch "Failed to create student" r (fun course =>
          if negb (truthy course) then
            Send 404 (JsonMessage "Course not found")
          else
            Await (StudentFindOne (Text.trim (Text.toUpperCase s))) (fun r =>
            orCatch "Failed to create student" r (fun existing =>
            if truthy existing then
              Send 400
                (JsonMessage "Student with this roll number already exists")
            else
              match processStudentData (studentLiteral body course) with
              | Throw _ => Send 500 (JsonMessage "Failed to create student")
              | Ok studentData =>
                  Await (StudentSave studentData) (fun r =>
                  orCatch "Failed to create student" r (fun saved =>
                  Send 201 (JsonValue saved)))
              end))))
    | _ =>
        (* [rollNumber?.trim()] on a value that has no [trim] *)
        Send 500 (JsonMessage "Failed to create student")
    end.

(** The loop of [updateStudent] that deletes the keys whose value is
    [undefined]. *)
Definition deleteUndefined (o : object) : object :=
  filter (fun kv => match snd kv with VUndefined => false | _ => true end) o.

(** [updateStudent]. *)
Definition updateStudent (id : ObjectId) (body : object) : Script :=
  let rollNumber := get "rollNumber" body in
  if truthy rollNumber && negb (isValidRollNumber rollNumber) then
    Send 400 invalidRollNumber
  else
    match processStudentData body with
    | Throw _ => Send 500 (JsonMessage "Failed to update student")
    | Ok updateData =>
        Await (StudentFindByIdAndUpdate id (deleteUndefined updateData))
          (fun r =>
          orCatch "Failed to update student" r (fun updated =>
          if negb (truthy updated) then
            Send 404 (JsonMessage "Student not found")
          else Send 200 (JsonValue updated)))
    end.

(** [getStudents]. *)
Definition getStudents : Script :=
  Await StudentFind (fun r =>
  orFail "Failed to fetch students" r (fun found =>
  Send 200 (JsonValue found))).

(** [getStudentById]. *)
Definition getStudentById (id : ObjectId) : Script :=
  Await (StudentFindById id) (fun r =>
  orFail "Failed to fetch student" r (fun student =>
  if negb (truthy student) then Send 404 (JsonMessage "Student not found")
  else Send 200 (JsonValue student))).

(** [deleteStudent]. *)
Definition deleteStudent (id : ObjectId) : Script :=
  Await (StudentFindByIdAndDelete id) (fun r =>
  orFail "Failed to delete student" r (fun deleted =>
  if negb (truthy deleted) then Send 404 (JsonMessage "Student not found")
  else Send 200 (JsonMessage "Student deleted successfully"))).

(** Run a script against a store that answers each query knowing the
    queries made before it: the response sent and the queries made, in
    order. *)
Fixpoint runFrom (asked : list Query) (s : Script)
    (storage : list Query -> Query -> Reply)
  : (nat * Json) * list Query :=
  match s with
  | Send status body => ((status, body), [])
  | Await q k =>
      let '(sent, qs) :=
        runFrom (asked ++ [q])%list (k (storage asked q)) storage in
      (sent, q :: qs)
  end.

Definition run (s : Script) (storage : list Query -> Query -> Reply)
  : (nat * Json) * list Query :=
  runFrom [] s storage.

(** A request body that sets every key the handlers read, and some they do
    not. *)
Definition sampleBody : object :=
  [("rollNumber", VString " it-2k21-36 "); ("fullName", VString "");
   ("semId", VNumber (JS.Num 0)); ("email", VNull);
   ("specializations", VArray [VString ""; VString "AI"; VNull]);
   ("academicYear", VString "2030-31"); ("_id", VString "other")].

(** A store that knows one course and no student, and saves what it is
    given. *)
Definition emptyCollege (asked : list Query) (q : Query) : Reply :=
  match q with
  | CourseFindOne (VString "MCA") =>
      Resolved (VObject [("Course_Id", VString "C-MCA")])
  | StudentSave studentData => Resolved (VObject studentData)
  | StudentFind => Resolved (VArray [])
  | _ => Resolved VNull
  end.

Definition newStudent : object :=
  [("rollNumber", VString " it-2k21-36 "); ("fullName", VString "Asha");
   ("courseName", VString "MCA"); ("semId", VString "1");
   ("courseId", VString "forged"); ("academicYear", VString "2030-31")].

(** * Properties *)

(** ** The primitives and the handlers on examples *)

Example parseInt10_examples :
  JS.parseInt10 "4" = JS.Num 4
  /\ JS.parseInt10 "  -42abc" = JS.Num (-42)
  /\ JS.parseInt10 "+7" = JS.Num 7
  /\ JS.parseInt10 "0" = JS.Num 0
  /\ JS.parseInt10 "0x10" = JS.Num 0
  /\ JS.parseInt10 "abc" = JS.NaN
  /\ JS.parseInt10 "" = JS.NaN
  /\ JS.parseInt10 "-" = JS.NaN.
Proof. repeat split. Qed.

Example toString_examples :
  JS.toString (JS.Num 2100) = "2100"
  /\ JS.toString (JS.Num 0) = "0"
  /\ JS.toString (JS.Num (-7)) = "-7"
  /\ JS.toString JS.NaN = "NaN".
Proof. repeat split. Qed.

Example slice_examples :
  JS.slice (-2) "2101" = "01"
  /\ JS.slice (-2) "7" = "7"
  /\ JS.slice (-2) "NaN" = "aN"
  /\ JS.slice (-2) "" = "".
Proof. repeat split. Qed.

Example splitFirst_examples :
  JS.splitFirst "2024-25" = "2024"
  /\ JS.splitFirst "2024" = "2024"
  /\ JS.splitFirst "-5-04" = ""
  /\ JS.splitFirst "" = "".
Proof. repeat split. Qed.

(** A label whose start year does not parse. *)
Example forwardYear_malformed : forwardYear "next year" = "NaN-aN".
Proof. reflexivity. Qed.

(** Semester "4", year "2024-25", eight semesters: Advance stores "5" and
    "2025-26". *)
Example Advance_even_semester :
  Advance ["s1"] (sampleDb "4" "2024-25")
  = (mkResponse 200
       (PromoteOk 1 1 0 [Promoted.mk "s1" (JS.Num 4) (JS.Num 5) "2025-26"]
          []),
     sampleDb "5" "2025-26").
Proof. reflexivity. Qed.

(** Semester "8" on an eight-semester course is skipped. *)
Example Advance_last_semester :
  Advance ["s1"] (sampleDb "8" "2027-28")
  = (mkResponse 200
       (PromoteOk 1 0 1 [] [Skipped.mk "s1" "Final semester"]),
     sampleDb "8" "2027-28").
Proof. reflexivity. Qed.

(** A student of a course the catalog does not have. *)
Example Advance_unknown_course :
  let db :=
    mkDatabase [Student.mk "s1" "BBA" "abc" "2024-25"] sampleCourses [] in
  Advance ["s1"] db
  = (mkResponse 200 (PromoteOk 1 0 1 [] [Skipped.mk "s1" "Course not found"]),
     db).
Proof. reflexivity. Qed.

(** Semester "5", year "2025-26": normal rollback stores "4" and keeps the
    year. *)
Example Rollback_odd_semester :
  snd (Rollback ["s1"] false (sampleDb "5" "2025-26"))
  = sampleDb "4" "2025-26".
Proof. reflexivity. Qed.

(** The accesses of a promotion, and of one whose write fails: the
    transaction is aborted and nothing is committed. *)
Example promote_trace :
  trace (snd (promoteStudentsToNextSemester (batch ["s1"] false)
                (sampleDb "4" "2024-25") None))
  = [Read Students; Read Courses; Write Students]
  /\ promoteStudentsToNextSemester (batch ["s1"] false)
       (sampleDb "4" "2024-25") (Some 2%nat)
     = (mkResponse 500 (Failure "Promotion failed" storageError),
        mkSession (sampleDb "4" "2024-25") (sampleDb "4" "2024-25")
          [Read Students; Read Courses; Write Students] (Some 0%nat)).
Proof. split; reflexivity. Qed.

(** ** Decimal printing and parsing *)

Section Decimal.

Lemma digit_cases (d : Z) :
  0 <= d < 10 ->
  d = 0 \/ d = 1 \/ d = 2 \/ d = 3 \/ d = 4 \/ d = 5 \/ d = 6 \/ d = 7
  \/ d = 8 \/ d = 9.
Proof. lia. Qed.

Ltac each_digit d H :=
  let C := fresh in
  pose proof (digit_cases d H) as C;
  repeat (destruct C as [C | C]; [subst d | ]); [.. | subst d].

Lemma digitValue_digitChar (d : Z) :
  0 <= d < 10 -> JS.digitValue (JS.digitChar d) = Some d.
Proof. intros H; each_digit d H; reflexivity. Qed.

Lemma digitChar_plain (d : Z) :
  0 <= d < 10 ->
  JS.isWhiteSpace (JS.digitChar d) = false
  /\ Ascii.eqb (JS.digitChar d) "-" = false
  /\ Ascii.eqb (JS.digitChar d) "+" = false.
Proof. intros H; each_digit d H; repeat split; reflexivity. Qed.

Lemma append_assoc (a b c : string) : (a ++ b) ++ c = a ++ (b ++ c).
Proof. induction a as [| x a IH]; simpl; [reflexivity | now rewrite IH]. Qed.

Lemma append_nil_r (a : string) : a ++ "" = a.
Proof. induction a as [| x a IH]; simpl; [reflexivity | now rewrite IH]. Qed.

Lemma length_append (a b : string) :
  String.length (a ++ b) = (String.length a + String.length b)%nat.
Proof. induction a as [| x a IH]; simpl; [reflexivity | now rewrite IH]. Qed.

Lemma digitsAux_app (f : nat) :
  forall n acc, JS.digitsAux f n acc = JS.digitsAux f n "" ++ acc.
Proof.
  induction f as [| f IH]; intros n acc; simpl.
  - reflexivity.
  - destruct (n <? 10).
    + reflexivity.
    + rewrite IH. rewrite (IH _ (String _ "")).
      rewrite append_assoc. reflexivity.
Qed.

Lemma parseDigits_digitsAux (f : nat) :
  forall n rest,
    0 <= n < 2 ^ Z.of_nat f -> f <> O ->
    JS.parseDigits (JS.digitsAux f n rest) None
    = JS.parseDigits rest (Some n).
Proof.
  induction f as [| f IH]; intros n rest Hn Hf; [congruence |].
  simpl. destruct (Z.ltb_spec n 10) as [Hlt | Hge].
  - cbn [JS.parseDigits]. rewrite Z.mod_small by lia.
    rewrite digitValue_digitChar by lia. reflexivity.
  - assert (Hq : 0 <= n / 10 < 2 ^ Z.of_nat f).
    { split; [apply Z.div_pos; lia |].
      apply Z.div_lt_upper_bound; [lia |].
      rewrite Nat2Z.inj_succ, Z.pow_succ_r in Hn by lia. lia. }
    assert (Hf' : f <> O).
    { intros ->. simpl in Hq. assert (1 <= n / 10).
      { apply Z.div_le_lower_bound; lia. } lia. }
    rewrite IH by assumption. cbn [JS.parseDigits].
    rewrite digitValue_digitChar by (apply Z.mod_pos_bound; lia).
    rewrite <- Z.div_mod by lia. reflexivity.
Qed.

Lemma digits_fuel (n : Z) :
  0 <= n -> 0 <= n < 2 ^ Z.of_nat (S (Z.to_nat (Z.log2 n))).
Proof.
  intros Hn. split; [assumption |].
  rewrite Nat2Z.inj_succ, Z2Nat.id by apply Z.log2_nonneg.
  destruct (Z.eq_dec n 0) as [-> | Hz]; [reflexivity |].
  apply Z.log2_spec. lia.
Qed.

Lemma parseDigits_digits (n : Z) (rest : string) :
  0 <= n ->
  JS.parseDigits (JS.digits n ++ rest) None = JS.parseDigits rest (Some n).
Proof.
  intros Hn. unfold JS.digits.
  rewrite <- digitsAux_app.
  apply parseDigits_digitsAux; [apply digits_fuel; assumption | discriminate].
Qed.

Lemma digitsAux_head (f : nat) :
  forall m acc,
    exists d r,
      0 <= d < 10 /\ JS.digitsAux (S f) m acc = String (JS.digitChar d) r.
Proof.
  induction f as [| f IH]; intros m acc.
  - exists (m mod 10). simpl. destruct (m <? 10); eexists; split;
      try reflexivity; apply Z.mod_pos_bound; lia.
  - cbn [JS.digitsAux]. destruct (m <? 10).
    + exists (m mod 10). eexists. split;
        [apply Z.mod_pos_bound; lia | reflexivity].
    + apply IH.
Qed.

Lemma digits_head (n : Z) :
  exists d r, 0 <= d < 10 /\ JS.digits n = String (JS.digitChar d) r.
Proof. unfold JS.digits. apply digitsAux_head. Qed.

(** [parseInt] on a string that starts with neither white space nor a
    sign. *)
Lemma parseInt10_plain (c : ascii) (r : string) :
  JS.isWhiteSpace c = false ->
  Ascii.eqb c "-" = false -> Ascii.eqb c "+" = false ->
  JS.parseInt10 (String c r)
  = match JS.parseDigits (String c r) None with
    | None => JS.NaN
    | Some m => JS.Num m
    end.
Proof.
  intros Hw Hm Hp. unfold JS.parseInt10. cbn [JS.trimStart]. rewrite Hw.
  destruct c as [b0 b1 b2 b3 b4 b5 b6 b7].
  destruct b0, b1, b2, b3, b4, b5, b6, b7; try discriminate;
    destruct (JS.parseDigits _ None) as [m |]; try reflexivity;
    f_equal; destruct m; reflexivity.
Qed.

Lemma parseInt10_digits (n : Z) :
  0 <= n -> JS.parseInt10 (JS.digits n) = JS.Num n.
Proof.
  intros Hn. destruct (digits_head n) as (d & r & Hd & E).
  destruct (digitChar_plain d Hd) as (Hw & Hm & Hp).
  pose proof (parseDigits_digits n "" Hn) as P.
  rewrite append_nil_r in P. simpl in P.
  rewrite E in *. rewrite parseInt10_plain by assumption.
  rewrite P. reflexivity.
Qed.

Lemma parseInt10_minus (r : string) :
  JS.parseInt10 (String "-" r)
  = match JS.parseDigits r None with
    | None => JS.NaN
    | Some m => JS.Num (-1 * m)
    end.
Proof. reflexivity. Qed.

(** Printing then parsing a number gives the number back. *)
Lemma parseInt10_toString (z : Z) :
  JS.parseInt10 (JS.toString (JS.Num z)) = JS.Num z.
Proof.
  unfold JS.toString. destruct (Z.ltb_spec z 0) as [Hneg | Hpos].
  - rewrite parseInt10_minus.
    pose proof (parseDigits_digits (- z) "" ltac:(lia)) as P.
    rewrite append_nil_r in P. cbn [JS.parseDigits] in P.
    rewrite P. f_equal. lia.
  - apply parseInt10_digits. assumption.
Qed.

Lemma splitFirst_digitsAux (f : nat) :
  forall n acc tail,
    JS.splitFirst (JS.digitsAux f n acc ++ tail)
    = JS.digitsAux f n "" ++ JS.splitFirst (acc ++ tail).
Proof.
  induction f as [| f IH]; intros n acc tail; [reflexivity |].
  assert (Hd : 0 <= n mod 10 < 10) by (apply Z.mod_pos_bound; lia).
  destruct (digitChar_plain _ Hd) as (_ & Hm & _).
  cbn [JS.digitsAux]. destruct (n <? 10).
  - cbn [append JS.splitFirst]. rewrite Hm. reflexivity.
  - rewrite IH. rewrite (digitsAux_app f _ (String _ "")).
    rewrite append_assoc. cbn [append JS.splitFirst]. rewrite Hm.
    reflexivity.
Qed.

(** The start year of a label is the text before its first hyphen. *)
Lemma splitFirst_digits (n : Z) (rest : string) :
  JS.splitFirst (JS.digits n ++ String "-" rest) = JS.digits n.
Proof.
  unfold JS.digits. rewrite splitFirst_digitsAux.
  cbn [append JS.splitFirst]. change (Ascii.eqb "-" "-") with true.
  cbv iota. apply append_nil_r.
Qed.

Lemma substring_skip (p t : string) (m : nat) :
  substring (String.length p) m (p ++ t) = substring 0 m t.
Proof. induction p as [| x p IH]; simpl; [reflexivity | exact IH]. Qed.

(** [slice(-2)] keeps the last two characters. *)
Lemma slice_last_two (p : string) (a b : ascii) :
  JS.slice (-2) (p ++ String a (String b "")) = String a (String b "").
Proof.
  unfold JS.slice. rewrite length_append. cbn [String.length].
  change (-2 <? 0) with true. cbv iota.
  replace (Z.to_nat (Z.max (Z.of_nat (String.length p + 2) + -2) 0))
    with (String.length p) by lia.
  replace (Z.to_nat (Z.of_nat (String.length p + 2)
                     - Z.max (Z.of_nat (String.length p + 2) + -2) 0))
    with 2%nat by lia.
  rewrite substring_skip. reflexivity.
Qed.

(** From 10 on, a number ends in its tens digit and its units digit. *)
Lemma digits_last_two (n : Z) :
  10 <= n -> exists p, JS.digits n = p ++ lastTwoDigits n.
Proof.
  intros Hn. unfold JS.digits, lastTwoDigits.
  assert (Hf : (3 <= Z.to_nat (Z.log2 n))%nat).
  { assert (Z.log2 8 <= Z.log2 n) by (apply Z.log2_le_mono; lia).
    change (Z.log2 8) with 3 in *. lia. }
  destruct (Z.to_nat (Z.log2 n)) as [| f]; [lia |].
  cbn [JS.digitsAux].
  destruct (Z.ltb_spec n 10) as [|_]; [lia |].
  destruct (n / 10 <? 10).
  - exists "". reflexivity.
  - eexists. apply digitsAux_app.
Qed.

Lemma toString_nonneg (z : Z) :
  0 <= z -> JS.toString (JS.Num z) = JS.digits z.
Proof.
  intros Hz. unfold JS.toString.
  destruct (Z.ltb_spec z 0); [lia | reflexivity].
Qed.

Lemma yearLabel_digits (m : Z) :
  0 <= m -> 10 <= m + 1 ->
  yearLabel (JS.Num m)
  = JS.toString (JS.Num m) ++ "-" ++ lastTwoDigits (m + 1).
Proof.
  intros H0 H10. unfold yearLabel. cbn [JS.add].
  rewrite (toString_nonneg (m + 1)) by lia.
  destruct (digits_last_two (m + 1) H10) as (p & ->).
  unfold lastTwoDigits at 1. rewrite slice_last_two. reflexivity.
Qed.

Lemma startYear_label (S : Z) (rest : string) :
  0 <= S ->
  JS.parseInt10 (JS.splitFirst (JS.toString (JS.Num S) ++ "-" ++ rest))
  = JS.Num S.
Proof.
  intros HS. rewrite toString_nonneg by assumption.
  cbn [append]. rewrite splitFirst_digits.
  apply parseInt10_digits. assumption.
Qed.

Lemma remIsZero_even (c : Z) : JS.remIsZero (JS.Num c) 2 = Z.even c.
Proof.
  cbn [JS.remIsZero]. rewrite Zeven_mod.
  destruct (Z.eqb_spec (Z.rem c 2) 0) as [E | E];
    destruct (Z.eqb_spec (c mod 2) 0) as [E' | E']; try reflexivity;
    exfalso; pose proof (Z.rem_mod_eq_0 c 2 ltac:(lia)); tauto.
Qed.

End Decimal.

(** ** The loop and the classification *)

Lemma promoteStep_decision (x : Student.t) (p : list Promoted.t)
    (k : list Skipped.t) (s : Session) :
  fuse s = None ->
  promoteStep x (p, k) s
  = match promoteDecision (courses (staged s)) x with
    | Skip sk =>
        (Ok (p, push k sk),
         mkSession (committed s) (staged s) (trace s ++ [Read Courses]) None)
    | Apply pl e =>
        (Ok (push p e, k),
         mkSession (committed s)
           (mkDatabase (updateFirst (Student._id x) pl (students (staged s)))
              (courses (staged s)) (attendances (staged s)))
           (trace s ++ [Read Courses] ++ [Write Students]) None)
    end.
Proof.
  intros Hf. destruct s as [c st t f]. cbn in Hf. subst f.
  unfold promoteStep, promoteDecision, bind, Course_findOne, storageCall.
  cbn [fuse staged committed trace burn courses].
  destruct (find _ (courses st)) as [course |]; [| reflexivity].
  destruct (JS.isNaN _); [reflexivity |].
  destruct (JS.geq _ _); [reflexivity |].
  unfold Student_updateOne, storageCall, ret.
  cbn [fuse staged committed trace burn courses students attendances].
  rewrite <- app_assoc. reflexivity.
Qed.

Lemma rollbackStep_decision (reset : jsval) (x : Student.t)
    (p : list RolledBack.t) (k : list Skipped.t) (s : Session) :
  fuse s = None ->
  rollbackStep reset x (p, k) s
  = match rollbackDecision reset x with
    | Skip sk =>
        (Ok (p, push k sk),
         mkSession (committed s) (staged s) (trace s ++ []) None)
    | Apply pl e =>
        (Ok (push p e, k),
         mkSession (committed s)
           (mkDatabase (updateFirst (Student._id x) pl (students (staged s)))
              (courses (staged s)) (attendances (staged s)))
           (trace s ++ [] ++ [Write Students]) None)
    end.
Proof.
  intros Hf. destruct s as [c st t f]. cbn in Hf. subst f.
  unfold rollbackStep, rollbackDecision.
  rewrite app_nil_r.
  destruct (JS.isNaN _); [reflexivity |].
  destruct (isTrue reset); [reflexivity |].
  destruct (JS.leq _ _); reflexivity.
Qed.

Section Loop.
Context {E : Type}.
Variable step :
  Student.t -> list E * list Skipped.t -> M (list E * list Skipped.t).
Variable decide : list Course.t -> Student.t -> Decision E.
Variable pre : list Access.

Hypothesis step_decision :
  forall x p k s,
    fuse s = None ->
    step x (p, k) s
    = match decide (courses (staged s)) x with
      | Skip sk =>
          (Ok (p, push k sk),
           mkSession (committed s) (staged s) (trace s ++ pre) None)
      | Apply pl e =>
          (Ok (push p e, k),
           mkSession (committed s)
             (mkDatabase
                (updateFirst (Student._id x) pl (students (staged s)))
                (courses (staged s)) (attendances (staged s)))
             (trace s ++ pre ++ [Write Students]) None)
      end.

(** Without a storage failure the loop visits every student found, in
    order, and stages what the classification says. *)
Lemma forOf_run (l : list Student.t) :
  forall p k s,
    fuse s = None ->
    forOf step l (p, k) s
    = (Ok ((p ++ appliedOf (decide (courses (staged s))) l)%list,
           (k ++ skippedOf (decide (courses (staged s))) l)%list),
       mkSession (committed s)
         (mkDatabase
            (stageAll (decide (courses (staged s))) l (students (staged s)))
            (courses (staged s)) (attendances (staged s)))
         (trace s ++ accessesOf (decide (courses (staged s))) pre l)
         None).
Proof.
  induction l as [| x l IH]; intros p k s Hf.
  - destruct s as [c [st cs ats] t f]. cbn in Hf. subst f.
    cbn. rewrite !app_nil_r. reflexivity.
  - cbn [forOf]. unfold bind. rewrite step_decision by assumption.
    cbn [appliedOf skippedOf stageAll accessesOf].
    destruct (decide (courses (staged s)) x) as [pl e | sk].
    + rewrite IH by reflexivity.
      cbn [committed staged trace courses students attendances].
      unfold push. rewrite <- !app_assoc. reflexivity.
    + rewrite IH by reflexivity.
      cbn [committed staged trace courses students attendances].
      unfold push. rewrite <- !app_assoc. reflexivity.
Qed.
End Loop.

(** ** The staged collection *)

Lemma applySet_id (p : Payload.t) (s : Student.t) :
  Student._id (applySet p s) = Student._id s.
Proof. reflexivity. Qed.

Lemma findById_updateFirst_same (id : ObjectId) (p : Payload.t)
    (l : list Student.t) :
  findById id (updateFirst id p l) = option_map (applySet p) (findById id l).
Proof.
  unfold findById. induction l as [| s l IH]; [reflexivity |].
  cbn [updateFirst find].
  destruct (String.eqb_spec (Student._id s) id) as [E | N].
  - cbn [find]. rewrite applySet_id, E, String.eqb_refl. reflexivity.
  - cbn [find]. destruct (String.eqb_spec (Student._id s) id); [easy |].
    exact IH.
Qed.

Lemma findById_updateFirst_other (id id' : ObjectId) (p : Payload.t)
    (l : list Student.t) :
  id <> id' -> findById id' (updateFirst id p l) = findById id' l.
Proof.
  intros N. unfold findById. induction l as [| s l IH]; [reflexivity |].
  cbn [updateFirst find].
  destruct (String.eqb_spec (Student._id s) id) as [E | N'].
  - cbn [find]. rewrite applySet_id.
    destruct (String.eqb_spec (Student._id s) id') as [E' | _];
      [exfalso; apply N; rewrite <- E, <- E'; reflexivity | reflexivity].
  - cbn [find]. destruct (String.eqb (Student._id s) id'); [reflexivity |].
    exact IH.
Qed.

Lemma findById_unique (l : list Student.t) (s : Student.t) :
  NoDup (map Student._id l) -> In s l -> findById (Student._id s) l = Some s.
Proof.
  unfold findById. induction l as [| x l IH]; intros Hnd Hin; [easy |].
  cbn [map] in Hnd. inversion Hnd as [| ? ? Hx Hl]; subst.
  cbn [find]. destruct Hin as [-> | Hin].
  - rewrite String.eqb_refl. reflexivity.
  - destruct (String.eqb_spec (Student._id x) (Student._id s)) as [E | _].
    + exfalso. apply Hx. rewrite E. apply in_map. assumption.
    + apply IH; assumption.
Qed.

Lemma findById_In (id : ObjectId) (l : list Student.t) (s : Student.t) :
  findById id l = Some s -> In s l /\ Student._id s = id.
Proof.
  unfold findById. intros H. apply find_some in H.
  destruct H as [Hin E]. apply String.eqb_eq in E. auto.
Qed.

Lemma NoDup_map_filter {A B : Type} (f : A -> B) (g : A -> bool)
    (l : list A) :
  NoDup (map f l) -> NoDup (map f (filter g l)).
Proof.
  induction l as [| x l IH]; intros H; [constructor |].
  cbn [map] in H. inversion H as [| ? ? Hx Hl]; subst.
  cbn [filter]. destruct (g x); [| auto].
  cbn [map]. constructor; [| auto].
  intros Hin. apply Hx. apply in_map_iff in Hin.
  destruct Hin as (y & <- & Hy). apply filter_In in Hy.
  apply in_map. tauto.
Qed.

Lemma idIn_spec (ids : list ObjectId) (s : Student.t) :
  idIn ids s = true <-> In (Student._id s) ids.
Proof.
  unfold idIn. rewrite existsb_exists. split.
  - intros (x & Hx & E). apply String.eqb_eq in E. rewrite E. exact Hx.
  - intros H. exists (Student._id s). split; [assumption |].
    apply String.eqb_refl.
Qed.

Lemma resolved_found (db : Database) (ids : list ObjectId) (s : Student.t) :
  resolved db ids s <-> In s (filter (idIn ids) (students db)).
Proof. unfold resolved. rewrite filter_In, idIn_spec. tauto. Qed.

Section Staging.
Context {E : Type}.
Variable decide : Student.t -> Decision E.

Lemma stageAll_untouched (l : list Student.t) :
  forall docs id,
    ~ In id (map Student._id l) ->
    findById id (stageAll decide l docs) = findById id docs.
Proof.
  induction l as [| x l IH]; intros docs id Hid; [reflexivity |].
  cbn [map In] in Hid. cbn [stageAll].
  rewrite IH by tauto.
  destruct (decide x); [| reflexivity].
  apply findById_updateFirst_other. tauto.
Qed.

(** Every student the loop visits ends as its own decision leaves it:
    no iteration disturbs another student's document. *)
Lemma stageAll_visited (l : list Student.t) :
  forall docs,
    NoDup (map Student._id l) ->
    (forall s, In s l -> findById (Student._id s) docs = Some s) ->
    forall s,
      In s l ->
      findById (Student._id s) (stageAll decide l docs)
      = Some (after decide s).
Proof.
  induction l as [| x l IH]; intros docs Hnd Hdocs s Hin; [easy |].
  cbn [map] in Hnd. inversion Hnd as [| ? ? Hx Hl]; subst.
  cbn [stageAll]. destruct Hin as [-> | Hin].
  - rewrite stageAll_untouched by assumption.
    unfold after. destruct (decide s).
    + rewrite findById_updateFirst_same, Hdocs by (left; reflexivity).
      reflexivity.
    + apply Hdocs. left. reflexivity.
  - apply IH; [assumption | | assumption].
    intros y Hy. destruct (decide x).
    + rewrite findById_updateFirst_other.
      * apply Hdocs. right. assumption.
      * intros E'. apply Hx. rewrite E'. apply in_map. assumption.
    + apply Hdocs. right. assumption.
Qed.

Lemma appliedOf_In (l : list Student.t) (s : Student.t) (p : Payload.t)
    (e : E) :
  In s l -> decide s = Apply p e -> In e (appliedOf decide l).
Proof.
  induction l as [| x l IH]; intros Hin Hd; [easy |].
  cbn [appliedOf]. destruct Hin as [-> | Hin].
  - rewrite Hd. left. reflexivity.
  - destruct (decide x); [right |]; auto.
Qed.

Lemma skippedOf_In (l : list Student.t) (s : Student.t) (k : Skipped.t) :
  In s l -> decide s = Skip k -> In k (skippedOf decide l).
Proof.
  induction l as [| x l IH]; intros Hin Hd; [easy |].
  cbn [skippedOf]. destruct Hin as [-> | Hin].
  - rewrite Hd. left. reflexivity.
  - destruct (decide x); [| right]; auto.
Qed.

Variable idOf : E -> ObjectId.
Hypothesis decide_ids :
  forall s,
    match decide s with
    | Apply _ e => idOf e = Student._id s
    | Skip k => Skipped.studentId k = Student._id s
    end.

(** Each student visited yields one entry, in one of the two lists. *)
Lemma outcome_ids (l : list Student.t) :
  Permutation
    (map idOf (appliedOf decide l)
     ++ map Skipped.studentId (skippedOf decide l))
    (map Student._id l).
Proof.
  induction l as [| x l IH]; [constructor |].
  cbn [appliedOf skippedOf map]. pose proof (decide_ids x) as Hx.
  destruct (decide x) as [p e | k]; cbn [map].
  - cbn [app]. rewrite Hx. constructor. exact IH.
  - rewrite <- Hx. symmetry. apply Permutation_cons_app.
    symmetry. exact IH.
Qed.
End Staging.

(** ** A batch run without storage failure *)

Lemma promote_run (ids : list ObjectId) (ra : jsval) (db : Database) :
  ids <> [] ->
  filter (idIn ids) (students db) <> [] ->
  promoteStudentsToNextSemester (mkRequest (JArray ids) ra) db None
  = let found := filter (idIn ids) (students db) in
    let decide := promoteDecision (courses db) in
    let db' :=
      mkDatabase (stageAll decide found (students db)) (courses db)
        (attendances db) in
    (mkResponse 200
       (PromoteOk (List.length ids) (List.length (appliedOf decide found))
          (List.length (skippedOf decide found)) (appliedOf decide found)
          (skippedOf decide found)),
     mkSession db' db'
       ([Read Students] ++ accessesOf decide [Read Courses] found) None).
Proof.
  intros Hids Hfound. destruct ids as [| i r]; [congruence |].
  unfold promoteStudentsToNextSemester, promoteTry. cbn [studentIds].
  unfold bind at 1. unfold Student_find, storageCall, startSession.
  cbn [fuse staged committed trace burn app].
  destruct (filter (idIn (i :: r)) (students db)) as [| x found] eqn:F;
    [congruence |].
  unfold bind at 1.
  rewrite (forOf_run promoteStep promoteDecision [Read Courses]
             promoteStep_decision) by reflexivity.
  cbn [fuse staged committed trace courses students attendances].
  reflexivity.
Qed.

Lemma rollback_run (ids : list ObjectId) (ra : jsval) (db : Database) :
  ids <> [] ->
  rollbackStudents (mkRequest (JArray ids) ra) db None
  = let found := filter (idIn ids) (students db) in
    let decide := rollbackDecision ra in
    let db' :=
      mkDatabase (stageAll decide found (students db)) (courses db)
        (attendances db) in
    (mkResponse 200
       (RollbackOk (List.length ids) (List.length (appliedOf decide found))
          (List.length (skippedOf decide found)) (appliedOf decide found)
          (skippedOf decide found)),
     mkSession db' db' ([Read Students] ++ accessesOf decide [] found) None).
Proof.
  intros Hids. destruct ids as [| i r]; [congruence |].
  unfold rollbackStudents, rollbackTry. cbn [studentIds resetAttendance].
  unfold bind at 1. unfold Student_find, storageCall, startSession.
  cbn [fuse staged committed trace burn app].
  unfold bind at 1.
  rewrite (forOf_run (rollbackStep ra) (fun _ => rollbackDecision ra) []
             (rollbackStep_decision ra)) by reflexivity.
  cbn [fuse staged committed trace courses students attendances].
  reflexivity.
Qed.

Lemma resolved_nonempty (db : Database) (ids : list ObjectId)
    (s : Student.t) :
  resolved db ids s ->
  ids <> [] /\ filter (idIn ids) (students db) <> [].
Proof.
  intros H. split.
  - destruct H as [_ H]. destruct ids; [easy | discriminate].
  - apply resolved_found in H.
    destruct (filter _ _); [easy | discriminate].
Qed.

(** The store after a batch: a resolved student's document is what its own
    decision makes of it. *)
Lemma Advance_resolved (db : Database) (ids : list ObjectId)
    (s : Student.t) :
  uniqueIds db -> resolved db ids s ->
  let decide := promoteDecision (courses db) in
  let found := filter (idIn ids) (students db) in
  Advance ids db
  = (mkResponse 200
       (PromoteOk (List.length ids) (List.length (appliedOf decide found))
          (List.length (skippedOf decide found)) (appliedOf decide found)
          (skippedOf decide found)),
     mkDatabase (stageAll decide found (students db)) (courses db)
       (attendances db))
  /\ findById (Student._id s) (students (snd (Advance ids db)))
     = Some (after decide s).
Proof.
  intros Hu Hr decide found.
  destruct (resolved_nonempty _ _ _ Hr) as [Hi Hf].
  assert (Run : Advance ids db
                = (mkResponse 200
                     (PromoteOk (List.length ids)
                        (List.length (appliedOf decide found))
                        (List.length (skippedOf decide found))
                        (appliedOf decide found) (skippedOf decide found)),
                   mkDatabase (stageAll decide found (students db))
                     (courses db) (attendances db))).
  { unfold Advance. rewrite promote_run by assumption. reflexivity. }
  split; [exact Run |].
  rewrite Run. cbn [snd students].
  apply stageAll_visited.
  - apply NoDup_map_filter. exact Hu.
  - intros y Hy. apply findById_unique; [exact Hu |].
    apply filter_In in Hy. tauto.
  - apply resolved_found. exact Hr.
Qed.

Lemma Rollback_resolved (db : Database) (ids : list ObjectId) (reset : bool)
    (s : Student.t) :
  uniqueIds db -> resolved db ids s ->
  let decide := rollbackDecision (JBool reset) in
  let found := filter (idIn ids) (students db) in
  Rollback ids reset db
  = (mkResponse 200
       (RollbackOk (List.length ids) (List.length (appliedOf decide found))
          (List.length (skippedOf decide found)) (appliedOf decide found)
          (skippedOf decide found)),
     mkDatabase (stageAll decide found (students db)) (courses db)
       (attendances db))
  /\ findById (Student._id s) (students (snd (Rollback ids reset db)))
     = Some (after decide s).
Proof.
  intros Hu Hr decide found.
  destruct (resolved_nonempty _ _ _ Hr) as [Hi Hf].
  assert (Run : Rollback ids reset db
                = (mkResponse 200
                     (RollbackOk (List.length ids)
                        (List.length (appliedOf decide found))
                        (List.length (skippedOf decide found))
                        (appliedOf decide found) (skippedOf decide found)),
                   mkDatabase (stageAll decide found (students db))
                     (courses db) (attendances db))).
  { unfold Rollback, batch. rewrite rollback_run by assumption. reflexivity. }
  split; [exact Run |].
  rewrite Run. cbn [snd students].
  apply stageAll_visited.
  - apply NoDup_map_filter. exact Hu.
  - intros y Hy. apply findById_unique; [exact Hu |].
    apply filter_In in Hy. tauto.
  - apply resolved_found. exact Hr.
Qed.

(** ** What each decision is *)

Lemma promoteDecision_apply (db : Database) (s : Student.t)
    (course : Course.t) (c : Z) :
  courseOf db s = Some course ->
  JS.parseInt10 (Student.semId s) = JS.Num c ->
  c < Course.No_of_Sem course ->
  promoteDecision (courses db) s
  = let year :=
      if Z.even c then forwardYear (Student.academicYear s)
      else Student.academicYear s in
    Apply (Payload.mk (Some (JS.toString (JS.Num (c + 1)))) (Some year))
      (Promoted.mk (Student._id s) (JS.Num c) (JS.Num (c + 1)) year).
Proof.
  intros Hc Hp Hlt. unfold promoteDecision. unfold courseOf in Hc.
  rewrite Hc, Hp. cbn [JS.isNaN JS.geq JS.add].
  destruct (Z.leb_spec (Course.No_of_Sem course) c); [lia |].
  rewrite remIsZero_even. reflexivity.
Qed.

Lemma promoteDecision_final (db : Database) (s : Student.t)
    (course : Course.t) (c : Z) :
  courseOf db s = Some course ->
  JS.parseInt10 (Student.semId s) = JS.Num c ->
  Course.No_of_Sem course <= c ->
  promoteDecision (courses db) s
  = Skip (Skipped.mk (Student._id s) "Final semester").
Proof.
  intros Hc Hp Hge. unfold promoteDecision. unfold courseOf in Hc.
  rewrite Hc, Hp. cbn [JS.isNaN JS.geq].
  destruct (Z.leb_spec (Course.No_of_Sem course) c); [reflexivity | lia].
Qed.

Lemma promoteDecision_invalid (db : Database) (s : Student.t)
    (course : Course.t) :
  courseOf db s = Some course ->
  JS.parseInt10 (Student.semId s) = JS.NaN ->
  promoteDecision (courses db) s
  = Skip (Skipped.mk (Student._id s) "Invalid semester").
Proof.
  intros Hc Hp. unfold promoteDecision. unfold courseOf in Hc.
  rewrite Hc, Hp. reflexivity.
Qed.

Lemma rollbackDecision_invalid (reset : jsval) (s : Student.t) :
  JS.parseInt10 (Student.semId s) = JS.NaN ->
  rollbackDecision reset s
  = Skip (Skipped.mk (Student._id s) "Invalid semester value").
Proof. intros Hp. unfold rollbackDecision. rewrite Hp. reflexivity. Qed.

Lemma rollbackDecision_reset (s : Student.t) (c : Z) :
  JS.parseInt10 (Student.semId s) = JS.Num c ->
  rollbackDecision (JBool true) s
  = Apply
      (Payload.mk None (Some (forwardYear (Student.academicYear s))))
      (RolledBack.mk (Student._id s) (Some (Student.semId s)) None None
         (Student.academicYear s) (forwardYear (Student.academicYear s))
         "RESET_YEAR_ONLY").
Proof. intros Hp. unfold rollbackDecision. rewrite Hp. reflexivity. Qed.

Lemma rollbackDecision_first (s : Student.t) (c : Z) :
  JS.parseInt10 (Student.semId s) = JS.Num c ->
  c <= 1 ->
  rollbackDecision (JBool false) s
  = Skip (Skipped.mk (Student._id s) "Already in first semester").
Proof.
  intros Hp Hc. unfold rollbackDecision. rewrite Hp.
  cbn [JS.isNaN isTrue JS.leq].
  destruct (Z.leb_spec c 1); [reflexivity | lia].
Qed.

Lemma yearLabel_nonempty (n : JS.jsnum) (d : string) :
  orElse (Some (yearLabel n)) d = yearLabel n.
Proof.
  unfold yearLabel. destruct (JS.toString n); reflexivity.
Qed.

Lemma rollbackDecision_normal (s : Student.t) (c : Z) :
  JS.parseInt10 (Student.semId s) = JS.Num c ->
  1 < c ->
  rollbackDecision (JBool false) s
  = let year :=
      if Z.even c then backwardYear (Student.academicYear s)
      else Student.academicYear s in
    Apply
      (Payload.mk (Some (JS.toString (JS.Num (c - 1))))
         (if Z.even c then Some (backwardYear (Student.academicYear s))
          else None))
      (RolledBack.mk (Student._id s) None (Some (Student.semId s))
         (Some (JS.toString (JS.Num (c - 1)))) (Student.academicYear s)
         year "NORMAL_ROLLBACK").
Proof.
  intros Hp Hc. unfold rollbackDecision. rewrite Hp.
  cbn [JS.isNaN isTrue JS.leq JS.sub].
  destruct (Z.leb_spec c 1); [lia |].
  rewrite remIsZero_even. destruct (Z.even c); cbv zeta.
  - unfold backwardYear. rewrite yearLabel_nonempty. reflexivity.
  - reflexivity.
Qed.

Lemma forwardYear_start (y : string) (S : Z) :
  JS.parseInt10 (JS.splitFirst y) = JS.Num S ->
  forwardYear y
  = JS.toString (JS.Num (S + 1)) ++ "-"
    ++ JS.slice (-2) (JS.toString (JS.Num (S + 2))).
Proof.
  intros H. unfold forwardYear, yearLabel. rewrite H. cbn [JS.add].
  replace (S + 1 + 1) with (S + 2) by lia. reflexivity.
Qed.

Lemma backwardYear_start (y : string) (S : Z) :
  JS.parseInt10 (JS.splitFirst y) = JS.Num S ->
  backwardYear y
  = JS.toString (JS.Num (S - 1)) ++ "-"
    ++ JS.slice (-2) (JS.toString (JS.Num S)).
Proof.
  intros H. unfold backwardYear, yearLabel. rewrite H. cbn [JS.add JS.sub].
  replace (S - 1 + 1) with S by lia. reflexivity.
Qed.

Lemma promoteDecision_ids (cs : list Course.t) (s : Student.t) :
  match promoteDecision cs s with
  | Apply _ e => Promoted.studentId e = Student._id s
  | Skip k => Skipped.studentId k = Student._id s
  end.
Proof.
  unfold promoteDecision. destruct (find _ cs); [| reflexivity].
  destruct (JS.isNaN _); [reflexivity |].
  destruct (JS.geq _ _); reflexivity.
Qed.

Lemma rollbackDecision_ids (reset : jsval) (s : Student.t) :
  match rollbackDecision reset s with
  | Apply _ e => RolledBack.studentId e = Student._id s
  | Skip k => Skipped.studentId k = Student._id s
  end.
Proof.
  unfold rollbackDecision. destruct (JS.isNaN _); [reflexivity |].
  destruct (isTrue reset); [reflexivity |].
  destruct (JS.leq _ _); reflexivity.
Qed.

(** ** The outcome lists of a batch *)

Lemma NoDup_app_left {A : Type} (a b : list A) (x : A) :
  NoDup (a ++ b) -> In x a -> ~ In x b.
Proof.
  induction a as [| y a IH]; intros Hnd Hin; [easy |].
  cbn [app] in Hnd. inversion Hnd as [| ? ? Hy Hr]; subst.
  destruct Hin as [-> | Hin]; [| auto].
  intros Hb. apply Hy. apply in_or_app. right. exact Hb.
Qed.

Lemma NoDup_app_right {A : Type} (a b : list A) (x : A) :
  NoDup (a ++ b) -> In x b -> ~ In x a.
Proof. intros Hnd Hb Ha. exact (NoDup_app_left a b x Hnd Ha Hb). Qed.

Lemma Advance_outcome_ids (db : Database) (ids : list ObjectId) :
  ids <> [] -> filter (idIn ids) (students db) <> [] ->
  Permutation
    (appliedIds (body (fst (Advance ids db)))
     ++ skippedIds (body (fst (Advance ids db))))
    (map Student._id (filter (idIn ids) (students db))).
Proof.
  intros Hi Hf. unfold Advance. rewrite promote_run by assumption.
  cbn [fst body appliedIds skippedIds skippedOfBody].
  apply outcome_ids. apply promoteDecision_ids.
Qed.

Lemma Rollback_outcome_ids (db : Database) (ids : list ObjectId)
    (reset : bool) :
  ids <> [] ->
  Permutation
    (appliedIds (body (fst (Rollback ids reset db)))
     ++ skippedIds (body (fst (Rollback ids reset db))))
    (map Student._id (filter (idIn ids) (students db))).
Proof.
  intros Hi. unfold Rollback, batch. rewrite rollback_run by assumption.
  cbn [fst body appliedIds skippedIds skippedOfBody].
  apply outcome_ids. apply rollbackDecision_ids.
Qed.

Lemma Advance_skip (db : Database) (ids : list ObjectId) (s : Student.t)
    (k : Skipped.t) :
  uniqueIds db -> resolved db ids s ->
  promoteDecision (courses db) s = Skip k ->
  findById (Student._id s) (students (snd (Advance ids db))) = Some s
  /\ In k (skippedOfBody (body (fst (Advance ids db))))
  /\ ~ In (Student._id s) (appliedIds (body (fst (Advance ids db)))).
Proof.
  intros Hu Hr Hd.
  destruct (Advance_resolved db ids s Hu Hr) as [Run Hs].
  destruct (resolved_nonempty _ _ _ Hr) as [Hi Hf].
  pose proof (Advance_outcome_ids db ids Hi Hf) as Perm.
  assert (Hk : In k (skippedOfBody (body (fst (Advance ids db))))).
  { rewrite Run. cbn [fst body skippedOfBody].
    apply skippedOf_In with (s := s); [apply resolved_found |]; assumption. }
  split; [| split].
  - rewrite Hs. unfold after. rewrite Hd. reflexivity.
  - exact Hk.
  - apply NoDup_app_right
      with (b := skippedIds (body (fst (Advance ids db)))).
    + apply (Permutation_NoDup (Permutation_sym Perm)).
      apply NoDup_map_filter. exact Hu.
    + pose proof (promoteDecision_ids (courses db) s) as Hid.
      rewrite Hd in Hid. rewrite <- Hid.
      unfold skippedIds. apply in_map. exact Hk.
Qed.

Lemma Advance_apply (db : Database) (ids : list ObjectId) (s : Student.t)
    (p : Payload.t) (e : Promoted.t) :
  uniqueIds db -> resolved db ids s ->
  promoteDecision (courses db) s = Apply p e ->
  findById (Student._id s) (students (snd (Advance ids db)))
  = Some (applySet p s)
  /\ In e (promotedOfBody (body (fst (Advance ids db))))
  /\ ~ In (Student._id s) (skippedIds (body (fst (Advance ids db)))).
Proof.
  intros Hu Hr Hd.
  destruct (Advance_resolved db ids s Hu Hr) as [Run Hs].
  destruct (resolved_nonempty _ _ _ Hr) as [Hi Hf].
  pose proof (Advance_outcome_ids db ids Hi Hf) as Perm.
  assert (He : In e (promotedOfBody (body (fst (Advance ids db))))).
  { rewrite Run. cbn [fst body promotedOfBody].
    apply appliedOf_In with (s := s) (p := p);
      [apply resolved_found |]; assumption. }
  split; [| split].
  - rewrite Hs. unfold after. rewrite Hd. reflexivity.
  - exact He.
  - apply NoDup_app_left
      with (a := appliedIds (body (fst (Advance ids db)))).
    + apply (Permutation_NoDup (Permutation_sym Perm)).
      apply NoDup_map_filter. exact Hu.
    + pose proof (promoteDecision_ids (courses db) s) as Hid.
      rewrite Hd in Hid. rewrite <- Hid.
      rewrite Run in *. cbn [fst body appliedIds promotedOfBody] in *.
      apply in_map. exact He.
Qed.

Lemma Rollback_skip (db : Database) (ids : list ObjectId) (reset : bool)
    (s : Student.t) (k : Skipped.t) :
  uniqueIds db -> resolved db ids s ->
  rollbackDecision (JBool reset) s = Skip k ->
  findById (Student._id s) (students (snd (Rollback ids reset db))) = Some s
  /\ In k (skippedOfBody (body (fst (Rollback ids reset db))))
  /\ ~ In (Student._id s) (appliedIds (body (fst (Rollback ids reset db)))).
Proof.
  intros Hu Hr Hd.
  destruct (Rollback_resolved db ids reset s Hu Hr) as [Run Hs].
  destruct (resolved_nonempty _ _ _ Hr) as [Hi Hf].
  pose proof (Rollback_outcome_ids db ids reset Hi) as Perm.
  assert (Hk : In k (skippedOfBody (body (fst (Rollback ids reset db))))).
  { rewrite Run. cbn [fst body skippedOfBody].
    apply skippedOf_In with (s := s); [apply resolved_found |]; assumption. }
  split; [| split].
  - rewrite Hs. unfold after. rewrite Hd. reflexivity.
  - exact Hk.
  - apply NoDup_app_right
      with (b := skippedIds (body (fst (Rollback ids reset db)))).
    + apply (Permutation_NoDup (Permutation_sym Perm)).
      apply NoDup_map_filter. exact Hu.
    + pose proof (rollbackDecision_ids (JBool reset) s) as Hid.
      rewrite Hd in Hid. rewrite <- Hid.
      unfold skippedIds. apply in_map. exact Hk.
Qed.

Lemma Rollback_apply (db : Database) (ids : list ObjectId) (reset : bool)
    (s : Student.t) (p : Payload.t) (e : RolledBack.t) :
  uniqueIds db -> resolved db ids s ->
  rollbackDecision (JBool reset) s = Apply p e ->
  findById (Student._id s) (students (snd (Rollback ids reset db)))
  = Some (applySet p s)
  /\ In e (rolledBackOfBody (body (fst (Rollback ids reset db))))
  /\ ~ In (Student._id s) (skippedIds (body (fst (Rollback ids reset db)))).
Proof.
  intros Hu Hr Hd.
  destruct (Rollback_resolved db ids reset s Hu Hr) as [Run Hs].
  destruct (resolved_nonempty _ _ _ Hr) as [Hi Hf].
  pose proof (Rollback_outcome_ids db ids reset Hi) as Perm.
  assert (He : In e (rolledBackOfBody (body (fst (Rollback ids reset db))))).
  { rewrite Run. cbn [fst body rolledBackOfBody].
    apply appliedOf_In with (s := s) (p := p);
      [apply resolved_found |]; assumption. }
  split; [| split].
  - rewrite Hs. unfold after. rewrite Hd. reflexivity.
  - exact He.
  - apply NoDup_app_left
      with (a := appliedIds (body (fst (Rollback ids reset db)))).
    + apply (Permutation_NoDup (Permutation_sym Perm)).
      apply NoDup_map_filter. exact Hu.
    + pose proof (rollbackDecision_ids (JBool reset) s) as Hid.
      rewrite Hd in Hid. rewrite <- Hid.
      rewrite Run in *. cbn [fst body appliedIds rolledBackOfBody] in *.
      apply in_map. exact He.
Qed.

Lemma Advance_accepted (db : Database) (ids : list ObjectId) :
  status (fst (Advance ids db)) = 200%nat ->
  ids <> [] /\ filter (idIn ids) (students db) <> [].
Proof.
  intros H. destruct ids as [| i r]; [discriminate H |].
  split; [discriminate |]. intros Hf. revert H.
  unfold Advance, promoteStudentsToNextSemester, promoteTry.
  cbn [studentIds]. unfold bind at 1.
  unfold Student_find, storageCall, startSession.
  cbn [fuse staged committed trace burn app]. rewrite Hf.
  discriminate.
Qed.

Lemma Rollback_accepted (db : Database) (ids : list ObjectId) (reset : bool) :
  status (fst (Rollback ids reset db)) = 200%nat -> ids <> [].
Proof. intros H. destruct ids; [discriminate H | discriminate]. Qed.

(** ** Advance followed by normal Rollback *)

Lemma updateFirst_ids (id : ObjectId) (p : Payload.t) (l : list Student.t) :
  map Student._id (updateFirst id p l) = map Student._id l.
Proof.
  induction l as [| x l IH]; [reflexivity |].
  cbn [updateFirst]. destruct (String.eqb (Student._id x) id).
  - reflexivity.
  - cbn [map]. rewrite IH. reflexivity.
Qed.

Lemma stageAll_ids {E : Type} (decide : Student.t -> Decision E)
    (l : list Student.t) :
  forall docs,
    map Student._id (stageAll decide l docs) = map Student._id docs.
Proof.
  induction l as [| x l IH]; intros docs; [reflexivity |].
  cbn [stageAll]. rewrite IH.
  destruct (decide x); [apply updateFirst_ids | reflexivity].
Qed.

Lemma Advance_uniqueIds (db : Database) (ids : list ObjectId)
    (s : Student.t) :
  uniqueIds db -> resolved db ids s -> uniqueIds (snd (Advance ids db)).
Proof.
  intros Hu Hr. destruct (Advance_resolved db ids s Hu Hr) as [Run _].
  rewrite Run. unfold uniqueIds. cbn [snd students].
  rewrite stageAll_ids. exact Hu.
Qed.

(** The round trip on any promoted student whose semester is at least 1:
    the semester comes back, and the academic year is the forward label of
    the original when the semester is even and its backward label when the
    semester is odd. *)
Lemma round_trip (db : Database) (ids : list ObjectId) (s : Student.t)
    (course : Course.t) (c : Z) :
  uniqueIds db -> resolved db ids s ->
  courseOf db s = Some course ->
  JS.parseInt10 (Student.semId s) = JS.Num c ->
  1 <= c < Course.No_of_Sem course ->
  findById (Student._id s)
    (students (snd (Rollback ids false (snd (Advance ids db)))))
  = Some
      (Student.mk (Student._id s) (Student.courseId s)
         (JS.toString (JS.Num c))
         (if Z.even c then forwardYear (Student.academicYear s)
          else backwardYear (Student.academicYear s))).
Proof.
  intros Hu Hr Hc Hp [H1 Hlt].
  pose proof (promoteDecision_apply db s course c Hc Hp Hlt) as Hd.
  cbv zeta in Hd.
  destruct (Advance_apply db ids s _ _ Hu Hr Hd) as (Hs & _ & _).
  pose proof (Advance_uniqueIds db ids s Hu Hr) as Hu'.
  set (s1 := applySet
               (Payload.mk (Some (JS.toString (JS.Num (c + 1))))
                  (Some (if Z.even c
                         then forwardYear (Student.academicYear s)
                         else Student.academicYear s))) s) in *.
  assert (Hr' : resolved (snd (Advance ids db)) ids s1).
  { split; [| exact (proj2 Hr)].
    apply findById_In in Hs. tauto. }
  assert (Hp' : JS.parseInt10 (Student.semId s1) = JS.Num (c + 1))
    by apply parseInt10_toString.
  pose proof (rollbackDecision_normal s1 (c + 1) Hp' ltac:(lia)) as Hd'.
  cbv zeta in Hd'.
  destruct (Rollback_apply _ ids false s1 _ _ Hu' Hr' Hd') as (Hs' & _ & _).
  change (Student._id s1) with (Student._id s) in Hs'. rewrite Hs'.
  unfold s1, applySet.
  cbn [Payload.semId Payload.academicYear Student._id Student.courseId
       Student.semId Student.academicYear].
  replace (c + 1 - 1) with c by lia.
  rewrite Z.even_add. change (Z.even 1) with false.
  destruct (Z.even c); reflexivity.
Qed.

(** ** Rollback and the other collections *)

Section Frame.
Variable cs : list Course.t.
Variable ats : list Attendance.t.

Let g : Session -> Session := reframe cs ats.

Lemma bind_onSession {A B : Type} (m : M A) (k : A -> M B) (s : Session) :
  m (g s) = onSession g (m s) ->
  (forall a s', k a (g s') = onSession g (k a s')) ->
  bind m k (g s) = onSession g (bind m k s).
Proof.
  intros Hm Hk. unfold bind. rewrite Hm. unfold onSession at 1.
  destruct (m s) as [[a | e] s']; cbn [fst snd]; [apply Hk | reflexivity].
Qed.

Lemma storageCall_onSession {A : Type} (a : Access)
    (f : Database -> A * Database) (s : Session) :
  (forall d,
      f (reframeDb cs ats d)
      = (fst (f d), reframeDb cs ats (snd (f d)))) ->
  storageCall a f (g s) = onSession g (storageCall a f s).
Proof.
  intros Hf. unfold storageCall, g, reframe.
  cbn [fuse staged committed trace]. rewrite Hf.
  destruct (f (staged s)) as [r d].
  destruct (fuse s) as [[| n] |]; reflexivity.
Qed.

Lemma Student_find_onSession (ids : list ObjectId) (s : Session) :
  Student_find ids (g s) = onSession g (Student_find ids s).
Proof. apply storageCall_onSession. reflexivity. Qed.

Lemma Student_updateOne_onSession (id : ObjectId) (p : Payload.t)
    (s : Session) :
  Student_updateOne id p (g s) = onSession g (Student_updateOne id p s).
Proof. apply storageCall_onSession. reflexivity. Qed.

Lemma commitTransaction_onSession (s : Session) :
  commitTransaction (g s) = onSession g (commitTransaction s).
Proof.
  unfold commitTransaction, g, reframe.
  destruct s as [c st t [[| n] |]]; reflexivity.
Qed.

Lemma rollbackStep_onSession (reset : jsval) (x : Student.t)
    (st : list RolledBack.t * list Skipped.t) (s : Session) :
  rollbackStep reset x st (g s) = onSession g (rollbackStep reset x st s).
Proof.
  unfold rollbackStep. destruct st as [rb sk].
  destruct (JS.isNaN _); [reflexivity |].
  destruct (isTrue reset).
  - apply bind_onSession;
      [apply Student_updateOne_onSession | reflexivity].
  - destruct (JS.leq _ _); [reflexivity |].
    apply bind_onSession;
      [apply Student_updateOne_onSession | reflexivity].
Qed.

Lemma forOf_onSession {A S : Type} (body : A -> S -> M S) (l : list A) :
  (forall x st s, body x st (g s) = onSession g (body x st s)) ->
  forall st s, forOf body l st (g s) = onSession g (forOf body l st s).
Proof.
  intros Hb. induction l as [| x l IH]; intros st s; [reflexivity |].
  cbn [forOf]. apply bind_onSession; [apply Hb | apply IH].
Qed.

Lemma rollbackTry_onSession (req : Request) (s : Session) :
  rollbackTry req (g s) = onSession g (rollbackTry req s).
Proof.
  unfold rollbackTry.
  destruct (studentIds req) as [| b | [| i r] |]; try reflexivity.
  apply bind_onSession; [apply Student_find_onSession |].
  intros found s'. apply bind_onSession.
  - apply forOf_onSession. apply rollbackStep_onSession.
  - intros [rb sk] s''. apply bind_onSession;
      [apply commitTransaction_onSession | reflexivity].
Qed.

(** Running [rollbackStudents] on a store with other Course and
    Attendance collections gives the same response and the same
    Students. *)
Lemma rollbackStudents_onSession (req : Request) (db : Database)
    (fault : option nat) :
  rollbackStudents req (reframeDb cs ats db) fault
  = onSession g (rollbackStudents req db fault).
Proof.
  unfold rollbackStudents.
  change (startSession (reframeDb cs ats db) fault)
    with (g (startSession db fault)).
  rewrite rollbackTry_onSession. unfold onSession at 1.
  destruct (rollbackTry req (startSession db fault)) as [[r | e] s'];
    reflexivity.
Qed.
End Frame.

Section Footprint.
Let Q (s : Session) : Prop := Forall onStudents (trace s).
Let P (st : list RolledBack.t * list Skipped.t) : Prop :=
  Forall notCourseNotFound (snd st).

Lemma bind_holds {A B : Type} (PA : A -> Prop) (PB : B -> Prop)
    (R : Session -> Prop) (m : M A) (k : A -> M B) (s : Session) :
  holds PA R (m s) ->
  (forall a s', PA a -> R s' -> holds PB R (k a s')) ->
  holds PB R (bind m k s).
Proof.
  intros [Hs Ha] Hk. unfold bind.
  destruct (m s) as [[a | e] s']; cbn [fst snd] in *.
  - apply Hk; assumption.
  - split; [assumption | exact I].
Qed.

Lemma storageCall_students {A : Type} (a : Access)
    (f : Database -> A * Database) (s : Session) :
  onStudents a -> Q s -> holds (fun _ => True) Q (storageCall a f s).
Proof.
  intros Ha Hs. unfold storageCall, holds.
  assert (Hq : Forall onStudents (trace s ++ [a])).
  { apply Forall_app.
    split; [exact Hs | constructor; [exact Ha | constructor]]. }
  destruct (f (staged s)) as [r d].
  destruct (fuse s) as [[| n] |]; split; try exact I; exact Hq.
Qed.

Lemma rollbackStep_footprint (reset : jsval) (x : Student.t)
    (st : list RolledBack.t * list Skipped.t) (s : Session) :
  P st -> Q s -> holds P Q (rollbackStep reset x st s).
Proof.
  intros Hst Hs. unfold rollbackStep. destruct st as [rb sk].
  unfold P in *. cbn [snd] in Hst.
  assert (Push : forall m,
             reasonCode m <> Some COURSE_NOT_FOUND ->
             Forall notCourseNotFound
               (push sk (Skipped.mk (Student._id x) m))).
  { intros m Hm. unfold push. apply Forall_app.
    split; [exact Hst | constructor; [exact Hm | constructor]]. }
  destruct (JS.isNaN _).
  { split; [exact Hs | apply Push; discriminate]. }
  destruct (isTrue reset).
  { eapply bind_holds.
    - apply storageCall_students; [right; reflexivity | exact Hs].
    - intros _ s' _ Hs'. split; [exact Hs' | exact Hst]. }
  destruct (JS.leq _ _).
  { split; [exact Hs | apply Push; discriminate]. }
  eapply bind_holds.
  - apply storageCall_students; [right; reflexivity | exact Hs].
  - intros _ s' _ Hs'. split; [exact Hs' | exact Hst].
Qed.

Lemma forOf_holds {A S : Type} (PS : S -> Prop) (R : Session -> Prop)
    (body : A -> S -> M S) (l : list A) :
  (forall x st s, PS st -> R s -> holds PS R (body x st s)) ->
  forall st s, PS st -> R s -> holds PS R (forOf body l st s).
Proof.
  intros Hb. induction l as [| x l IH]; intros st s Hst Hs.
  - split; assumption.
  - cbn [forOf]. eapply bind_holds; [apply Hb; assumption | exact IH].
Qed.

Lemma commitTransaction_footprint (s : Session) :
  Q s -> holds (fun _ => True) Q (commitTransaction s).
Proof.
  intros Hs. unfold commitTransaction, holds.
  destruct (fuse s) as [[| n] |]; split; try exact I; exact Hs.
Qed.

Lemma rollbackTry_footprint (req : Request) (s : Session) :
  Q s ->
  holds (fun r => Forall notCourseNotFound (skippedOfBody (body r))) Q
    (rollbackTry req s).
Proof.
  intros Hs. unfold rollbackTry.
  destruct (studentIds req) as [| b | [| i r] |];
    try (split; [exact Hs | constructor]).
  eapply bind_holds.
  - apply storageCall_students; [left; reflexivity | exact Hs].
  - intros found s' _ Hs'. eapply bind_holds.
    + apply (forOf_holds P Q); [| constructor | exact Hs'].
      intros x st s0. apply rollbackStep_footprint.
    + intros [rb sk] s'' Hst Hs''. eapply bind_holds.
      * apply commitTransaction_footprint. exact Hs''.
      * intros _ s3 _ Hs3. split; [exact Hs3 | exact Hst].
Qed.

Lemma rollbackStudents_footprint (req : Request) (db : Database)
    (fault : option nat) :
  holds (fun r => Forall notCourseNotFound (skippedOfBody (body r))) Q
    (match rollbackStudents req db fault with (r, s) => (Ok r, s) end).
Proof.
  unfold rollbackStudents.
  pose proof (rollbackTry_footprint req (startSession db fault)) as H.
  destruct (rollbackTry req (startSession db fault)) as [[r | e] s'].
  - apply H. constructor.
  - split; [| constructor]. apply H. constructor.
Qed.
End Footprint.

(** * The claims *)

(** C1.  Advance on a resolved student whose semester parses to [c] with
    [c] below the course's [No_of_Sem]: the stored semester becomes the
    decimal text of [c + 1]; the academic year is left as it was when [c] is
    odd, and when [c] is even it becomes the label of the next year (start
    year plus one, suffix recomputed from the year after).  The response
    lists the promotion. *)
Theorem C1_advance_increments_semester
    (db : Database) (ids : list ObjectId) (s : Student.t)
    (course : Course.t) (c : Z) :
  uniqueIds db -> resolved db ids s ->
  courseOf db s = Some course ->
  JS.parseInt10 (Student.semId s) = JS.Num c ->
  c < Course.No_of_Sem course ->
  JS.safeInteger c -> JS.safeInteger (c + 1) ->
  exists s',
    findById (Student._id s) (students (snd (Advance ids db))) = Some s'
    /\ Student.semId s' = JS.toString (JS.Num (c + 1))
    /\ JS.parseInt10 (Student.semId s') = JS.Num (c + 1)
    /\ (Z.odd c = true -> Student.academicYear s' = Student.academicYear s)
    /\ (Z.even c = true ->
        forall S,
          JS.parseInt10 (JS.splitFirst (Student.academicYear s)) = JS.Num S ->
          JS.safeInteger (S + 2) ->
          Student.academicYear s'
          = JS.toString (JS.Num (S + 1)) ++ "-"
            ++ JS.slice (-2) (JS.toString (JS.Num (S + 2))))
    /\ status (fst (Advance ids db)) = 200%nat
    /\ In (Promoted.mk (Student._id s) (JS.Num c) (JS.Num (c + 1))
             (Student.academicYear s'))
         (promotedOfBody (body (fst (Advance ids db))))
    /\ ~ In (Student._id s) (skippedIds (body (fst (Advance ids db)))).
Proof.
  intros Hu Hr Hc Hp Hlt _ _.
  pose proof (promoteDecision_apply db s course c Hc Hp Hlt) as Hd.
  cbv zeta in Hd.
  destruct (Advance_apply db ids s _ _ Hu Hr Hd) as (Hs & He & Hk).
  destruct (Advance_resolved db ids s Hu Hr) as [Run _].
  eexists. split; [exact Hs |].
  cbn [applySet Payload.semId Payload.academicYear Student.semId
       Student.academicYear].
  repeat split.
  - apply parseInt10_toString.
  - intros Ho. rewrite <- Z.negb_odd, Ho. reflexivity.
  - intros Hev S HS _. rewrite Hev. apply forwardYear_start. exact HS.
  - rewrite Run. reflexivity.
  - exact He.
  - exact Hk.
Qed.

Lemma C1_witness :
  let db := sampleDb "4" "2024-25" in
  let s := Student.mk "s1" "MCA" "4" "2024-25" in
  exists s',
    findById "s1" (students (snd (Advance ["s1"] db))) = Some s'
    /\ Student.semId s' = JS.toString (JS.Num (4 + 1))
    /\ JS.parseInt10 (Student.semId s') = JS.Num (4 + 1)
    /\ (Z.odd 4 = true -> Student.academicYear s' = Student.academicYear s)
    /\ (Z.even 4 = true ->
        forall S,
          JS.parseInt10 (JS.splitFirst (Student.academicYear s)) = JS.Num S ->
          JS.safeInteger (S + 2) ->
          Student.academicYear s'
          = JS.toString (JS.Num (S + 1)) ++ "-"
            ++ JS.slice (-2) (JS.toString (JS.Num (S + 2))))
    /\ status (fst (Advance ["s1"] db)) = 200%nat
    /\ In (Promoted.mk "s1" (JS.Num 4) (JS.Num (4 + 1))
             (Student.academicYear s'))
         (promotedOfBody (body (fst (Advance ["s1"] db))))
    /\ ~ In "s1" (skippedIds (body (fst (Advance ["s1"] db)))).
Proof.
  apply (C1_advance_increments_semester (sampleDb "4" "2024-25") ["s1"]
           (Student.mk "s1" "MCA" "4" "2024-25") (Course.mk "MCA" 8) 4).
  - repeat constructor. simpl. tauto.
  - split; simpl; tauto.
  - reflexivity.
  - reflexivity.
  - simpl. lia.
  - split; vm_compute; discriminate.
  - split; vm_compute; discriminate.
Defined.

(** C2, as the code has it.  Advance then normal Rollback on a promoted
    student whose semester [c] is at least 1 gives back the semester, stored
    as the decimal text of [c], and leaves identifier and course alone.
    The academic year does not come back.  With [S] the start year of the
    original label: from an even semester Advance moves the year forward
    and Rollback, starting from the odd semester reached, leaves it there,
    so the label is that of [S + 1]; from an odd semester Advance leaves the
    year and Rollback, starting from the even semester reached, moves it
    back, so the label is that of [S - 1]. *)
Theorem C2_round_trip_restores_semester
    (db : Database) (ids : list ObjectId) (s : Student.t)
    (course : Course.t) (c : Z) :
  uniqueIds db -> resolved db ids s ->
  courseOf db s = Some course ->
  JS.parseInt10 (Student.semId s) = JS.Num c ->
  1 <= c < Course.No_of_Sem course ->
  JS.safeInteger c -> JS.safeInteger (c + 1) ->
  exists s',
    findById (Student._id s)
      (students (snd (Rollback ids false (snd (Advance ids db)))))
    = Some s'
    /\ Student._id s' = Student._id s
    /\ Student.courseId s' = Student.courseId s
    /\ Student.semId s' = JS.toString (JS.Num c)
    /\ JS.parseInt10 (Student.semId s') = JS.parseInt10 (Student.semId s)
    /\ forall S,
        JS.parseInt10 (JS.splitFirst (Student.academicYear s)) = JS.Num S ->
        JS.safeInteger (S - 1) -> JS.safeInteger (S + 2) ->
        (Z.even c = true ->
         Student.academicYear s'
         = JS.toString (JS.Num (S + 1)) ++ "-"
           ++ JS.slice (-2) (JS.toString (JS.Num (S + 2))))
        /\ (Z.even c = false ->
            Student.academicYear s'
            = JS.toString (JS.Num (S - 1)) ++ "-"
              ++ JS.slice (-2) (JS.toString (JS.Num S)))
        /\ (1 <= S -> Student.academicYear s' <> Student.academicYear s).
Proof.
  intros Hu Hr Hc Hp Hrange _ _.
  eexists. split; [exact (round_trip db ids s course c Hu Hr Hc Hp Hrange) |].
  cbn [Student._id Student.courseId Student.semId Student.academicYear].
  split; [reflexivity |]. split; [reflexivity |]. split; [reflexivity |].
  split; [rewrite Hp; apply parseInt10_toString |].
  intros S HS _ _.
  pose proof (forwardYear_start _ S HS) as Hf.
  pose proof (backwardYear_start _ S HS) as Hb.
  split; [| split].
  - intros Hev. rewrite Hev. exact Hf.
  - intros Hev. rewrite Hev. exact Hb.
  - intros H1 E.
    apply (f_equal (fun t => JS.parseInt10 (JS.splitFirst t))) in E.
    cbv beta in E. rewrite HS in E.
    destruct (Z.even c).
    + rewrite Hf, startYear_label in E by lia. injection E. lia.
    + rewrite Hb, startYear_label in E by lia. injection E. lia.
Qed.

Lemma C2_witness :
  let db := sampleDb "4" "2024-25" in
  let s := Student.mk "s1" "MCA" "4" "2024-25" in
  exists s',
    findById "s1"
      (students (snd (Rollback ["s1"] false (snd (Advance ["s1"] db)))))
    = Some s'
    /\ Student._id s' = "s1"
    /\ Student.courseId s' = "MCA"
    /\ Student.semId s' = JS.toString (JS.Num 4)
    /\ JS.parseInt10 (Student.semId s') = JS.parseInt10 (Student.semId s)
    /\ forall S,
        JS.parseInt10 (JS.splitFirst (Student.academicYear s)) = JS.Num S ->
        JS.safeInteger (S - 1) -> JS.safeInteger (S + 2) ->
        (Z.even 4 = true ->
         Student.academicYear s'
         = JS.toString (JS.Num (S + 1)) ++ "-"
           ++ JS.slice (-2) (JS.toString (JS.Num (S + 2))))
        /\ (Z.even 4 = false ->
            Student.academicYear s'
            = JS.toString (JS.Num (S - 1)) ++ "-"
              ++ JS.slice (-2) (JS.toString (JS.Num S)))
        /\ (1 <= S -> Student.academicYear s' <> Student.academicYear s).
Proof.
  apply (C2_round_trip_restores_semester (sampleDb "4" "2024-25") ["s1"]
           (Student.mk "s1" "MCA" "4" "2024-25") (Course.mk "MCA" 8) 4).
  - repeat constructor. simpl. tauto.
  - split; simpl; tauto.
  - reflexivity.
  - reflexivity.
  - simpl. lia.
  - split; vm_compute; discriminate.
  - split; vm_compute; discriminate.
Defined.

(** C2 as stated fails: the round trip does not give the pair back.  From
    ("4", "2024-25") it ends at ("4", "2025-26") and from ("3", "2024-25")
    at ("3", "2023-24"): both handlers move the year exactly when the
    semester they start from is even.  Below semester 1 the semester is not
    given back either: "0" is promoted to "1", which Rollback skips as the
    first semester. *)
Lemma C2_counterexample :
  let even := sampleDb "4" "2024-25" in
  let odd := sampleDb "3" "2024-25" in
  let zero := sampleDb "0" "2024-25" in
  students (snd (Advance ["s1"] even))
  = [Student.mk "s1" "MCA" "5" "2025-26"]
  /\ students (snd (Rollback ["s1"] false (snd (Advance ["s1"] even))))
     = [Student.mk "s1" "MCA" "4" "2025-26"]
  /\ students (snd (Advance ["s1"] odd))
     = [Student.mk "s1" "MCA" "4" "2024-25"]
  /\ students (snd (Rollback ["s1"] false (snd (Advance ["s1"] odd))))
     = [Student.mk "s1" "MCA" "3" "2023-24"]
  /\ snd (Rollback ["s1"] false (snd (Advance ["s1"] even))) <> even
  /\ snd (Rollback ["s1"] false (snd (Advance ["s1"] odd))) <> odd
  /\ students (snd (Rollback ["s1"] false (snd (Advance ["s1"] zero))))
     = [Student.mk "s1" "MCA" "1" "2025-26"].
Proof. repeat split; discriminate. Qed.

(** C3.  Advance on a resolved student whose parsed semester is at or above
    the course's [No_of_Sem]: the student is pushed to [skipped] with the
    FINAL_SEMESTER message, is not listed as promoted, and its stored
    document is unchanged. *)
Theorem C3_advance_final_semester
    (db : Database) (ids : list ObjectId) (s : Student.t)
    (course : Course.t) (c : Z) :
  uniqueIds db -> resolved db ids s ->
  courseOf db s = Some course ->
  JS.parseInt10 (Student.semId s) = JS.Num c ->
  Course.No_of_Sem course <= c ->
  JS.safeInteger c ->
  findById (Student._id s) (students (snd (Advance ids db))) = Some s
  /\ (exists k,
        In k (skippedOfBody (body (fst (Advance ids db))))
        /\ Skipped.studentId k = Student._id s
        /\ reasonCode (Skipped.reason k) = Some FINAL_SEMESTER)
  /\ ~ In (Student._id s) (appliedIds (body (fst (Advance ids db)))).
Proof.
  intros Hu Hr Hc Hp Hge _.
  pose proof (promoteDecision_final db s course c Hc Hp Hge) as Hd.
  destruct (Advance_skip db ids s _ Hu Hr Hd) as (Hs & Hk & Ha).
  split; [exact Hs | split; [| exact Ha]].
  eexists. split; [exact Hk |]. split; reflexivity.
Qed.

Lemma C3_witness :
  let db := sampleDb "8" "2024-25" in
  let s := Student.mk "s1" "MCA" "8" "2024-25" in
  findById "s1" (students (snd (Advance ["s1"] db))) = Some s
  /\ (exists k,
        In k (skippedOfBody (body (fst (Advance ["s1"] db))))
        /\ Skipped.studentId k = "s1"
        /\ reasonCode (Skipped.reason k) = Some FINAL_SEMESTER)
  /\ ~ In "s1" (appliedIds (body (fst (Advance ["s1"] db)))).
Proof.
  apply (C3_advance_final_semester (sampleDb "8" "2024-25") ["s1"]
           (Student.mk "s1" "MCA" "8" "2024-25") (Course.mk "MCA" 8) 8).
  - repeat constructor. simpl. tauto.
  - split; simpl; tauto.
  - reflexivity.
  - reflexivity.
  - simpl. lia.
  - split; vm_compute; discriminate.
Defined.

(** C4.  Normal rollback ([resetAttendance] false) of a resolved student
    whose semester parses to [c].  If [c <= 1] the student is skipped with
    the ALREADY_FIRST_SEMESTER message and its document is unchanged.
    Otherwise the stored semester becomes the decimal text of [c - 1], the
    academic year becomes the label of the previous year when [c] is even
    (start year [S - 1], for a start year [S] with [S - 1] a safe integer)
    and stays as it was when [c] is not even, and the entry pushed to
    [rolledBack] has type NORMAL_ROLLBACK. *)
Theorem C4_normal_rollback
    (db : Database) (ids : list ObjectId) (s : Student.t) (c : Z) :
  uniqueIds db -> resolved db ids s ->
  JS.parseInt10 (Student.semId s) = JS.Num c ->
  JS.safeInteger c -> JS.safeInteger (c - 1) ->
  (c <= 1 ->
   findById (Student._id s) (students (snd (Rollback ids false db))) = Some s
   /\ (exists k,
         In k (skippedOfBody (body (fst (Rollback ids false db))))
         /\ Skipped.studentId k = Student._id s
         /\ reasonCode (Skipped.reason k) = Some ALREADY_FIRST_SEMESTER)
   /\ ~ In (Student._id s)
          (appliedIds (body (fst (Rollback ids false db)))))
  /\ (1 < c ->
      exists s',
        findById (Student._id s) (students (snd (Rollback ids false db)))
        = Some s'
        /\ Student.semId s' = JS.toString (JS.Num (c - 1))
        /\ JS.parseInt10 (Student.semId s') = JS.Num (c - 1)
        /\ (Z.even c = true ->
            forall S,
              JS.parseInt10 (JS.splitFirst (Student.academicYear s))
              = JS.Num S ->
              JS.safeInteger (S - 1) ->
              Student.academicYear s'
              = JS.toString (JS.Num (S - 1)) ++ "-"
                ++ JS.slice (-2) (JS.toString (JS.Num S)))
        /\ (Z.even c = false ->
            Student.academicYear s' = Student.academicYear s)
        /\ (exists e,
              In e (rolledBackOfBody (body (fst (Rollback ids false db))))
              /\ RolledBack.studentId e = Student._id s
              /\ RolledBack.type e = "NORMAL_ROLLBACK"
              /\ RolledBack.fromSem e = Some (Student.semId s)
              /\ RolledBack.toSem e = Some (Student.semId s')
              /\ RolledBack.academicYearFrom e = Student.academicYear s
              /\ RolledBack.academicYearTo e = Student.academicYear s')
        /\ ~ In (Student._id s)
               (skippedIds (body (fst (Rollback ids false db))))).
Proof.
  intros Hu Hr Hp _ _. split.
  - intros Hc.
    pose proof (rollbackDecision_first s c Hp Hc) as Hd.
    destruct (Rollback_skip db ids false s _ Hu Hr Hd) as (Hs & Hk & Ha).
    split; [exact Hs | split; [| exact Ha]].
    eexists. split; [exact Hk |]. split; reflexivity.
  - intros Hc.
    pose proof (rollbackDecision_normal s c Hp Hc) as Hd. cbv zeta in Hd.
    destruct (Rollback_apply db ids false s _ _ Hu Hr Hd) as (Hs & He & Hk).
    eexists. split; [exact Hs |].
    cbn [applySet Payload.semId Payload.academicYear Student.semId
         Student.academicYear].
    split; [reflexivity |]. split; [apply parseInt10_toString |].
    split; [| split; [| split; [| exact Hk]]].
    + intros Hev S HS _. rewrite Hev. apply backwardYear_start. exact HS.
    + intros Hev. rewrite Hev. reflexivity.
    + eexists. split; [exact He |].
      cbn [RolledBack.studentId RolledBack.type RolledBack.fromSem
           RolledBack.toSem RolledBack.academicYearFrom
           RolledBack.academicYearTo].
      repeat split. destruct (Z.even c); reflexivity.
Qed.

Lemma C4_witness :
  let db := sampleDb "2" "2025-26" in
  let s := Student.mk "s1" "MCA" "2" "2025-26" in
  (2 <= 1 ->
   findById "s1" (students (snd (Rollback ["s1"] false db))) = Some s
   /\ (exists k,
         In k (skippedOfBody (body (fst (Rollback ["s1"] false db))))
         /\ Skipped.studentId k = "s1"
         /\ reasonCode (Skipped.reason k) = Some ALREADY_FIRST_SEMESTER)
   /\ ~ In "s1" (appliedIds (body (fst (Rollback ["s1"] false db)))))
  /\ (1 < 2 ->
      exists s',
        findById "s1" (students (snd (Rollback ["s1"] false db))) = Some s'
        /\ Student.semId s' = JS.toString (JS.Num (2 - 1))
        /\ JS.parseInt10 (Student.semId s') = JS.Num (2 - 1)
        /\ (Z.even 2 = true ->
            forall S,
              JS.parseInt10 (JS.splitFirst (Student.academicYear s))
              = JS.Num S ->
              JS.safeInteger (S - 1) ->
              Student.academicYear s'
              = JS.toString (JS.Num (S - 1)) ++ "-"
                ++ JS.slice (-2) (JS.toString (JS.Num S)))
        /\ (Z.even 2 = false ->
            Student.academicYear s' = Student.academicYear s)
        /\ (exists e,
              In e (rolledBackOfBody (body (fst (Rollback ["s1"] false db))))
              /\ RolledBack.studentId e = "s1"
              /\ RolledBack.type e = "NORMAL_ROLLBACK"
              /\ RolledBack.fromSem e = Some (Student.semId s)
              /\ RolledBack.toSem e = Some (Student.semId s')
              /\ RolledBack.academicYearFrom e = Student.academicYear s
              /\ RolledBack.academicYearTo e = Student.academicYear s')
        /\ ~ In "s1" (skippedIds (body (fst (Rollback ["s1"] false db))))).
Proof.
  apply (C4_normal_rollback (sampleDb "2" "2025-26") ["s1"]
           (Student.mk "s1" "MCA" "2" "2025-26") 2).
  - repeat constructor. simpl. tauto.
  - split; simpl; tauto.
  - reflexivity.
  - split; vm_compute; discriminate.
  - split; vm_compute; discriminate.
Defined.

(** C5, as the code has it.  Rollback with [resetAttendance] true on a
    resolved student whose semester parses: the stored semester is
    unchanged, the academic year becomes the label of the next year whatever
    the parity of the semester (start year [S + 1], for a start year [S]
    with [S + 2] a safe integer), and the entry pushed to [rolledBack] has
    type RESET_YEAR_ONLY. *)
Theorem C5_reset_year_only
    (db : Database) (ids : list ObjectId) (s : Student.t) (c : Z) :
  uniqueIds db -> resolved db ids s ->
  JS.parseInt10 (Student.semId s) = JS.Num c ->
  exists s',
    findById (Student._id s) (students (snd (Rollback ids true db))) = Some s'
    /\ Student.semId s' = Student.semId s
    /\ (forall S,
          JS.parseInt10 (JS.splitFirst (Student.academicYear s)) = JS.Num S ->
          JS.safeInteger (S + 2) ->
          Student.academicYear s'
          = JS.toString (JS.Num (S + 1)) ++ "-"
            ++ JS.slice (-2) (JS.toString (JS.Num (S + 2))))
    /\ (exists e,
          In e (rolledBackOfBody (body (fst (Rollback ids true db))))
          /\ RolledBack.studentId e = Student._id s
          /\ RolledBack.type e = "RESET_YEAR_ONLY"
          /\ RolledBack.sem e = Some (Student.semId s)
          /\ RolledBack.academicYearFrom e = Student.academicYear s
          /\ RolledBack.academicYearTo e = Student.academicYear s')
    /\ ~ In (Student._id s) (skippedIds (body (fst (Rollback ids true db)))).
Proof.
  intros Hu Hr Hp.
  pose proof (rollbackDecision_reset s c Hp) as Hd.
  destruct (Rollback_apply db ids true s _ _ Hu Hr Hd) as (Hs & He & Hk).
  eexists. split; [exact Hs |].
  cbn [applySet Payload.semId Payload.academicYear Student.semId
       Student.academicYear].
  split; [reflexivity |].
  split; [| split; [| exact Hk]].
  - intros S HS _. apply forwardYear_start. exact HS.
  - eexists. split; [exact He |]. repeat split.
Qed.

Lemma C5_witness :
  let db := sampleDb "3" "2024-25" in
  let s := Student.mk "s1" "MCA" "3" "2024-25" in
  exists s',
    findById "s1" (students (snd (Rollback ["s1"] true db))) = Some s'
    /\ Student.semId s' = Student.semId s
    /\ (forall S,
          JS.parseInt10 (JS.splitFirst (Student.academicYear s)) = JS.Num S ->
          JS.safeInteger (S + 2) ->
          Student.academicYear s'
          = JS.toString (JS.Num (S + 1)) ++ "-"
            ++ JS.slice (-2) (JS.toString (JS.Num (S + 2))))
    /\ (exists e,
          In e (rolledBackOfBody (body (fst (Rollback ["s1"] true db))))
          /\ RolledBack.studentId e = "s1"
          /\ RolledBack.type e = "RESET_YEAR_ONLY"
          /\ RolledBack.sem e = Some (Student.semId s)
          /\ RolledBack.academicYearFrom e = Student.academicYear s
          /\ RolledBack.academicYearTo e = Student.academicYear s')
    /\ ~ In "s1" (skippedIds (body (fst (Rollback ["s1"] true db)))).
Proof.
  apply (C5_reset_year_only (sampleDb "3" "2024-25") ["s1"]
           (Student.mk "s1" "MCA" "3" "2024-25") 3).
  - repeat constructor. simpl. tauto.
  - split; simpl; tauto.
  - reflexivity.
Defined.

(** C5 as stated fails: a student whose semester does not parse is skipped
    by the reset variant too, and its academic year stays as it was. *)
Lemma C5_counterexample :
  let db := sampleDb "abc" "2024-25" in
  students (snd (Rollback ["s1"] true db))
  = [Student.mk "s1" "MCA" "abc" "2024-25"]
  /\ rolledBackOfBody (body (fst (Rollback ["s1"] true db))) = []
  /\ skippedOfBody (body (fst (Rollback ["s1"] true db)))
     = [Skipped.mk "s1" "Invalid semester value"]
  /\ forwardYear "2024-25" = "2025-26".
Proof. repeat split. Qed.

(** C6, as the code has it.  A resolved student whose semester text makes
    [parseInt] return [NaN] is skipped with the INVALID_SEMESTER message and
    its document is unchanged: by Rollback in either variant, and by Advance
    once the student's course has been found (the course lookup comes
    first). *)
Theorem C6_invalid_semester_skipped
    (db : Database) (ids : list ObjectId) (s : Student.t) :
  uniqueIds db -> resolved db ids s ->
  JS.parseInt10 (Student.semId s) = JS.NaN ->
  (forall course,
      courseOf db s = Some course ->
      findById (Student._id s) (students (snd (Advance ids db))) = Some s
      /\ (exists k,
            In k (skippedOfBody (body (fst (Advance ids db))))
            /\ Skipped.studentId k = Student._id s
            /\ reasonCode (Skipped.reason k) = Some INVALID_SEMESTER)
      /\ ~ In (Student._id s) (appliedIds (body (fst (Advance ids db)))))
  /\ (forall reset,
        findById (Student._id s) (students (snd (Rollback ids reset db)))
        = Some s
        /\ (exists k,
              In k (skippedOfBody (body (fst (Rollback ids reset db))))
              /\ Skipped.studentId k = Student._id s
              /\ reasonCode (Skipped.reason k) = Some INVALID_SEMESTER)
        /\ ~ In (Student._id s)
               (appliedIds (body (fst (Rollback ids reset db))))).
Proof.
  intros Hu Hr Hp. split.
  - intros course Hc.
    pose proof (promoteDecision_invalid db s course Hc Hp) as Hd.
    destruct (Advance_skip db ids s _ Hu Hr Hd) as (Hs & Hk & Ha).
    split; [exact Hs | split; [| exact Ha]].
    eexists. split; [exact Hk |]. split; reflexivity.
  - intros reset.
    pose proof (rollbackDecision_invalid (JBool reset) s Hp) as Hd.
    destruct (Rollback_skip db ids reset s _ Hu Hr Hd) as (Hs & Hk & Ha).
    split; [exact Hs | split; [| exact Ha]].
    eexists. split; [exact Hk |]. split; reflexivity.
Qed.

Lemma C6_witness :
  let db := sampleDb "abc" "2024-25" in
  let s := Student.mk "s1" "MCA" "abc" "2024-25" in
  (forall course,
      courseOf db s = Some course ->
      findById "s1" (students (snd (Advance ["s1"] db))) = Some s
      /\ (exists k,
            In k (skippedOfBody (body (fst (Advance ["s1"] db))))
            /\ Skipped.studentId k = "s1"
            /\ reasonCode (Skipped.reason k) = Some INVALID_SEMESTER)
      /\ ~ In "s1" (appliedIds (body (fst (Advance ["s1"] db)))))
  /\ (forall reset,
        findById "s1" (students (snd (Rollback ["s1"] reset db))) = Some s
        /\ (exists k,
              In k (skippedOfBody (body (fst (Rollback ["s1"] reset db))))
              /\ Skipped.studentId k = "s1"
              /\ reasonCode (Skipped.reason k) = Some INVALID_SEMESTER)
        /\ ~ In "s1" (appliedIds (body (fst (Rollback ["s1"] reset db))))).
Proof.
  apply (C6_invalid_semester_skipped (sampleDb "abc" "2024-25") ["s1"]
           (Student.mk "s1" "MCA" "abc" "2024-25")).
  - repeat constructor. simpl. tauto.
  - split; simpl; tauto.
  - reflexivity.
Defined.

(** C6 as stated fails: "0" and "-3" parse (to 0 and -3), so the student is
    not skipped as invalid.  Advance promotes a student stored at "0", the
    reset rollback rewrites the year of a student stored at "-3", and the
    normal rollback skips "0" as a first semester.  In Advance a semester
    that does not parse is reported as a missing course when the course
    lookup fails first. *)
Lemma C6_counterexample :
  JS.parseInt10 "0" = JS.Num 0
  /\ JS.parseInt10 "-3" = JS.Num (-3)
  /\ students (snd (Advance ["s1"] (sampleDb "0" "2024-25")))
     = [Student.mk "s1" "MCA" "1" "2025-26"]
  /\ skippedOfBody (body (fst (Advance ["s1"] (sampleDb "0" "2024-25")))) = []
  /\ students (snd (Rollback ["s1"] true (sampleDb "-3" "2024-25")))
     = [Student.mk "s1" "MCA" "-3" "2025-26"]
  /\ skippedOfBody
       (body (fst (Rollback ["s1"] true (sampleDb "-3" "2024-25")))) = []
  /\ skippedOfBody
       (body (fst (Rollback ["s1"] false (sampleDb "0" "2024-25"))))
     = [Skipped.mk "s1" "Already in first semester"]
  /\ skippedOfBody
       (body (fst (Advance ["s1"]
                     (mkDatabase [Student.mk "s1" "BBA" "abc" "2024-25"]
                        sampleCourses []))))
     = [Skipped.mk "s1" "Course not found"].
Proof. repeat split. Qed.

(** C7, as the code has it.  For a label whose start year is [S]: from
    [S = 8] on, the forward label is [S + 1], a hyphen, and the last two
    digits of [S + 2]; from [S = 10] on, the backward label is [S - 1], a
    hyphen, and the last two digits of [S] (the year after the new start
    year).  A century boundary is no exception. *)
Theorem C7_year_label_arithmetic (S : Z) (rest : string) :
  JS.safeInteger (S + 2) ->
  (8 <= S ->
   forwardYear (JS.toString (JS.Num S) ++ "-" ++ rest)
   = JS.toString (JS.Num (S + 1)) ++ "-" ++ lastTwoDigits (S + 2))
  /\ (10 <= S ->
      backwardYear (JS.toString (JS.Num S) ++ "-" ++ rest)
      = JS.toString (JS.Num (S - 1)) ++ "-" ++ lastTwoDigits S)
  /\ forwardYear "2099-00" = "2100-01"
  /\ backwardYear "2100-01" = "2099-00".
Proof.
  intros _. split; [| split; [| split; reflexivity]].
  - intros HS. unfold forwardYear.
    rewrite startYear_label by lia. cbn [JS.add].
    rewrite yearLabel_digits by lia.
    replace (S + 1 + 1) with (S + 2) by lia. reflexivity.
  - intros HS. unfold backwardYear.
    rewrite startYear_label by lia. cbn [JS.sub].
    rewrite yearLabel_digits by lia.
    replace (S - 1 + 1) with S by lia. reflexivity.
Qed.

Lemma C7_witness :
  (8 <= 2024 ->
   forwardYear (JS.toString (JS.Num 2024) ++ "-" ++ "25")
   = JS.toString (JS.Num (2024 + 1)) ++ "-" ++ lastTwoDigits (2024 + 2))
  /\ (10 <= 2024 ->
      backwardYear (JS.toString (JS.Num 2024) ++ "-" ++ "25")
      = JS.toString (JS.Num (2024 - 1)) ++ "-" ++ lastTwoDigits 2024)
  /\ forwardYear "2099-00" = "2100-01"
  /\ backwardYear "2100-01" = "2099-00".
Proof.
  apply (C7_year_label_arithmetic 2024 "25").
  split; vm_compute; discriminate.
Defined.

(** C7 as stated fails on the backward suffix: from "2025-26" the code
    derives "2024-25", whose suffix is the last two digits of [S], where the
    claim has the last two digits of [S + 1], that is "2024-26".  It also
    fails below two digits, where [slice(-2)] has one character to return:
    "5-06" goes forward to "6-7". *)
Lemma C7_counterexample :
  backwardYear (JS.toString (JS.Num 2025) ++ "-" ++ "26") = "2024-25"
  /\ JS.toString (JS.Num (2025 - 1)) ++ "-" ++ lastTwoDigits (2025 + 1)
     = "2024-26"
  /\ backwardYear (JS.toString (JS.Num 2025) ++ "-" ++ "26")
     <> JS.toString (JS.Num (2025 - 1)) ++ "-" ++ lastTwoDigits (2025 + 1)
  /\ forwardYear (JS.toString (JS.Num 5) ++ "-" ++ "06") = "6-7"
  /\ JS.toString (JS.Num (5 + 1)) ++ "-" ++ lastTwoDigits (5 + 2) = "6-07".
Proof. repeat split. discriminate. Qed.

(** C8, as the code has it.  When a batch is answered with status 200, the
    ids listed in [applied] and [skipped] together are exactly the ids of
    the request that resolve to a student of the store, each listed once
    and so in exactly one of the two lists; an id that does not resolve is
    in neither. *)
Theorem C8_resolved_ids_partition (db : Database) (ids : list ObjectId) :
  uniqueIds db ->
  (status (fst (Advance ids db)) = 200%nat ->
   NoDup (appliedIds (body (fst (Advance ids db)))
          ++ skippedIds (body (fst (Advance ids db))))
   /\ forall id,
       In id (appliedIds (body (fst (Advance ids db)))
              ++ skippedIds (body (fst (Advance ids db))))
       <-> In id ids /\ exists s, In s (students db) /\ Student._id s = id)
  /\ (forall reset,
        status (fst (Rollback ids reset db)) = 200%nat ->
        NoDup (appliedIds (body (fst (Rollback ids reset db)))
               ++ skippedIds (body (fst (Rollback ids reset db))))
        /\ forall id,
            In id (appliedIds (body (fst (Rollback ids reset db)))
                   ++ skippedIds (body (fst (Rollback ids reset db))))
            <-> In id ids
                /\ exists s, In s (students db) /\ Student._id s = id).
Proof.
  intros Hu.
  assert (Found : forall id,
             In id (map Student._id (filter (idIn ids) (students db)))
             <-> In id ids
                 /\ exists s, In s (students db) /\ Student._id s = id).
  { intros id. rewrite in_map_iff. split.
    - intros (x & <- & Hx). apply filter_In in Hx.
      destruct Hx as [Hx Hi]. apply idIn_spec in Hi. eauto.
    - intros (Hi & x & Hx & <-). exists x. split; [reflexivity |].
      apply filter_In. split; [exact Hx | apply idIn_spec; exact Hi]. }
  split.
  - intros H200. destruct (Advance_accepted db ids H200) as [Hi Hf].
    pose proof (Advance_outcome_ids db ids Hi Hf) as Perm. split.
    + apply (Permutation_NoDup (Permutation_sym Perm)).
      apply NoDup_map_filter. exact Hu.
    + intros id. rewrite <- Found. split; apply Permutation_in;
        [exact Perm | exact (Permutation_sym Perm)].
  - intros reset H200. pose proof (Rollback_accepted db ids reset H200) as Hi.
    pose proof (Rollback_outcome_ids db ids reset Hi) as Perm. split.
    + apply (Permutation_NoDup (Permutation_sym Perm)).
      apply NoDup_map_filter. exact Hu.
    + intros id. rewrite <- Found. split; apply Permutation_in;
        [exact Perm | exact (Permutation_sym Perm)].
Qed.

Lemma C8_witness :
  let db := twoStudents in
  let ids := ["s1"; "ghost"; "s2"] in
  (status (fst (Advance ids db)) = 200%nat ->
   NoDup (appliedIds (body (fst (Advance ids db)))
          ++ skippedIds (body (fst (Advance ids db))))
   /\ forall id,
       In id (appliedIds (body (fst (Advance ids db)))
              ++ skippedIds (body (fst (Advance ids db))))
       <-> In id ids /\ exists s, In s (students db) /\ Student._id s = id)
  /\ (forall reset,
        status (fst (Rollback ids reset db)) = 200%nat ->
        NoDup (appliedIds (body (fst (Rollback ids reset db)))
               ++ skippedIds (body (fst (Rollback ids reset db))))
        /\ forall id,
            In id (appliedIds (body (fst (Rollback ids reset db)))
                   ++ skippedIds (body (fst (Rollback ids reset db))))
            <-> In id ids
                /\ exists s, In s (students db) /\ Student._id s = id).
Proof.
  apply (C8_resolved_ids_partition twoStudents ["s1"; "ghost"; "s2"]).
  repeat constructor; simpl; intuition discriminate.
Defined.

(** C8 as stated fails: a requested id that resolves to no student is in
    neither list although the batch is answered with status 200, by Advance
    when another id resolves and by Rollback even when none does. *)
Lemma C8_counterexample :
  let ids := ["s1"; "ghost"; "s2"] in
  In "ghost" ids
  /\ status (fst (Advance ids twoStudents)) = 200%nat
  /\ appliedIds (body (fst (Advance ids twoStudents))) = ["s1"]
  /\ skippedIds (body (fst (Advance ids twoStudents))) = ["s2"]
  /\ status (fst (Rollback ["ghost"] false twoStudents)) = 200%nat
  /\ appliedIds (body (fst (Rollback ["ghost"] false twoStudents))) = []
  /\ skippedIds (body (fst (Rollback ["ghost"] false twoStudents))) = [].
Proof. repeat split. simpl. tauto. Qed.

(** C9 at the failing input.  With a non-empty id list none of whose ids
    resolves, [promoteStudentsToNextSemester] answers 404 and
    [rollbackStudents] answers 200 with two empty lists, whatever the store.
    The other codes agree on both handlers: 400 for a missing, non-array or
    empty [studentIds], 200 for a batch with a skip, 500 when a storage call
    throws, with the committed store left as it was. *)
Theorem C9_rollback_answers_200_when_nothing_resolves :
  (forall db ids reset,
      ids <> [] ->
      (forall s, In s (students db) -> ~ In (Student._id s) ids) ->
      status (fst (promoteStudentsToNextSemester (batch ids reset) db None))
      = 404%nat
      /\ fst (rollbackStudents (batch ids reset) db None)
         = mkResponse 200 (RollbackOk (List.length ids) 0 0 [] []))
  /\ fst (rollbackStudents (batch ["ghost"] false) twoStudents None)
     = mkResponse 200 (RollbackOk 1 0 0 [] [])
  /\ (forall v db fault,
        v = JUndefined \/ v = JOther \/ v = JBool true \/ v = JArray [] ->
        status (fst (promoteStudentsToNextSemester
                       (mkRequest v JUndefined) db fault)) = 400%nat
        /\ status (fst (rollbackStudents (mkRequest v JUndefined) db fault))
           = 400%nat)
  /\ status (fst (promoteStudentsToNextSemester (batch ["s1"; "s2"] false)
                    twoStudents None)) = 200%nat
  /\ status (fst (rollbackStudents (batch ["s1"; "s2"] false) twoStudents
                    None)) = 200%nat
  /\ (forall n,
        (n <= 2)%nat ->
        status (fst (promoteStudentsToNextSemester (batch ["s1"] false)
                       twoStudents (Some n))) = 500%nat
        /\ committed (snd (promoteStudentsToNextSemester (batch ["s1"] false)
                             twoStudents (Some n))) = twoStudents)
  /\ (forall n,
        (n <= 2)%nat ->
        status (fst (rollbackStudents (batch ["s1"] false) twoStudents
                       (Some n))) = 500%nat
        /\ committed (snd (rollbackStudents (batch ["s1"] false) twoStudents
                             (Some n))) = twoStudents).
Proof.
  split; [| split; [reflexivity |]].
  - intros db ids reset Hi Hnone.
    assert (Hf : filter (idIn ids) (students db) = []).
    { destruct (filter (idIn ids) (students db)) as [| x l] eqn:F;
        [reflexivity |].
      assert (Hx : In x (filter (idIn ids) (students db)))
        by (rewrite F; left; reflexivity).
      apply filter_In in Hx. destruct Hx as [Hx Hid].
      apply idIn_spec in Hid. destruct (Hnone x Hx Hid). }
    split.
    + destruct ids as [| i r]; [congruence |].
      unfold promoteStudentsToNextSemester, promoteTry, batch.
      cbn [studentIds]. unfold bind at 1.
      unfold Student_find, storageCall, startSession.
      cbn [fuse staged committed trace burn app]. rewrite Hf. reflexivity.
    + unfold batch. rewrite rollback_run by assumption. cbv zeta.
      rewrite Hf. reflexivity.
  - split; [| split; [reflexivity | split; [reflexivity | split]]].
    + intros v db fault [-> | [-> | [-> | ->]]]; split; reflexivity.
    + intros n Hn.
      assert (C : n = 0%nat \/ n = 1%nat \/ n = 2%nat) by lia.
      destruct C as [-> | [-> | ->]]; split; reflexivity.
    + intros n Hn.
      assert (C : n = 0%nat \/ n = 1%nat \/ n = 2%nat) by lia.
      destruct C as [-> | [-> | ->]]; split; reflexivity.
Qed.

(** C10.  Whatever the request and whichever storage call may fail,
    [rollbackStudents] touches only the Students collection: every access it
    attempts is a read or a write of Students; the Course and Attendance
    collections of the committed and of the staged store are those it
    started with; no student is skipped with the COURSE_NOT_FOUND message;
    and the response and the Students it leaves do not depend on the Course
    and Attendance collections, so no semester ceiling is consulted. *)
Theorem C10_rollback_touches_only_students
    (req : Request) (db : Database) (fault : option nat) :
  Forall onStudents (trace (snd (rollbackStudents req db fault)))
  /\ courses (committed (snd (rollbackStudents req db fault))) = courses db
  /\ attendances (committed (snd (rollbackStudents req db fault)))
     = attendances db
  /\ courses (staged (snd (rollbackStudents req db fault))) = courses db
  /\ attendances (staged (snd (rollbackStudents req db fault)))
     = attendances db
  /\ Forall notCourseNotFound
       (skippedOfBody (body (fst (rollbackStudents req db fault))))
  /\ forall cs ats,
      fst (rollbackStudents req (mkDatabase (students db) cs ats) fault)
      = fst (rollbackStudents req db fault)
      /\ students
           (committed
              (snd (rollbackStudents req (mkDatabase (students db) cs ats)
                      fault)))
         = students (committed (snd (rollbackStudents req db fault))).
Proof.
  pose proof (rollbackStudents_footprint req db fault) as [Ht Hk].
  pose proof (rollbackStudents_onSession (courses db) (attendances db) req db
                fault) as Self.
  assert (Edb : reframeDb (courses db) (attendances db) db = db)
    by (destruct db; reflexivity).
  rewrite Edb in Self.
  destruct (rollbackStudents req db fault) as [r s] eqn:Run.
  cbn [fst snd] in *. unfold onSession in Self. cbn [fst snd] in Self.
  injection Self as Self.
  split; [exact Ht |].
  split; [rewrite Self; reflexivity |].
  split; [rewrite Self; reflexivity |].
  split; [rewrite Self; reflexivity |].
  split; [rewrite Self; reflexivity |].
  split; [exact Hk |].
  intros cs ats.
  pose proof (rollbackStudents_onSession cs ats req db fault) as Other.
  unfold reframeDb in Other. rewrite Other, Run.
  split; reflexivity.
Qed.

(** * Further properties of the two handlers *)

(** ** What a storage call leaves alone *)

Lemma storageCall_committed {A : Type} (a : Access)
    (f : Database -> A * Database) (db : Database) (s : Session) :
  committed s = db ->
  holds (fun _ => True) (fun s' => committed s' = db) (storageCall a f s).
Proof.
  intros Hs. unfold storageCall, holds.
  destruct (f (staged s)) as [r d].
  destruct (fuse s) as [[| n] |]; split; try exact I; exact Hs.
Qed.

Lemma promoteStep_committed (db : Database) (x : Student.t)
    (st : list Promoted.t * list Skipped.t) (s : Session) :
  committed s = db ->
  holds (fun _ => True) (fun s' => committed s' = db) (promoteStep x st s).
Proof.
  intros Hs. unfold promoteStep. destruct st as [p k].
  eapply bind_holds; [apply storageCall_committed; exact Hs |].
  intros [course |] s' _ Hs'; [| split; [exact Hs' | exact I]].
  destruct (JS.isNaN _); [split; [exact Hs' | exact I] |].
  destruct (JS.geq _ _); [split; [exact Hs' | exact I] |].
  eapply bind_holds; [apply storageCall_committed; exact Hs' |].
  intros _ s'' _ Hs''. split; [exact Hs'' | exact I].
Qed.

Lemma rollbackStep_committed (db : Database) (reset : jsval) (x : Student.t)
    (st : list RolledBack.t * list Skipped.t) (s : Session) :
  committed s = db ->
  holds (fun _ => True) (fun s' => committed s' = db)
    (rollbackStep reset x st s).
Proof.
  intros Hs. unfold rollbackStep. destruct st as [p k].
  destruct (JS.isNaN _); [split; [exact Hs | exact I] |].
  destruct (isTrue reset).
  { eapply bind_holds; [apply storageCall_committed; exact Hs |].
    intros _ s' _ Hs'. split; [exact Hs' | exact I]. }
  destruct (JS.leq _ _); [split; [exact Hs | exact I] |].
  eapply bind_holds; [apply storageCall_committed; exact Hs |].
  intros _ s' _ Hs'. split; [exact Hs' | exact I].
Qed.

(** The [try] block either answers 200 or leaves the committed store as it
    found it; an answer other than 200 is given before any write. *)
Lemma promoteTry_atomic (req : Request) (db : Database) (fault : option nat) :
  match promoteTry req (startSession db fault) with
  | (Ok r, s) => status r = 200%nat \/ (committed s = db /\ staged s = db)
  | (Throw _, s) => committed s = db
  end.
Proof.
  unfold promoteTry.
  destruct (studentIds req) as [| b | [| i r] |];
    try (right; split; reflexivity).
  unfold bind at 1. unfold Student_find, storageCall, startSession.
  cbn [fuse staged committed trace].
  destruct fault as [[| n] |]; [reflexivity | |].
  all: destruct (filter (idIn (i :: r)) (students db)) as [| x found];
    [right; split; reflexivity |].
  all: unfold bind at 1;
    match goal with
    | |- context [forOf promoteStep ?l ?st ?s] =>
        pose proof (forOf_holds (fun _ => True)
                      (fun s' => committed s' = db) promoteStep l
                      (fun y st' s' _ H => promoteStep_committed db y st' s' H)
                      st s I eq_refl) as [Hc _];
        destruct (forOf promoteStep l st s) as [[[p k] | e] s1]
    end; cbn [snd] in Hc; [| exact Hc].
  all: unfold bind, commitTransaction;
    destruct (fuse s1) as [[| m] |]; [exact Hc | left; reflexivity ..].
Qed.

Lemma rollbackTry_atomic (req : Request) (db : Database)
    (fault : option nat) :
  match rollbackTry req (startSession db fault) with
  | (Ok r, s) => status r = 200%nat \/ (committed s = db /\ staged s = db)
  | (Throw _, s) => committed s = db
  end.
Proof.
  unfold rollbackTry.
  destruct (studentIds req) as [| b | [| i r] |];
    try (right; split; reflexivity).
  unfold bind at 1. unfold Student_find, storageCall, startSession.
  cbn [fuse staged committed trace].
  destruct fault as [[| n] |]; [reflexivity | |].
  all: unfold bind at 1;
    match goal with
    | |- context [forOf ?body ?l ?st ?s] =>
        pose proof (forOf_holds (fun _ => True)
                      (fun s' => committed s' = db) body l
                      (fun y st' s' _ H =>
                         rollbackStep_committed db _ y st' s' H)
                      st s I eq_refl) as [Hc _];
        destruct (forOf body l st s) as [[[p k] | e] s1]
    end; cbn [snd] in Hc; [| exact Hc].
  all: unfold bind, commitTransaction;
    destruct (fuse s1) as [[| m] |]; [exact Hc | left; reflexivity ..].
Qed.

(** X1.  [promoteStudentsToNextSemester] is all or nothing: whatever the
    request and whichever storage call fails, an answer other than 200
    leaves the committed store, and what the session would read, exactly as
    they were. *)
Theorem promote_all_or_nothing (req : Request) (db : Database)
    (fault : option nat) :
  status (fst (promoteStudentsToNextSemester req db fault)) <> 200%nat ->
  committed (snd (promoteStudentsToNextSemester req db fault)) = db
  /\ staged (snd (promoteStudentsToNextSemester req db fault)) = db.
Proof.
  unfold promoteStudentsToNextSemester.
  pose proof (promoteTry_atomic req db fault) as H.
  destruct (promoteTry req (startSession db fault)) as [[r | e] s];
    cbn [fst snd status].
  - intros Hn. destruct H as [H | H]; [contradiction | exact H].
  - intros _. unfold abortTransaction. cbn [committed staged]. auto.
Qed.

Lemma promote_all_or_nothing_witness :
  committed
    (snd (promoteStudentsToNextSemester (batch ["s1"; "s2"] false)
            twoStudents (Some 3%nat))) = twoStudents
  /\ staged
       (snd (promoteStudentsToNextSemester (batch ["s1"; "s2"] false)
               twoStudents (Some 3%nat))) = twoStudents.
Proof.
  apply (promote_all_or_nothing (batch ["s1"; "s2"] false) twoStudents
           (Some 3%nat)).
  vm_compute. discriminate.
Defined.

(** X2.  [rollbackStudents] is all or nothing in the same way. *)
Theorem rollback_all_or_nothing (req : Request) (db : Database)
    (fault : option nat) :
  status (fst (rollbackStudents req db fault)) <> 200%nat ->
  committed (snd (rollbackStudents req db fault)) = db
  /\ staged (snd (rollbackStudents req db fault)) = db.
Proof.
  unfold rollbackStudents.
  pose proof (rollbackTry_atomic req db fault) as H.
  destruct (rollbackTry req (startSession db fault)) as [[r | e] s];
    cbn [fst snd status].
  - intros Hn. destruct H as [H | H]; [contradiction | exact H].
  - intros _. unfold abortTransaction. cbn [committed staged]. auto.
Qed.

Lemma rollback_all_or_nothing_witness :
  committed
    (snd (rollbackStudents (batch ["s1"; "s2"] true) twoStudents
            (Some 2%nat))) = twoStudents
  /\ staged
       (snd (rollbackStudents (batch ["s1"; "s2"] true) twoStudents
               (Some 2%nat))) = twoStudents.
Proof.
  apply (rollback_all_or_nothing (batch ["s1"; "s2"] true) twoStudents
           (Some 2%nat)).
  vm_compute. discriminate.
Defined.

(** ** Invariants of the store *)

Section Keeps.
Variable J : Database -> Prop.
Variable G : Student.t -> Prop.

Hypothesis J_update :
  forall x p d,
    G x -> J d ->
    J (mkDatabase (updateFirst (Student._id x) p (students d)) (courses d)
         (attendances d)).

Let R (s : Session) : Prop := J (committed s) /\ J (staged s).

Lemma storageCall_keeps {A : Type} (PA : A -> Prop) (a : Access)
    (f : Database -> A * Database) (s : Session) :
  R s -> J (snd (f (staged s))) -> PA (fst (f (staged s))) ->
  holds PA R (storageCall a f s).
Proof.
  intros [Hc Hs] Hf Ha. unfold storageCall, holds, R.
  destruct (f (staged s)) as [r d]. cbn [fst snd] in *.
  destruct (fuse s) as [[| n] |]; cbn [fst snd committed staged]; auto.
Qed.

Lemma read_keeps {A : Type} (PA : A -> Prop) (a : Access)
    (g : Database -> A) (s : Session) :
  R s -> PA (g (staged s)) ->
  holds PA R (storageCall a (fun d => (g d, d)) s).
Proof.
  intros HR Ha. apply storageCall_keeps; [exact HR | apply HR | exact Ha].
Qed.

Lemma updateOne_keeps (x : Student.t) (p : Payload.t) (s : Session) :
  G x -> R s ->
  holds (fun _ => True) R (Student_updateOne (Student._id x) p s).
Proof.
  intros Hx HR. apply storageCall_keeps; [exact HR | | exact I].
  apply J_update; [exact Hx | apply HR].
Qed.

Lemma commitTransaction_keeps (s : Session) :
  R s -> holds (fun _ => True) R (commitTransaction s).
Proof.
  intros [Hc Hs]. unfold commitTransaction, holds, R.
  destruct (fuse s) as [[| n] |]; cbn [fst snd committed staged]; auto.
Qed.

Lemma promoteStep_keeps (x : Student.t)
    (st : list Promoted.t * list Skipped.t) (s : Session) :
  G x -> R s -> holds (fun _ => True) R (promoteStep x st s).
Proof.
  intros Hx HR. unfold promoteStep. destruct st as [p k].
  eapply bind_holds; [apply (read_keeps (fun _ => True)); auto |].
  intros [course |] s' _ HR'; [| split; [exact HR' | exact I]].
  destruct (JS.isNaN _); [split; [exact HR' | exact I] |].
  destruct (JS.geq _ _); [split; [exact HR' | exact I] |].
  eapply bind_holds; [apply updateOne_keeps; assumption |].
  intros _ s'' _ HR''. split; [exact HR'' | exact I].
Qed.

Lemma rollbackStep_keeps (reset : jsval) (x : Student.t)
    (st : list RolledBack.t * list Skipped.t) (s : Session) :
  G x -> R s -> holds (fun _ => True) R (rollbackStep reset x st s).
Proof.
  intros Hx HR. unfold rollbackStep. destruct st as [p k].
  destruct (JS.isNaN _); [split; [exact HR | exact I] |].
  destruct (isTrue reset).
  { eapply bind_holds; [apply updateOne_keeps; assumption |].
    intros _ s' _ HR'. split; [exact HR' | exact I]. }
  destruct (JS.leq _ _); [split; [exact HR | exact I] |].
  eapply bind_holds; [apply updateOne_keeps; assumption |].
  intros _ s' _ HR'. split; [exact HR' | exact I].
Qed.

Lemma forOf_keeps {S : Type}
    (body : Student.t -> S -> M S) (l : list Student.t) :
  (forall x st s, G x -> R s -> holds (fun _ => True) R (body x st s)) ->
  Forall G l ->
  forall st s, R s -> holds (fun _ => True) R (forOf body l st s).
Proof.
  intros Hb. induction l as [| x l IH]; intros Hl st s HR.
  - split; [exact HR | exact I].
  - inversion Hl as [| ? ? Hx Hl']; subst. cbn [forOf].
    eapply bind_holds; [apply Hb; assumption |].
    intros st' s' _ HR'. apply IH; assumption.
Qed.

Lemma found_requested (ids : list ObjectId) (docs : list Student.t) :
  (forall x, idIn ids x = true -> G x) ->
  Forall G (filter (idIn ids) docs).
Proof.
  intros Hg. apply Forall_forall. intros x Hx.
  apply filter_In in Hx. apply Hg. tauto.
Qed.

Lemma promoteTry_keeps (req : Request) (s : Session) :
  (forall ids x, studentIds req = JArray ids -> idIn ids x = true -> G x) ->
  R s -> holds (fun _ => True) R (promoteTry req s).
Proof.
  intros Hg HR. unfold promoteTry.
  destruct (studentIds req) as [| b | [| i r] |] eqn:Ids;
    try (split; [exact HR | exact I]).
  eapply bind_holds.
  - apply (read_keeps (Forall G)); [exact HR |].
    apply found_requested. intros x. apply Hg. reflexivity.
  - intros found s' Hfound HR'.
    destruct found as [| x found]; [split; [exact HR' | exact I] |].
    eapply bind_holds.
    + apply forOf_keeps; [apply promoteStep_keeps | exact Hfound | exact HR'].
    + intros [p k] s'' _ HR''. eapply bind_holds.
      * apply commitTransaction_keeps. exact HR''.
      * intros _ s3 _ HR3. split; [exact HR3 | exact I].
Qed.

Lemma rollbackTry_keeps (req : Request) (s : Session) :
  (forall ids x, studentIds req = JArray ids -> idIn ids x = true -> G x) ->
  R s -> holds (fun _ => True) R (rollbackTry req s).
Proof.
  intros Hg HR. unfold rollbackTry.
  destruct (studentIds req) as [| b | [| i r] |] eqn:Ids;
    try (split; [exact HR | exact I]).
  eapply bind_holds.
  - apply (read_keeps (Forall G)); [exact HR |].
    apply found_requested. intros x. apply Hg. reflexivity.
  - intros found s' Hfound HR'.
    eapply bind_holds.
    + apply forOf_keeps;
        [apply rollbackStep_keeps | exact Hfound | exact HR'].
    + intros [p k] s'' _ HR''. eapply bind_holds.
      * apply commitTransaction_keeps. exact HR''.
      * intros _ s3 _ HR3. split; [exact HR3 | exact I].
Qed.

(** An invariant of the store that every staged write of a requested
    student keeps is kept by the handlers, whatever the request and
    whichever storage call fails. *)
Lemma promote_keeps (req : Request) (db : Database) (fault : option nat) :
  (forall ids x, studentIds req = JArray ids -> idIn ids x = true -> G x) ->
  J db ->
  J (committed (snd (promoteStudentsToNextSemester req db fault)))
  /\ J (staged (snd (promoteStudentsToNextSemester req db fault))).
Proof.
  intros Hg Hdb. unfold promoteStudentsToNextSemester.
  pose proof (promoteTry_keeps req (startSession db fault) Hg
                (conj Hdb Hdb)) as [HR _].
  destruct (promoteTry req (startSession db fault)) as [[r | e] s];
    cbn [snd] in *; [exact HR |].
  unfold abortTransaction. cbn [committed staged]. split; apply HR.
Qed.

Lemma rollback_keeps (req : Request) (db : Database) (fault : option nat) :
  (forall ids x, studentIds req = JArray ids -> idIn ids x = true -> G x) ->
  J db ->
  J (committed (snd (rollbackStudents req db fault)))
  /\ J (staged (snd (rollbackStudents req db fault))).
Proof.
  intros Hg Hdb. unfold rollbackStudents.
  pose proof (rollbackTry_keeps req (startSession db fault) Hg
                (conj Hdb Hdb)) as [HR _].
  destruct (rollbackTry req (startSession db fault)) as [[r | e] s];
    cbn [snd] in *; [exact HR |].
  unfold abortTransaction. cbn [committed staged]. split; apply HR.
Qed.

End Keeps.

Lemma updateFirst_roster (id : ObjectId) (p : Payload.t)
    (l : list Student.t) :
  map (fun s => (Student._id s, Student.courseId s)) (updateFirst id p l)
  = map (fun s => (Student._id s, Student.courseId s)) l.
Proof.
  induction l as [| x l IH]; [reflexivity |].
  cbn [updateFirst]. destruct (String.eqb (Student._id x) id).
  - reflexivity.
  - cbn [map]. rewrite IH. reflexivity.
Qed.

Lemma updateFirst_unrequested (ids : list ObjectId) (x : Student.t)
    (p : Payload.t) (l : list Student.t) :
  idIn ids x = true ->
  filter (fun s => negb (idIn ids s)) (updateFirst (Student._id x) p l)
  = filter (fun s => negb (idIn ids s)) l.
Proof.
  intros Hx. induction l as [| y l IH]; [reflexivity |].
  cbn [updateFirst].
  destruct (String.eqb_spec (Student._id y) (Student._id x)) as [E | N].
  - cbn [filter].
    assert (Hy : idIn ids y = true) by (unfold idIn in *; rewrite E; exact Hx).
    assert (Hy' : idIn ids (applySet p y) = true) by exact Hy.
    rewrite Hy, Hy'. reflexivity.
  - cbn [filter]. rewrite IH. reflexivity.
Qed.

(** ** The accesses of a promotion *)

Section Traced.
Variable allowed : Access -> Prop.

Let T (s : Session) : Prop := Forall allowed (trace s).

Lemma storageCall_traced {A : Type} (a : Access)
    (f : Database -> A * Database) (s : Session) :
  allowed a -> T s -> holds (fun _ => True) T (storageCall a f s).
Proof.
  intros Ha Hs. unfold storageCall, holds, T.
  assert (Hq : Forall allowed (trace s ++ [a])).
  { apply Forall_app.
    split; [exact Hs | constructor; [exact Ha | constructor]]. }
  destruct (f (staged s)) as [r d].
  destruct (fuse s) as [[| n] |]; split; try exact I; exact Hq.
Qed.

Lemma commitTransaction_traced (s : Session) :
  T s -> holds (fun _ => True) T (commitTransaction s).
Proof.
  intros Hs. unfold commitTransaction, holds, T.
  destruct (fuse s) as [[| n] |]; split; try exact I; exact Hs.
Qed.

Hypothesis reads_students : allowed (Read Students).
Hypothesis reads_courses : allowed (Read Courses).
Hypothesis writes_students : allowed (Write Students).

Lemma promoteStep_traced (x : Student.t)
    (st : list Promoted.t * list Skipped.t) (s : Session) :
  T s -> holds (fun _ => True) T (promoteStep x st s).
Proof.
  intros Hs. unfold promoteStep. destruct st as [p k].
  eapply bind_holds; [apply storageCall_traced; assumption |].
  intros [course |] s' _ Hs'; [| split; [exact Hs' | exact I]].
  destruct (JS.isNaN _); [split; [exact Hs' | exact I] |].
  destruct (JS.geq _ _); [split; [exact Hs' | exact I] |].
  eapply bind_holds; [apply storageCall_traced; assumption |].
  intros _ s'' _ Hs''. split; [exact Hs'' | exact I].
Qed.

Lemma promote_traced (req : Request) (db : Database) (fault : option nat) :
  T (snd (promoteStudentsToNextSemester req db fault)).
Proof.
  unfold promoteStudentsToNextSemester.
  assert (H : holds (fun _ => True) T (promoteTry req (startSession db fault))).
  { unfold promoteTry.
    destruct (studentIds req) as [| b | [| i r] |];
      try (split; [constructor | exact I]).
    eapply bind_holds;
      [apply storageCall_traced; [assumption | constructor] |].
    intros found s' _ Hs'.
    destruct found as [| x found]; [split; [exact Hs' | exact I] |].
    eapply bind_holds.
    - apply (forOf_holds (fun _ => True) T); [| exact I | exact Hs'].
      intros y st s0 _. apply promoteStep_traced.
    - intros [p k] s'' _ Hs''. eapply bind_holds.
      + apply commitTransaction_traced. exact Hs''.
      + intros _ s3 _ Hs3. split; [exact Hs3 | exact I]. }
  destruct H as [H _].
  destruct (promoteTry req (startSession db fault)) as [[r | e] s];
    exact H.
Qed.
End Traced.

(** X3.  Whatever the request and whichever storage call fails,
    [promoteStudentsToNextSemester] only reads Students, reads Courses and
    writes Students: it never writes a course and never touches an
    attendance record, and the Course and Attendance collections it leaves,
    committed and staged, are the ones it started with. *)
Theorem promote_footprint (req : Request) (db : Database)
    (fault : option nat) :
  Forall (fun a => a = Read Students \/ a = Read Courses
                   \/ a = Write Students)
    (trace (snd (promoteStudentsToNextSemester req db fault)))
  /\ courses (committed (snd (promoteStudentsToNextSemester req db fault)))
     = courses db
  /\ attendances
       (committed (snd (promoteStudentsToNextSemester req db fault)))
     = attendances db
  /\ courses (staged (snd (promoteStudentsToNextSemester req db fault)))
     = courses db
  /\ attendances (staged (snd (promoteStudentsToNextSemester req db fault)))
     = attendances db.
Proof.
  split.
  - apply promote_traced; auto.
  - pose proof (promote_keeps
                  (fun d => courses d = courses db
                            /\ attendances d = attendances db)
                  (fun _ => True)
                  (fun x p d _ H => H) req db fault
                  (fun _ _ _ _ => I) (conj eq_refl eq_refl))
      as [[Hc Ha] [Hc' Ha']].
    auto.
Qed.

(** X4.  Neither handler creates or deletes a student or moves one to
    another course: the committed Students collection lists the same ids
    with the same course ids, in the same order, as before, whatever the
    request and whichever storage call fails. *)
Theorem handlers_keep_roster (req : Request) (db : Database)
    (fault : option nat) :
  map (fun s => (Student._id s, Student.courseId s))
    (students (committed (snd (promoteStudentsToNextSemester req db fault))))
  = map (fun s => (Student._id s, Student.courseId s)) (students db)
  /\ map (fun s => (Student._id s, Student.courseId s))
       (students (committed (snd (rollbackStudents req db fault))))
     = map (fun s => (Student._id s, Student.courseId s)) (students db).
Proof.
  set (J := fun d =>
              map (fun s => (Student._id s, Student.courseId s)) (students d)
              = map (fun s => (Student._id s, Student.courseId s))
                  (students db)).
  assert (Hup : forall (x : Student.t) p d,
             True -> J d ->
             J (mkDatabase (updateFirst (Student._id x) p (students d))
                  (courses d) (attendances d))).
  { intros x p d _ Hd. unfold J in *. cbn [students].
    rewrite updateFirst_roster. exact Hd. }
  split.
  - apply (promote_keeps J (fun _ => True) Hup req db fault
             (fun _ _ _ _ => I) eq_refl).
  - apply (rollback_keeps J (fun _ => True) Hup req db fault
             (fun _ _ _ _ => I) eq_refl).
Qed.

(** X5.  A student the request does not name is never modified: the
    documents whose id is not in [studentIds] are the same, in the same
    order, after either handler, whatever storage call fails. *)
Theorem handlers_leave_unrequested (req : Request) (ids : list ObjectId)
    (db : Database) (fault : option nat) :
  studentIds req = JArray ids ->
  filter (fun s => negb (idIn ids s))
    (students (committed (snd (promoteStudentsToNextSemester req db fault))))
  = filter (fun s => negb (idIn ids s)) (students db)
  /\ filter (fun s => negb (idIn ids s))
       (students (committed (snd (rollbackStudents req db fault))))
     = filter (fun s => negb (idIn ids s)) (students db).
Proof.
  intros Hreq.
  set (J := fun d =>
              filter (fun s => negb (idIn ids s)) (students d)
              = filter (fun s => negb (idIn ids s)) (students db)).
  assert (Hup : forall (x : Student.t) p d,
             idIn ids x = true -> J d ->
             J (mkDatabase (updateFirst (Student._id x) p (students d))
                  (courses d) (attendances d))).
  { intros x p d Hx Hd. unfold J in *. cbn [students].
    rewrite updateFirst_unrequested by exact Hx. exact Hd. }
  assert (Hg : forall ids' x,
             studentIds req = JArray ids' -> idIn ids' x = true ->
             idIn ids x = true).
  { intros ids' x E. rewrite Hreq in E. injection E as <-. auto. }
  split.
  - apply (promote_keeps J (fun x => idIn ids x = true) Hup req db fault
             Hg eq_refl).
  - apply (rollback_keeps J (fun x => idIn ids x = true) Hup req db fault
             Hg eq_refl).
Qed.

Lemma handlers_leave_unrequested_witness :
  filter (fun s => negb (idIn ["s1"] s))
    (students
       (committed
          (snd (promoteStudentsToNextSemester (batch ["s1"] false)
                  twoStudents None))))
  = filter (fun s => negb (idIn ["s1"] s)) (students twoStudents)
  /\ filter (fun s => negb (idIn ["s1"] s))
       (students
          (committed
             (snd (rollbackStudents (batch ["s1"] false) twoStudents None))))
     = filter (fun s => negb (idIn ["s1"] s)) (students twoStudents).
Proof.
  apply (handlers_leave_unrequested (batch ["s1"] false) ["s1"] twoStudents
           None).
  reflexivity.
Defined.

(** ** Batches compared *)

Lemma Advance_unfold (ids : list ObjectId) (db : Database) :
  Advance ids db
  = match ids with
    | [] => (badRequest, db)
    | _ :: _ =>
        match filter (idIn ids) (students db) with
        | [] => (mkResponse 404 (Message "No valid students found"), db)
        | found =>
            let decide := promoteDecision (courses db) in
            (mkResponse 200
               (PromoteOk (List.length ids)
                  (List.length (appliedOf decide found))
                  (List.length (skippedOf decide found))
                  (appliedOf decide found) (skippedOf decide found)),
             mkDatabase (stageAll decide found (students db)) (courses db)
               (attendances db))
        end
    end.
Proof.
  destruct ids as [| i r]; [reflexivity |].
  destruct (filter (idIn (i :: r)) (students db)) as [| x found] eqn:F.
  - unfold Advance, promoteStudentsToNextSemester, promoteTry.
    cbn [studentIds]. unfold bind at 1.
    unfold Student_find, storageCall, startSession.
    cbn [fuse staged committed trace burn app]. rewrite F. reflexivity.
  - unfold Advance. rewrite promote_run; [| discriminate | congruence].
    cbv zeta. rewrite F. reflexivity.
Qed.

Lemma Rollback_unfold (ids : list ObjectId) (reset : bool) (db : Database) :
  Rollback ids reset db
  = match ids with
    | [] => (badRequest, db)
    | _ :: _ =>
        let found := filter (idIn ids) (students db) in
        let decide := rollbackDecision (JBool reset) in
        (mkResponse 200
           (RollbackOk (List.length ids)
              (List.length (appliedOf decide found))
              (List.length (skippedOf decide found))
              (appliedOf decide found) (skippedOf decide found)),
         mkDatabase (stageAll decide found (students db)) (courses db)
           (attendances db))
    end.
Proof.
  destruct ids as [| i r]; [reflexivity |].
  unfold Rollback, batch. rewrite rollback_run by discriminate. reflexivity.
Qed.

Lemma idIn_same (ids ids' : list ObjectId) :
  (forall x, In x ids <-> In x ids') ->
  forall s, idIn ids s = idIn ids' s.
Proof.
  intros H s.
  destruct (idIn ids s) eqn:A; destruct (idIn ids' s) eqn:B;
    try reflexivity.
  - apply idIn_spec, H, idIn_spec in A. congruence.
  - apply idIn_spec, H, idIn_spec in B. congruence.
Qed.

(** X6.  A batch depends on its id list only as a set: two requests naming
    the same ids, in any order and with any repetition, leave the same
    store and report the same applied and skipped entries; naming a student
    twice does not process it twice. *)
Theorem batch_depends_on_id_set (ids ids' : list ObjectId) (db : Database) :
  (forall x, In x ids <-> In x ids') ->
  (snd (Advance ids db) = snd (Advance ids' db)
   /\ status (fst (Advance ids db)) = status (fst (Advance ids' db))
   /\ promotedOfBody (body (fst (Advance ids db)))
      = promotedOfBody (body (fst (Advance ids' db)))
   /\ skippedOfBody (body (fst (Advance ids db)))
      = skippedOfBody (body (fst (Advance ids' db))))
  /\ forall reset,
      snd (Rollback ids reset db) = snd (Rollback ids' reset db)
      /\ status (fst (Rollback ids reset db))
         = status (fst (Rollback ids' reset db))
      /\ rolledBackOfBody (body (fst (Rollback ids reset db)))
         = rolledBackOfBody (body (fst (Rollback ids' reset db)))
      /\ skippedOfBody (body (fst (Rollback ids reset db)))
         = skippedOfBody (body (fst (Rollback ids' reset db))).
Proof.
  intros Hsame.
  assert (F : filter (idIn ids) (students db)
              = filter (idIn ids') (students db))
    by (apply filter_ext, idIn_same, Hsame).
  assert (E : ids = [] <-> ids' = []).
  { split; intros ->.
    - destruct ids' as [| y l]; [reflexivity |].
      destruct (proj2 (Hsame y) (or_introl eq_refl)).
    - destruct ids as [| y l]; [reflexivity |].
      destruct (proj1 (Hsame y) (or_introl eq_refl)). }
  split; [| intros reset]; 
    rewrite ?Advance_unfold, ?Rollback_unfold; cbv zeta; rewrite F;
    destruct ids as [| i r]; destruct ids' as [| i' r'];
    try (exfalso; destruct E as [E1 E2];
         first [discriminate (E1 eq_refl) | discriminate (E2 eq_refl)]);
    try (repeat split; reflexivity).
  destruct (filter (idIn (i' :: r')) (students db));
    repeat split; reflexivity.
Qed.

Lemma batch_depends_on_id_set_witness :
  (snd (Advance ["s1"; "s2"; "s1"] twoStudents)
   = snd (Advance ["s2"; "s1"] twoStudents)
   /\ status (fst (Advance ["s1"; "s2"; "s1"] twoStudents))
      = status (fst (Advance ["s2"; "s1"] twoStudents))
   /\ promotedOfBody (body (fst (Advance ["s1"; "s2"; "s1"] twoStudents)))
      = promotedOfBody (body (fst (Advance ["s2"; "s1"] twoStudents)))
   /\ skippedOfBody (body (fst (Advance ["s1"; "s2"; "s1"] twoStudents)))
      = skippedOfBody (body (fst (Advance ["s2"; "s1"] twoStudents))))
  /\ forall reset,
      snd (Rollback ["s1"; "s2"; "s1"] reset twoStudents)
      = snd (Rollback ["s2"; "s1"] reset twoStudents)
      /\ status (fst (Rollback ["s1"; "s2"; "s1"] reset twoStudents))
         = status (fst (Rollback ["s2"; "s1"] reset twoStudents))
      /\ rolledBackOfBody
           (body (fst (Rollback ["s1"; "s2"; "s1"] reset twoStudents)))
         = rolledBackOfBody
             (body (fst (Rollback ["s2"; "s1"] reset twoStudents)))
      /\ skippedOfBody
           (body (fst (Rollback ["s1"; "s2"; "s1"] reset twoStudents)))
         = skippedOfBody
             (body (fst (Rollback ["s2"; "s1"] reset twoStudents))).
Proof.
  apply (batch_depends_on_id_set ["s1"; "s2"; "s1"] ["s2"; "s1"] twoStudents).
  intros x. simpl. tauto.
Defined.

Lemma outcome_lengths {E : Type} (decide : Student.t -> Decision E)
    (l : list Student.t) :
  (List.length (appliedOf decide l) + List.length (skippedOf decide l))%nat
  = List.length l.
Proof.
  induction l as [| x l IH]; [reflexivity |].
  cbn [appliedOf skippedOf]. destruct (decide x); cbn [List.length]; lia.
Qed.

Lemma found_at_most_requested (ids : list ObjectId) (db : Database) :
  uniqueIds db ->
  (List.length (filter (idIn ids) (students db)) <= List.length ids)%nat.
Proof.
  intros Hu.
  rewrite <- (length_map Student._id (filter (idIn ids) (students db))).
  apply NoDup_incl_length.
  - apply NoDup_map_filter. exact Hu.
  - intros id Hid. apply in_map_iff in Hid.
    destruct Hid as (x & <- & Hx). apply filter_In in Hx.
    apply idIn_spec. tauto.
Qed.

(** X7.  In a 200 answer the summary adds up: [requested] is the length of
    the id list, the two counts are the lengths of the two lists, and
    together they count the students found, never more than were
    requested. *)
Theorem summary_counts (ids : list ObjectId) (reset : bool) (db : Database) :
  uniqueIds db ->
  (status (fst (Advance ids db)) = 200%nat ->
   exists p k,
     body (fst (Advance ids db))
     = PromoteOk (List.length ids) (List.length p) (List.length k) p k
     /\ (List.length p + List.length k)%nat
        = List.length (filter (idIn ids) (students db))
     /\ (List.length p + List.length k <= List.length ids)%nat)
  /\ (status (fst (Rollback ids reset db)) = 200%nat ->
      exists p k,
        body (fst (Rollback ids reset db))
        = RollbackOk (List.length ids) (List.length p) (List.length k) p k
        /\ (List.length p + List.length k)%nat
           = List.length (filter (idIn ids) (students db))
        /\ (List.length p + List.length k <= List.length ids)%nat).
Proof.
  intros Hu. pose proof (found_at_most_requested ids db Hu) as Hle.
  split; intros H200.
  - destruct (Advance_accepted db ids H200) as [Hi Hf].
    unfold Advance. rewrite promote_run by assumption. cbv zeta.
    cbn [fst body]. eexists. eexists. split; [reflexivity |].
    rewrite outcome_lengths. split; [reflexivity | exact Hle].
  - pose proof (Rollback_accepted db ids reset H200) as Hi.
    unfold Rollback, batch. rewrite rollback_run by assumption. cbv zeta.
    cbn [fst body]. eexists. eexists. split; [reflexivity |].
    rewrite outcome_lengths. split; [reflexivity | exact Hle].
Qed.

Lemma summary_counts_witness :
  let ids := ["s1"; "ghost"; "s2"; "s1"] in
  (status (fst (Advance ids twoStudents)) = 200%nat ->
   exists p k,
     body (fst (Advance ids twoStudents))
     = PromoteOk (List.length ids) (List.length p) (List.length k) p k
     /\ (List.length p + List.length k)%nat
        = List.length (filter (idIn ids) (students twoStudents))
     /\ (List.length p + List.length k <= List.length ids)%nat)
  /\ (status (fst (Rollback ids true twoStudents)) = 200%nat ->
      exists p k,
        body (fst (Rollback ids true twoStudents))
        = RollbackOk (List.length ids) (List.length p) (List.length k) p k
        /\ (List.length p + List.length k)%nat
           = List.length (filter (idIn ids) (students twoStudents))
        /\ (List.length p + List.length k <= List.length ids)%nat).
Proof.
  apply (summary_counts ["s1"; "ghost"; "s2"; "s1"] true twoStudents).
  repeat constructor; simpl; intuition discriminate.
Defined.

(** X8.  What a batch does to a student depends on that student's document
    and on the course catalog only: not on which other ids the request
    names, not on the other students of the store, not on the order of
    processing.  Rollback does not even depend on the catalog. *)
Theorem outcome_is_per_student
    (db db' : Database) (ids ids' : list ObjectId) (s : Student.t) :
  uniqueIds db -> uniqueIds db' ->
  resolved db ids s -> resolved db' ids' s ->
  (courses db = courses db' ->
   findById (Student._id s) (students (snd (Advance ids db)))
   = findById (Student._id s) (students (snd (Advance ids' db'))))
  /\ forall reset,
      findById (Student._id s) (students (snd (Rollback ids reset db)))
      = findById (Student._id s) (students (snd (Rollback ids' reset db'))).
Proof.
  intros Hu Hu' Hr Hr'. split.
  - intros Hc.
    destruct (Advance_resolved db ids s Hu Hr) as [_ ->].
    destruct (Advance_resolved db' ids' s Hu' Hr') as [_ ->].
    rewrite Hc. reflexivity.
  - intros reset.
    destruct (Rollback_resolved db ids reset s Hu Hr) as [_ ->].
    destruct (Rollback_resolved db' ids' reset s Hu' Hr') as [_ ->].
    reflexivity.
Qed.

Lemma outcome_is_per_student_witness :
  let s := Student.mk "s1" "MCA" "4" "2024-25" in
  (courses twoStudents = courses (sampleDb "4" "2024-25") ->
   findById "s1" (students (snd (Advance ["s2"; "s1"] twoStudents)))
   = findById "s1"
       (students (snd (Advance ["s1"] (sampleDb "4" "2024-25")))))
  /\ forall reset,
      findById "s1" (students (snd (Rollback ["s2"; "s1"] reset twoStudents)))
      = findById "s1"
          (students (snd (Rollback ["s1"] reset (sampleDb "4" "2024-25")))).
Proof.
  apply (outcome_is_per_student twoStudents (sampleDb "4" "2024-25")
           ["s2"; "s1"] ["s1"] (Student.mk "s1" "MCA" "4" "2024-25")).
  - repeat constructor; simpl; intuition discriminate.
  - repeat constructor. simpl. tauto.
  - split; simpl; tauto.
  - split; simpl; tauto.
Defined.

(** ** Operations composed *)

Lemma Rollback_uniqueIds (db : Database) (ids : list ObjectId)
    (reset : bool) (s : Student.t) :
  uniqueIds db -> resolved db ids s ->
  uniqueIds (snd (Rollback ids reset db)).
Proof.
  intros Hu Hr. destruct (Rollback_resolved db ids reset s Hu Hr) as [Run _].
  rewrite Run. unfold uniqueIds. cbn [snd students].
  rewrite stageAll_ids. exact Hu.
Qed.

Lemma Advance_courses (db : Database) (ids : list ObjectId) :
  courses (snd (Advance ids db)) = courses db.
Proof.
  rewrite Advance_unfold. destruct ids as [| i r]; [reflexivity |].
  destruct (filter _ _); reflexivity.
Qed.

(** Of two promotions in a row exactly one starts from an even semester,
    so the year computation runs once. *)
Lemma Advance_twice
    (db : Database) (ids : list ObjectId) (s : Student.t)
    (course : Course.t) (c : Z) :
  uniqueIds db -> resolved db ids s ->
  courseOf db s = Some course ->
  JS.parseInt10 (Student.semId s) = JS.Num c ->
  c + 1 < Course.No_of_Sem course ->
  findById (Student._id s)
    (students (snd (Advance ids (snd (Advance ids db)))))
  = Some
      (Student.mk (Student._id s) (Student.courseId s)
         (JS.toString (JS.Num (c + 2)))
         (forwardYear (Student.academicYear s))).
Proof.
  intros Hu Hr Hc Hp Hlt.
  pose proof (promoteDecision_apply db s course c Hc Hp ltac:(lia)) as Hd.
  cbv zeta in Hd.
  destruct (Advance_apply db ids s _ _ Hu Hr Hd) as (Hs & _ & _).
  pose proof (Advance_uniqueIds db ids s Hu Hr) as Hu'.
  set (s1 := applySet
               (Payload.mk (Some (JS.toString (JS.Num (c + 1))))
                  (Some (if Z.even c
                         then forwardYear (Student.academicYear s)
                         else Student.academicYear s))) s) in *.
  assert (Hr' : resolved (snd (Advance ids db)) ids s1).
  { split; [| exact (proj2 Hr)]. apply findById_In in Hs. tauto. }
  assert (Hc' : courseOf (snd (Advance ids db)) s1 = Some course).
  { unfold courseOf. rewrite Advance_courses. exact Hc. }
  assert (Hp' : JS.parseInt10 (Student.semId s1) = JS.Num (c + 1))
    by apply parseInt10_toString.
  pose proof (promoteDecision_apply _ s1 course (c + 1) Hc' Hp' Hlt) as Hd'.
  cbv zeta in Hd'.
  destruct (Advance_apply _ ids s1 _ _ Hu' Hr' Hd') as (Hs' & _ & _).
  change (Student._id s1) with (Student._id s) in Hs'. rewrite Hs'.
  unfold s1, applySet.
  cbn [Payload.semId Payload.academicYear Student._id Student.courseId
       Student.semId Student.academicYear].
  replace (c + 1 + 1) with (c + 2) by lia.
  rewrite Z.even_add. change (Z.even 1) with false.
  destruct (Z.even c); reflexivity.
Qed.

(** X9.  Two promotions in a row move a student two semesters up and the
    academic year exactly one year forward, whichever parity the student
    started from: with [S] the start year of the label, [S + 2] a safe
    integer, the new label is [S + 1], a hyphen, and the last two characters
    of [S + 2]. *)
Theorem two_promotions_advance_one_year
    (db : Database) (ids : list ObjectId) (s : Student.t)
    (course : Course.t) (c S : Z) :
  uniqueIds db -> resolved db ids s ->
  courseOf db s = Some course ->
  JS.parseInt10 (Student.semId s) = JS.Num c ->
  c + 1 < Course.No_of_Sem course ->
  JS.safeInteger c -> JS.safeInteger (c + 2) ->
  JS.parseInt10 (JS.splitFirst (Student.academicYear s)) = JS.Num S ->
  JS.safeInteger (S + 2) ->
  findById (Student._id s)
    (students (snd (Advance ids (snd (Advance ids db)))))
  = Some
      (Student.mk (Student._id s) (Student.courseId s)
         (JS.toString (JS.Num (c + 2)))
         (JS.toString (JS.Num (S + 1)) ++ "-"
          ++ JS.slice (-2) (JS.toString (JS.Num (S + 2))))).
Proof.
  intros Hu Hr Hc Hp Hlt _ _ HS _.
  rewrite (Advance_twice db ids s course c Hu Hr Hc Hp Hlt).
  rewrite (forwardYear_start _ S HS). reflexivity.
Qed.

Lemma two_promotions_advance_one_year_witness :
  findById "s1"
    (students
       (snd (Advance ["s1"] (snd (Advance ["s1"] (sampleDb "3" "2024-25"))))))
  = Some (Student.mk "s1" "MCA" (JS.toString (JS.Num (3 + 2)))
            (JS.toString (JS.Num (2024 + 1)) ++ "-"
             ++ JS.slice (-2) (JS.toString (JS.Num (2024 + 2))))).
Proof.
  apply (two_promotions_advance_one_year (sampleDb "3" "2024-25") ["s1"]
           (Student.mk "s1" "MCA" "3" "2024-25") (Course.mk "MCA" 8) 3 2024).
  - repeat constructor. simpl. tauto.
  - split; simpl; tauto.
  - reflexivity.
  - reflexivity.
  - simpl. lia.
  - split; vm_compute; discriminate.
  - split; vm_compute; discriminate.
  - reflexivity.
  - split; vm_compute; discriminate.
Defined.

(** Of two normal rollbacks in a row exactly one starts from an even
    semester. *)
Lemma Rollback_twice
    (db : Database) (ids : list ObjectId) (s : Student.t) (c : Z) :
  uniqueIds db -> resolved db ids s ->
  JS.parseInt10 (Student.semId s) = JS.Num c ->
  3 <= c ->
  findById (Student._id s)
    (students (snd (Rollback ids false (snd (Rollback ids false db)))))
  = Some
      (Student.mk (Student._id s) (Student.courseId s)
         (JS.toString (JS.Num (c - 2)))
         (backwardYear (Student.academicYear s))).
Proof.
  intros Hu Hr Hp Hc.
  pose proof (rollbackDecision_normal s c Hp ltac:(lia)) as Hd.
  cbv zeta in Hd.
  destruct (Rollback_apply db ids false s _ _ Hu Hr Hd) as (Hs & _ & _).
  pose proof (Rollback_uniqueIds db ids false s Hu Hr) as Hu'.
  set (s1 := applySet
               (Payload.mk (Some (JS.toString (JS.Num (c - 1))))
                  (if Z.even c
                   then Some (backwardYear (Student.academicYear s))
                   else None)) s) in *.
  assert (Hr' : resolved (snd (Rollback ids false db)) ids s1).
  { split; [| exact (proj2 Hr)]. apply findById_In in Hs. tauto. }
  assert (Hp' : JS.parseInt10 (Student.semId s1) = JS.Num (c - 1))
    by apply parseInt10_toString.
  pose proof (rollbackDecision_normal s1 (c - 1) Hp' ltac:(lia)) as Hd'.
  cbv zeta in Hd'.
  destruct (Rollback_apply _ ids false s1 _ _ Hu' Hr' Hd') as (Hs' & _ & _).
  change (Student._id s1) with (Student._id s) in Hs'. rewrite Hs'.
  unfold s1, applySet.
  cbn [Payload.semId Payload.academicYear Student._id Student.courseId
       Student.semId Student.academicYear].
  replace (c - 1 - 1) with (c - 2) by lia.
  rewrite Z.even_sub. change (Z.even 1) with false.
  destruct (Z.even c); reflexivity.
Qed.

(** X10.  Two normal rollbacks in a row, from a semester of at least 3,
    move a student two semesters down and the academic year exactly one
    year back, whichever parity the student started from: with [S] the
    start year of the label, [S - 1] a safe integer, the new label is
    [S - 1], a hyphen, and the last two characters of [S]. *)
Theorem two_rollbacks_regress_one_year
    (db : Database) (ids : list ObjectId) (s : Student.t) (c S : Z) :
  uniqueIds db -> resolved db ids s ->
  JS.parseInt10 (Student.semId s) = JS.Num c ->
  3 <= c ->
  JS.safeInteger c ->
  JS.parseInt10 (JS.splitFirst (Student.academicYear s)) = JS.Num S ->
  JS.safeInteger (S - 1) ->
  findById (Student._id s)
    (students (snd (Rollback ids false (snd (Rollback ids false db)))))
  = Some
      (Student.mk (Student._id s) (Student.courseId s)
         (JS.toString (JS.Num (c - 2)))
         (JS.toString (JS.Num (S - 1)) ++ "-"
          ++ JS.slice (-2) (JS.toString (JS.Num S)))).
Proof.
  intros Hu Hr Hp Hc _ HS _.
  rewrite (Rollback_twice db ids s c Hu Hr Hp Hc).
  rewrite (backwardYear_start _ S HS). reflexivity.
Qed.

Lemma two_rollbacks_regress_one_year_witness :
  findById "s1"
    (students
       (snd (Rollback ["s1"] false
               (snd (Rollback ["s1"] false (sampleDb "4" "2024-25"))))))
  = Some (Student.mk "s1" "MCA" (JS.toString (JS.Num (4 - 2)))
            (JS.toString (JS.Num (2024 - 1)) ++ "-"
             ++ JS.slice (-2) (JS.toString (JS.Num 2024)))).
Proof.
  apply (two_rollbacks_regress_one_year (sampleDb "4" "2024-25") ["s1"]
           (Student.mk "s1" "MCA" "4" "2024-25") 4 2024).
  - repeat constructor. simpl. tauto.
  - split; simpl; tauto.
  - reflexivity.
  - lia.
  - split; vm_compute; discriminate.
  - reflexivity.
  - split; vm_compute; discriminate.
Defined.

(** ** Year labels *)

Lemma forwardYear_label (S : Z) (rest : string) :
  8 <= S ->
  forwardYear (JS.toString (JS.Num S) ++ "-" ++ rest)
  = JS.toString (JS.Num (S + 1)) ++ "-" ++ lastTwoDigits (S + 2).
Proof.
  intros HS. unfold forwardYear.
  rewrite startYear_label by lia. cbn [JS.add].
  rewrite yearLabel_digits by lia.
  replace (S + 1 + 1) with (S + 2) by lia. reflexivity.
Qed.

Lemma backwardYear_label (S : Z) (rest : string) :
  10 <= S ->
  backwardYear (JS.toString (JS.Num S) ++ "-" ++ rest)
  = JS.toString (JS.Num (S - 1)) ++ "-" ++ lastTwoDigits S.
Proof.
  intros HS. unfold backwardYear.
  rewrite startYear_label by lia. cbn [JS.sub].
  rewrite yearLabel_digits by lia.
  replace (S - 1 + 1) with S by lia. reflexivity.
Qed.

(** X11.  On labels the two year computations undo each other.  Going
    forward then back from start year [S] gives the label of [S] with its
    suffix recomputed, whatever suffix the label had; on a label whose
    suffix is the last two digits of [S + 1] both round trips give the
    label back.  From start year 10 on. *)
Theorem year_label_round_trip (S : Z) (rest : string) :
  10 <= S -> JS.safeInteger (S + 2) ->
  backwardYear (forwardYear (JS.toString (JS.Num S) ++ "-" ++ rest))
  = JS.toString (JS.Num S) ++ "-" ++ lastTwoDigits (S + 1)
  /\ forwardYear (backwardYear (JS.toString (JS.Num S) ++ "-" ++ rest))
     = JS.toString (JS.Num S) ++ "-" ++ lastTwoDigits (S + 1)
  /\ (rest = lastTwoDigits (S + 1) ->
      backwardYear (forwardYear (JS.toString (JS.Num S) ++ "-" ++ rest))
      = JS.toString (JS.Num S) ++ "-" ++ rest
      /\ forwardYear (backwardYear (JS.toString (JS.Num S) ++ "-" ++ rest))
         = JS.toString (JS.Num S) ++ "-" ++ rest).
Proof.
  intros HS _.
  assert (A : backwardYear
                (forwardYear (JS.toString (JS.Num S) ++ "-" ++ rest))
              = JS.toString (JS.Num S) ++ "-" ++ lastTwoDigits (S + 1)).
  { rewrite forwardYear_label by lia. rewrite backwardYear_label by lia.
    replace (S + 1 - 1) with S by lia. reflexivity. }
  assert (B : forwardYear
                (backwardYear (JS.toString (JS.Num S) ++ "-" ++ rest))
              = JS.toString (JS.Num S) ++ "-" ++ lastTwoDigits (S + 1)).
  { rewrite backwardYear_label by lia. rewrite forwardYear_label by lia.
    replace (S - 1 + 1) with S by lia.
    replace (S - 1 + 2) with (S + 1) by lia. reflexivity. }
  split; [exact A | split; [exact B |]].
  intros ->. split; assumption.
Qed.

Lemma year_label_round_trip_witness :
  backwardYear (forwardYear (JS.toString (JS.Num 2099) ++ "-" ++ "00"))
  = JS.toString (JS.Num 2099) ++ "-" ++ lastTwoDigits (2099 + 1)
  /\ forwardYear (backwardYear (JS.toString (JS.Num 2099) ++ "-" ++ "00"))
     = JS.toString (JS.Num 2099) ++ "-" ++ lastTwoDigits (2099 + 1)
  /\ ("00" = lastTwoDigits (2099 + 1) ->
      backwardYear (forwardYear (JS.toString (JS.Num 2099) ++ "-" ++ "00"))
      = JS.toString (JS.Num 2099) ++ "-" ++ "00"
      /\ forwardYear (backwardYear (JS.toString (JS.Num 2099) ++ "-" ++ "00"))
         = JS.toString (JS.Num 2099) ++ "-" ++ "00").
Proof.
  apply (year_label_round_trip 2099 "00").
  - lia.
  - split; vm_compute; discriminate.
Defined.

(** ** The reset flag *)

Lemma forOf_ext {A S : Type} (body body' : A -> S -> M S) (l : list A) :
  (forall x st s, body x st s = body' x st s) ->
  forall st s, forOf body l st s = forOf body' l st s.
Proof.
  intros Hb. induction l as [| x l IH]; intros st s; [reflexivity |].
  cbn [forOf]. unfold bind. rewrite Hb.
  destruct (body' x st s) as [[st' | e] s']; [apply IH | reflexivity].
Qed.

(** X12.  Only the boolean [true] selects the reset variant: with
    [resetAttendance] omitted, [false], or any other value (a string, a
    number, an array), [rollbackStudents] does exactly what it does for
    [false]. *)
Theorem reset_needs_literal_true (ids : jsval) (flag : jsval)
    (db : Database) (fault : option nat) :
  flag <> JBool true ->
  rollbackStudents (mkRequest ids flag) db fault
  = rollbackStudents (mkRequest ids (JBool false)) db fault.
Proof.
  intros Hflag.
  assert (Hf : isTrue flag = false).
  { destruct flag as [| [|] | |]; try reflexivity. congruence. }
  assert (Hstep : forall x st s,
             rollbackStep flag x st s = rollbackStep (JBool false) x st s).
  { intros x st s. unfold rollbackStep. rewrite Hf. reflexivity. }
  assert (Htry : forall s,
             rollbackTry (mkRequest ids flag) s
             = rollbackTry (mkRequest ids (JBool false)) s).
  { intros s. unfold rollbackTry. cbn [studentIds resetAttendance].
    destruct ids as [| b | [| i r] |]; try reflexivity.
    unfold bind.
    destruct (Student_find (i :: r) s) as [[found | e] s']; [| reflexivity].
    rewrite (forOf_ext _ _ found Hstep). reflexivity. }
  unfold rollbackStudents. rewrite Htry. reflexivity.
Qed.

Lemma reset_needs_literal_true_witness :
  rollbackStudents (mkRequest (JArray ["s1"; "s2"]) JOther) twoStudents None
  = rollbackStudents (mkRequest (JArray ["s1"; "s2"]) (JBool false))
      twoStudents None.
Proof.
  apply (reset_needs_literal_true (JArray ["s1"; "s2"]) JOther twoStudents
           None).
  discriminate.
Defined.

(** ** The range of the semester *)

(** X13.  The handlers keep a semester inside its course: a resolved
    student whose semester is between 1 and [No_of_Sem] still has a
    semester between 1 and [No_of_Sem] after a promotion, which never
    lowers it, and after a rollback of either kind, which never raises
    it. *)
Theorem semester_stays_in_range
    (db : Database) (ids : list ObjectId) (s : Student.t)
    (course : Course.t) (c : Z) :
  uniqueIds db -> resolved db ids s ->
  courseOf db s = Some course ->
  JS.parseInt10 (Student.semId s) = JS.Num c ->
  1 <= c <= Course.No_of_Sem course ->
  JS.safeInteger c -> JS.safeInteger (c + 1) ->
  (exists s' c',
      findById (Student._id s) (students (snd (Advance ids db))) = Some s'
      /\ JS.parseInt10 (Student.semId s') = JS.Num c'
      /\ 1 <= c' <= Course.No_of_Sem course /\ c <= c')
  /\ forall reset,
      exists s' c',
        findById (Student._id s) (students (snd (Rollback ids reset db)))
        = Some s'
        /\ JS.parseInt10 (Student.semId s') = JS.Num c'
        /\ 1 <= c' <= Course.No_of_Sem course /\ c' <= c.
Proof.
  intros Hu Hr Hc Hp [H1 HT] _ _. split.
  - destruct (Z_lt_le_dec c (Course.No_of_Sem course)) as [Hlt | Hge].
    + pose proof (promoteDecision_apply db s course c Hc Hp Hlt) as Hd.
      cbv zeta in Hd.
      destruct (Advance_apply db ids s _ _ Hu Hr Hd) as (Hs & _ & _).
      eexists. exists (c + 1). split; [exact Hs |].
      split; [apply parseInt10_toString | lia].
    + pose proof (promoteDecision_final db s course c Hc Hp Hge) as Hd.
      destruct (Advance_skip db ids s _ Hu Hr Hd) as (Hs & _ & _).
      exists s, c. split; [exact Hs |]. split; [exact Hp | lia].
  - intros [|].
    + pose proof (rollbackDecision_reset s c Hp) as Hd.
      destruct (Rollback_apply db ids true s _ _ Hu Hr Hd) as (Hs & _ & _).
      eexists. exists c. split; [exact Hs |]. split; [exact Hp | lia].
    + destruct (Z_le_gt_dec c 1) as [Hle | Hgt].
      * pose proof (rollbackDecision_first s c Hp Hle) as Hd.
        destruct (Rollback_skip db ids false s _ Hu Hr Hd) as (Hs & _ & _).
        exists s, c. split; [exact Hs |]. split; [exact Hp | lia].
      * pose proof (rollbackDecision_normal s c Hp ltac:(lia)) as Hd.
        cbv zeta in Hd.
        destruct (Rollback_apply db ids false s _ _ Hu Hr Hd)
          as (Hs & _ & _).
        eexists. exists (c - 1). split; [exact Hs |].
        split; [apply parseInt10_toString | lia].
Qed.

Lemma semester_stays_in_range_witness :
  let s := Student.mk "s2" "MCA" "8" "2022-23" in
  let course := Course.mk "MCA" 8 in
  (exists s' c',
      findById "s2" (students (snd (Advance ["s1"; "s2"] twoStudents)))
      = Some s'
      /\ JS.parseInt10 (Student.semId s') = JS.Num c'
      /\ 1 <= c' <= Course.No_of_Sem course /\ 8 <= c')
  /\ forall reset,
      exists s' c',
        findById "s2"
          (students (snd (Rollback ["s1"; "s2"] reset twoStudents)))
        = Some s'
        /\ JS.parseInt10 (Student.semId s') = JS.Num c'
        /\ 1 <= c' <= Course.No_of_Sem course /\ c' <= 8.
Proof.
  apply (semester_stays_in_range twoStudents ["s1"; "s2"]
           (Student.mk "s2" "MCA" "8" "2022-23") (Course.mk "MCA" 8) 8).
  - repeat constructor; simpl; intuition discriminate.
  - split; simpl; tauto.
  - reflexivity.
  - reflexivity.
  - simpl. lia.
  - split; vm_compute; discriminate.
  - split; vm_compute; discriminate.
Defined.

(** * The roll-number pattern *)

(** ** Matching by derivatives is matching *)

Lemma append_empty (a b : string) : a ++ b = "" -> a = "" /\ b = "".
Proof. destruct a; [simpl; auto | discriminate]. Qed.

Lemma nullable_lang (r : Regex.t) :
  Regex.nullable r = true <-> Regex.lang r "".
Proof.
  induction r as [| | p | r1 IH1 r2 IH2 | r1 IH1 r2 IH2 | r IH];
    cbn [Regex.nullable]; split; intros H.
  - discriminate.
  - inversion H.
  - constructor.
  - reflexivity.
  - discriminate.
  - inversion H.
  - apply andb_true_iff in H. destruct H as [H1 H2].
    change "" with ("" ++ ""). constructor; [apply IH1 | apply IH2]; easy.
  - inversion H as [| | ? ? s1 s2 L1 L2 | | | |]; subst.
    match goal with
    | E : s1 ++ s2 = "" |- _ =>
        apply append_empty in E; destruct E as [-> ->]
    end.
    apply andb_true_iff. split; [apply IH1 | apply IH2]; assumption.
  - apply orb_true_iff in H.
    destruct H as [H | H];
      [apply Regex.lang_or_l, IH1 | apply Regex.lang_or_r, IH2]; exact H.
  - apply orb_true_iff.
    inversion H; subst; [left; apply IH1 | right; apply IH2]; assumption.
  - constructor.
  - reflexivity.
Qed.

Lemma derive_complete (r : Regex.t) (w : string) :
  Regex.lang r w ->
  forall c s, w = String c s -> Regex.lang (Regex.derive c r) s.
Proof.
  induction 1 as [| p a Hp | r1 r2 s1 s2 L1 IH1 L2 IH2 | r1 r2 w L IH
                  | r1 r2 w L IH | r | r s1 s2 L1 IH1 L2 IH2];
    intros c s E; cbn [Regex.derive].
  - discriminate.
  - injection E as -> <-. rewrite Hp. constructor.
  - destruct s1 as [| a s1'].
    + cbn [append] in E. apply nullable_lang in L1. rewrite L1.
      apply Regex.lang_or_r. apply IH2. exact E.
    + cbn [append] in E. injection E as -> <-.
      assert (D : Regex.lang (Regex.Seq (Regex.derive c r1) r2) (s1' ++ s2))
        by (constructor; [apply IH1; reflexivity | exact L2]).
      destruct (Regex.nullable r1); [apply Regex.lang_or_l |]; exact D.
  - apply Regex.lang_or_l. apply IH. exact E.
  - apply Regex.lang_or_r. apply IH. exact E.
  - discriminate.
  - destruct s1 as [| a s1'].
    + cbn [append] in E. apply (IH2 c s E).
    + cbn [append] in E. injection E as -> <-.
      constructor; [apply IH1; reflexivity | exact L2].
Qed.

Lemma derive_sound (r : Regex.t) :
  forall c s, Regex.lang (Regex.derive c r) s -> Regex.lang r (String c s).
Proof.
  induction r as [| | p | r1 IH1 r2 IH2 | r1 IH1 r2 IH2 | r IH];
    intros c s H; cbn [Regex.derive] in H.
  - inversion H.
  - inversion H.
  - destruct (p c) eqn:Hp; inversion H; subst. constructor. exact Hp.
  - assert (Left : forall w,
               Regex.lang (Regex.Seq (Regex.derive c r1) r2) w ->
               Regex.lang (Regex.Seq r1 r2) (String c w)).
    { intros w Hw. inversion Hw as [| | ? ? s1 s2 L1 L2 | | | |]; subst.
      change (String c (s1 ++ s2)) with (String c s1 ++ s2).
      constructor; [apply IH1; exact L1 | exact L2]. }
    destruct (Regex.nullable r1) eqn:N; [| apply Left; exact H].
    inversion H; subst; [apply Left; assumption |].
    change (String c s) with ("" ++ String c s).
    constructor; [apply nullable_lang; exact N | apply IH2; assumption].
  - inversion H; subst;
      [apply Regex.lang_or_l, IH1 | apply Regex.lang_or_r, IH2]; assumption.
  - inversion H as [| | ? ? s1 s2 L1 L2 | | | |]; subst.
    change (String c (s1 ++ s2)) with (String c s1 ++ s2).
    constructor; [apply IH; exact L1 | exact L2].
Qed.

Lemma test_lang (s : string) :
  forall r, Regex.test r s = true <-> Regex.lang r s.
Proof.
  induction s as [| c s IH]; intros r; cbn [Regex.test].
  - apply nullable_lang.
  - rewrite IH. split; [apply derive_sound |].
    intros H. apply (derive_complete r _ H). reflexivity.
Qed.

Lemma lang_class_seq (p : ascii -> bool) (r : Regex.t) (s : string) :
  Regex.lang (Regex.Seq (Regex.Class p) r) s
  <-> exists c s', s = String c s' /\ p c = true /\ Regex.lang r s'.
Proof.
  split.
  - intros H. inversion H as [| | ? ? s1 s2 L1 L2 | | | |]; subst.
    inversion L1; subst. exists c, s2. auto.
  - intros (c & s' & -> & Hp & L).
    change (String c s') with (String c "" ++ s').
    constructor; [constructor; exact Hp | exact L].
Qed.

Lemma lang_lit_seq (a : ascii) (r : Regex.t) (s : string) :
  Regex.lang (Regex.Seq (Regex.lit a) r) s
  <-> exists s', s = String a s' /\ Regex.lang r s'.
Proof.
  unfold Regex.lit. rewrite lang_class_seq. split.
  - intros (c & s' & -> & E & L). apply Ascii.eqb_eq in E. subst. eauto.
  - intros (s' & -> & L). exists a, s'. rewrite Ascii.eqb_refl. auto.
Qed.

Lemma lang_class_star (p : ascii -> bool) (s : string) :
  Regex.lang (Regex.Star (Regex.Class p)) s <-> Text.all p s = true.
Proof.
  split.
  - intros H. remember (Regex.Star (Regex.Class p)) as r eqn:E.
    induction H as [| | | | | r0 | r0 s1 s2 L1 _ L2 IH2]; try discriminate.
    + reflexivity.
    + injection E as ->. inversion L1; subst.
      cbn [append Text.all]. rewrite IH2 by reflexivity.
      match goal with Hp : p _ = true |- _ => rewrite Hp end. reflexivity.
  - induction s as [| c s IH]; intros H; [constructor |].
    cbn [Text.all] in H. apply andb_true_iff in H. destruct H as [Hc Hs].
    change (String c s) with (String c "" ++ s).
    constructor; [constructor; exact Hc | apply IH; exact Hs].
Qed.

(** What [rollNumberPattern] accepts: two capitals, "-2K", two digits, a
    hyphen, one digit or more, and nothing else. *)
Lemma rollNumberPattern_spec (t : string) :
  Regex.test rollNumberPattern t = true
  <-> exists a b d1 d2 d ds,
      t = String a (String b (String "-" (String "2" (String "K"
            (String d1 (String d2 (String "-" (String d ds))))))))
      /\ Regex.upperAZ a = true /\ Regex.upperAZ b = true
      /\ Regex.digit d1 = true /\ Regex.digit d2 = true
      /\ Regex.digit d = true /\ Text.all Regex.digit ds = true.
Proof.
  rewrite test_lang. unfold rollNumberPattern. split.
  - intros H.
    apply lang_class_seq in H. destruct H as (a & s1 & -> & Ha & H).
    apply lang_class_seq in H. destruct H as (b & s2 & -> & Hb & H).
    apply lang_lit_seq in H. destruct H as (s3 & -> & H).
    apply lang_lit_seq in H. destruct H as (s4 & -> & H).
    apply lang_lit_seq in H. destruct H as (s5 & -> & H).
    apply lang_class_seq in H. destruct H as (d1 & s6 & -> & Hd1 & H).
    apply lang_class_seq in H. destruct H as (d2 & s7 & -> & Hd2 & H).
    apply lang_lit_seq in H. destruct H as (s8 & -> & H).
    apply lang_class_seq in H. destruct H as (d & ds & -> & Hd & H).
    apply lang_class_star in H.
    exists a, b, d1, d2, d, ds. repeat split; assumption.
  - intros (a & b & d1 & d2 & d & ds & -> & Ha & Hb & Hd1 & Hd2 & Hd & Hds).
    apply lang_class_seq. exists a. eexists. repeat split; [exact Ha |].
    apply lang_class_seq. exists b. eexists. repeat split; [exact Hb |].
    apply lang_lit_seq. eexists. split; [reflexivity |].
    apply lang_lit_seq. eexists. split; [reflexivity |].
    apply lang_lit_seq. eexists. split; [reflexivity |].
    apply lang_class_seq. exists d1. eexists. repeat split; [exact Hd1 |].
    apply lang_class_seq. exists d2. eexists. repeat split; [exact Hd2 |].
    apply lang_lit_seq. eexists. split; [reflexivity |].
    apply lang_class_seq. exists d. eexists. repeat split; [exact Hd |].
    apply lang_class_star. exact Hds.
Qed.

(** ** Trimming and upper-casing *)

Ltac each_char c :=
  destruct c as [[] [] [] [] [] [] [] []].

Lemma upperChar_blank (c : ascii) :
  JS.isWhiteSpace c = true -> Text.upperChar c = String c "".
Proof. each_char c; intros H; try discriminate H; reflexivity. Qed.

Lemma upperChar_solid (c : ascii) :
  JS.isWhiteSpace c = false ->
  (exists d, Text.upperChar c = String d "" /\ JS.isWhiteSpace d = false)
  \/ Text.upperChar c = "SS".
Proof.
  each_char c; intros H; try discriminate H;
    first [right; reflexivity | left; eexists; split; reflexivity].
Qed.

Lemma upperChar_idem (c : ascii) :
  Text.toUpperCase (Text.upperChar c) = Text.upperChar c.
Proof. each_char c; reflexivity. Qed.

Lemma toUpperCase_app (a b : string) :
  Text.toUpperCase (a ++ b) = Text.toUpperCase a ++ Text.toUpperCase b.
Proof.
  induction a as [| c a IH]; [reflexivity |].
  cbn [append Text.toUpperCase]. rewrite IH, append_assoc. reflexivity.
Qed.

Lemma toUpperCase_idem (s : string) :
  Text.toUpperCase (Text.toUpperCase s) = Text.toUpperCase s.
Proof.
  induction s as [| c s IH]; [reflexivity |].
  cbn [Text.toUpperCase]. rewrite toUpperCase_app, upperChar_idem, IH.
  reflexivity.
Qed.

Lemma toUpperCase_empty (s : string) :
  Text.toUpperCase s = "" <-> s = "".
Proof.
  split; [| intros ->; reflexivity].
  destruct s as [| c s]; [reflexivity |]. cbn [Text.toUpperCase].
  intros H. apply append_empty in H. destruct H as [H _].
  revert H. each_char c; discriminate.
Qed.

Lemma trimEnd_solid (d : ascii) (x : string) :
  JS.isWhiteSpace d = false ->
  Text.trimEnd (String d x) = String d (Text.trimEnd x).
Proof.
  intros H. cbn [Text.trimEnd]. rewrite H.
  destruct (Text.trimEnd x); reflexivity.
Qed.

Lemma trimEnd_blank (c : ascii) (x : string) :
  JS.isWhiteSpace c = true ->
  Text.trimEnd (String c x)
  = match Text.trimEnd x with
    | EmptyString => EmptyString
    | u => String c u
    end.
Proof. intros H. cbn [Text.trimEnd]. rewrite H. reflexivity. Qed.

Lemma trimEnd_idem (s : string) :
  Text.trimEnd (Text.trimEnd s) = Text.trimEnd s.
Proof.
  induction s as [| c s IH]; [reflexivity |].
  destruct (JS.isWhiteSpace c) eqn:W.
  - rewrite (trimEnd_blank c s W).
    destruct (Text.trimEnd s) as [| a u] eqn:E; [reflexivity |].
    rewrite (trimEnd_blank c _ W), IH. reflexivity.
  - rewrite (trimEnd_solid c s W), (trimEnd_solid c _ W), IH. reflexivity.
Qed.

Lemma trimStart_trimEnd (s : string) :
  JS.trimStart (Text.trimEnd (JS.trimStart s))
  = Text.trimEnd (JS.trimStart s).
Proof.
  induction s as [| c s IH]; [reflexivity |].
  cbn [JS.trimStart]. destruct (JS.isWhiteSpace c) eqn:W; [exact IH |].
  rewrite (trimEnd_solid c s W). cbn [JS.trimStart]. rewrite W. reflexivity.
Qed.

Lemma trim_idem (s : string) : Text.trim (Text.trim s) = Text.trim s.
Proof.
  unfold Text.trim. rewrite trimStart_trimEnd. apply trimEnd_idem.
Qed.

Lemma trimStart_toUpperCase (s : string) :
  JS.trimStart (Text.toUpperCase s) = Text.toUpperCase (JS.trimStart s).
Proof.
  induction s as [| c s IH]; [reflexivity |].
  cbn [Text.toUpperCase JS.trimStart].
  destruct (JS.isWhiteSpace c) eqn:W.
  - rewrite (upperChar_blank c W). cbn [append JS.trimStart].
    rewrite W. exact IH.
  - cbn [Text.toUpperCase].
    destruct (upperChar_solid c W) as [(d & -> & Wd) | ->];
      cbn [append JS.trimStart]; [rewrite Wd |]; reflexivity.
Qed.

Lemma trimEnd_toUpperCase (s : string) :
  Text.trimEnd (Text.toUpperCase s) = Text.toUpperCase (Text.trimEnd s).
Proof.
  induction s as [| c s IH]; [reflexivity |].
  cbn [Text.toUpperCase].
  destruct (JS.isWhiteSpace c) eqn:W.
  - rewrite (upperChar_blank c W). cbn [append].
    rewrite (trimEnd_blank c _ W), (trimEnd_blank c s W), IH.
    destruct (Text.trimEnd s) as [| a u] eqn:E; [reflexivity |].
    destruct (Text.toUpperCase (String a u)) as [| a' u'] eqn:U.
    + apply (proj1 (toUpperCase_empty _)) in U. discriminate U.
    + rewrite <- U. cbn [Text.toUpperCase].
      rewrite (upperChar_blank c W). reflexivity.
  - rewrite (trimEnd_solid c s W). cbn [Text.toUpperCase].
    destruct (upperChar_solid c W) as [(d & -> & Wd) | ->]; cbn [append].
    + rewrite (trimEnd_solid d _ Wd), IH. reflexivity.
    + rewrite !trimEnd_solid by reflexivity. rewrite IH. reflexivity.
Qed.

Lemma trim_toUpperCase (s : string) :
  Text.trim (Text.toUpperCase s) = Text.toUpperCase (Text.trim s).
Proof.
  unfold Text.trim. rewrite trimStart_toUpperCase. apply trimEnd_toUpperCase.
Qed.

Lemma rollNumberPattern_nonempty :
  Regex.test rollNumberPattern "" = false.
Proof. reflexivity. Qed.

Lemma isValidRollNumber_string (s : string) :
  isValidRollNumber (VString s)
  = Regex.test rollNumberPattern (Text.toUpperCase (Text.trim s)).
Proof.
  unfold isValidRollNumber. cbn [truthy].
  destruct (String.eqb_spec s "") as [-> | _]; reflexivity.
Qed.

(** X14.  [isValidRollNumber] accepts exactly the strings that, once
    trimmed and upper-cased, read: two capital letters, "-2K", two digits,
    a hyphen, then one digit or more and nothing after.  Anything that is
    not a string is refused. *)
Theorem isValidRollNumber_spec (v : value) :
  isValidRollNumber v = true
  <-> exists s a b d1 d2 d ds,
      v = VString s
      /\ Text.toUpperCase (Text.trim s)
         = String a (String b (String "-" (String "2" (String "K"
             (String d1 (String d2 (String "-" (String d ds))))))))
      /\ Regex.upperAZ a = true /\ Regex.upperAZ b = true
      /\ Regex.digit d1 = true /\ Regex.digit d2 = true
      /\ Regex.digit d = true /\ Text.all Regex.digit ds = true.
Proof.
  split.
  - intros H.
    assert (exists s, v = VString s) as [s ->].
    { destruct v as [| | b | n | s | l | f]; try (eexists; reflexivity);
        exfalso; revert H; unfold isValidRollNumber;
        destruct (negb (truthy _)); discriminate. }
    rewrite isValidRollNumber_string in H.
    apply rollNumberPattern_spec in H.
    destruct H as (a & b & d1 & d2 & d & ds & H).
    exists s, a, b, d1, d2, d, ds. tauto.
  - intros (s & a & b & d1 & d2 & d & ds & -> & E & H).
    rewrite isValidRollNumber_string. apply rollNumberPattern_spec.
    exists a, b, d1, d2, d, ds. tauto.
Qed.

(** X15.  The test ignores surrounding white space and letter case:
    trimming a roll number first, or upper-casing it first, never changes
    the verdict.  So [createStudent], which trims before testing, and
    [updateStudent], which does not, apply the same test, and the upper-case
    form that is stored is valid whenever the input is. *)
Theorem isValidRollNumber_normalised (s : string) :
  isValidRollNumber (VString (Text.trim s)) = isValidRollNumber (VString s)
  /\ isValidRollNumber (VString (Text.toUpperCase s))
     = isValidRollNumber (VString s)
  /\ isValidRollNumber (VString (Text.trim (Text.toUpperCase s)))
     = isValidRollNumber (VString s).
Proof.
  rewrite !isValidRollNumber_string. repeat split.
  - rewrite trim_idem. reflexivity.
  - rewrite trim_toUpperCase, toUpperCase_idem. reflexivity.
  - rewrite trim_idem, trim_toUpperCase, toUpperCase_idem. reflexivity.
Qed.

(** * [processStudentData] *)

(** ** Objects *)

Lemma set_fresh (k : string) (v : value) (o : object) :
  ~ In k (map fst o) -> set k v o = (o ++ [(k, v)])%list.
Proof.
  induction o as [| [k' w] o IH]; intros Hk; [reflexivity |].
  cbn [map fst In] in Hk. cbn [set].
  destruct (String.eqb_spec k' k) as [E | _]; [tauto |].
  rewrite IH by tauto. reflexivity.
Qed.

Lemma entry_keys (data : object) (k : string) (f : value -> value) :
  map fst (entry data (k, f)) = if defined k data then [k] else [].
Proof.
  unfold entry, defined. cbn [fst snd]. destruct (get k data); reflexivity.
Qed.

Lemma assign_entry (k : string) (f : value -> value) (data p : object) :
  ~ In k (map fst p) -> assign k f data p = (p ++ entry data (k, f))%list.
Proof.
  intros Hk. unfold assign, entry. cbn [fst snd].
  destruct (get k data); try (apply set_fresh; exact Hk).
  symmetry. apply app_nil_r.
Qed.

Lemma assignAll_entries (data : object)
    (fs : list (string * (value -> value))) :
  forall p,
    NoDup (map fst fs) ->
    (forall k, In k (map fst fs) -> ~ In k (map fst p)) ->
    assignAll fs data p = (p ++ flat_map (entry data) fs)%list.
Proof.
  induction fs as [| [k f] fs IH]; intros p Hnd Hp.
  - symmetry. apply app_nil_r.
  - cbn [map fst] in Hnd. inversion Hnd as [| ? ? Hk Hfs]; subst.
    cbn [assignAll flat_map].
    rewrite assign_entry by (apply Hp; left; reflexivity).
    rewrite IH; [rewrite <- app_assoc; reflexivity | exact Hfs |].
    intros k' Hk' Hin. rewrite map_app, in_app_iff in Hin.
    destruct Hin as [Hin | Hin].
    + apply (Hp k'); [right; exact Hk' | exact Hin].
    + rewrite entry_keys in Hin. destruct (defined k data); [| easy].
      destruct Hin as [<- | []]. apply Hk. exact Hk'.
Qed.

Lemma flat_map_entry_keys (data : object)
    (fs : list (string * (value -> value))) :
  map fst (flat_map (entry data) fs)
  = filter (fun k => defined k data) (map fst fs).
Proof.
  induction fs as [| [k f] fs IH]; [reflexivity |].
  cbn [flat_map map fst filter]. rewrite map_app, entry_keys, IH.
  destruct (defined k data); reflexivity.
Qed.

Lemma get_app (k : string) (a b : object) :
  get k (a ++ b)%list
  = if existsb (String.eqb k) (map fst a) then get k a else get k b.
Proof.
  induction a as [| [k' v] a IH]; [reflexivity |].
  cbn [app get map fst existsb]. rewrite (String.eqb_sym k k').
  destruct (String.eqb k' k); [reflexivity | exact IH].
Qed.

Lemma get_missing (k : string) (o : object) :
  ~ In k (map fst o) -> get k o = VUndefined.
Proof.
  induction o as [| [k' v] o IH]; intros Hk; [reflexivity |].
  cbn [map fst In] in Hk. cbn [get].
  destruct (String.eqb_spec k' k); [tauto | apply IH; tauto].
Qed.

(** Reading a key back from the entries written. *)
Lemma get_entries (data : object) (fs : list (string * (value -> value)))
    (k : string) (f : value -> value) :
  NoDup (map fst fs) -> In (k, f) fs ->
  get k (flat_map (entry data) fs)
  = match get k data with
    | VUndefined => VUndefined
    | v => f v
    end.
Proof.
  induction fs as [| [k' f'] fs IH]; intros Hnd Hin; [easy |].
  cbn [map fst] in Hnd. inversion Hnd as [| ? ? Hk Hfs]; subst.
  cbn [flat_map]. rewrite get_app, entry_keys.
  destruct Hin as [E | Hin].
  - injection E as -> ->. unfold entry at 1. cbn [fst snd].
    destruct (get k data) eqn:G; unfold defined; rewrite G;
      cbn [existsb map]; rewrite ?String.eqb_refl; cbn [orb get];
      rewrite ?String.eqb_refl; try reflexivity.
    apply get_missing. rewrite flat_map_entry_keys.
    intros H. apply filter_In in H. tauto.
  - assert (N : k' <> k).
    { intros ->. apply Hk. apply (in_map fst) in Hin. exact Hin. }
    assert (X : existsb (String.eqb k) (if defined k' data then [k'] else [])
                = false).
    { destruct (defined k' data); [| reflexivity]. cbn [existsb].
      destruct (String.eqb_spec k k'); [congruence | reflexivity]. }
    rewrite X. apply IH; assumption.
Qed.

(** ** The closed form *)

Lemma processStudentData_unfold (data : object) :
  processStudentData data
  = match get "rollNumber" data with
    | VUndefined => Ok (assignAll laterFields data [])
    | v =>
        match upperOrNull v with
        | Ok u => Ok (assignAll laterFields data [("rollNumber", u)])
        | Throw e => Throw e
        end
    end.
Proof.
  unfold processStudentData.
  destruct (get "rollNumber" data); try reflexivity;
    destruct (upperOrNull _); reflexivity.
Qed.

Lemma laterFields_NoDup : NoDup (map fst laterFields).
Proof. repeat constructor; simpl; intuition discriminate. Qed.

Lemma allFields_NoDup :
  NoDup (map fst (("rollNumber", upperOrNullValue) :: laterFields)).
Proof. repeat constructor; simpl; intuition discriminate. Qed.

Lemma processStudentData_entries (data out : object) :
  processStudentData data = Ok out -> out = entriesOf data.
Proof.
  rewrite processStudentData_unfold. unfold entriesOf. cbn [flat_map].
  assert (Fresh : forall (u : value) k,
             In k (map fst laterFields) ->
             ~ In k (map fst [("rollNumber", u)])).
  { intros u k Hk [<- | []]. revert Hk. simpl. intuition discriminate. }
  unfold entry at 1. cbn [fst snd]. unfold upperOrNullValue.
  destruct (get "rollNumber" data) eqn:G;
    try (destruct (upperOrNull _) as [u | e] eqn:U; [| discriminate]);
    intros H; injection H as <-.
  1: exact (assignAll_entries data laterFields [] laterFields_NoDup
              (fun k _ H => H)).
  all: exact (assignAll_entries data laterFields [("rollNumber", u)]
                laterFields_NoDup (Fresh u)).
Qed.

Lemma processStudentData_throws (data : object) (e : string) :
  processStudentData data = Throw e
  <-> truthy (get "rollNumber" data) = true
      /\ (forall s, get "rollNumber" data <> VString s)
      /\ e = "data.rollNumber.toUpperCase is not a function".
Proof.
  rewrite processStudentData_unfold. unfold upperOrNull.
  destruct (get "rollNumber" data) as [| | b | [| z] | s | l | f];
    cbn [truthy];
    try (split; [discriminate | intros (H & _); discriminate H]).
  - destruct b;
      [| split; [discriminate | intros (H & _); discriminate H]].
    split; [intros H; injection H as <- | intros (_ & _ & ->)];
      repeat split; discriminate.
  - destruct (negb (z =? 0));
      [| split; [discriminate | intros (H & _); discriminate H]].
    split; [intros H; injection H as <- | intros (_ & _ & ->)];
      repeat split; discriminate.
  - destruct (negb (String.eqb s ""));
      (split; [discriminate | intros (_ & H & _); destruct (H s eq_refl)]).
  - split; [intros H; injection H as <- | intros (_ & _ & ->)];
      repeat split; discriminate.
  - split; [intros H; injection H as <- | intros (_ & _ & ->)];
      repeat split; discriminate.
Qed.

(** ** What the field functions return *)

Lemma convertEmptyToNull_settles : settles convertEmptyToNull.
Proof.
  intros w Hw. destruct w as [| | b | n | [| c s] | l | f];
    repeat split; try discriminate; congruence.
Qed.

Lemma orNull_settles : settles orNull.
Proof.
  intros w Hw. unfold orNull.
  destruct w as [| | [|] | [| z] | [| c s] | l | f]; cbn [truthy];
    repeat split; try discriminate; try congruence;
    destruct (negb (z =? 0)) eqn:Z; cbn [truthy]; rewrite ?Z;
    try discriminate; reflexivity.
Qed.

Lemma filter_keep_idem (items : list value) :
  filter keepSpecialization (filter keepSpecialization items)
  = filter keepSpecialization items.
Proof.
  induction items as [| x items IH]; [reflexivity |].
  cbn [filter]. destruct (keepSpecialization x) eqn:K; [| exact IH].
  cbn [filter]. rewrite K, IH. reflexivity.
Qed.

Lemma processSpecializations_settles : settles processSpecializations.
Proof.
  intros w Hw. unfold processSpecializations.
  destruct w as [| | b | n | [| c s] | l | f];
    try (repeat split; try discriminate; congruence).
  destruct (filter keepSpecialization l) as [| x l'] eqn:F;
    [repeat split; discriminate |].
  repeat split; try discriminate.
  rewrite <- F, filter_keep_idem, F. reflexivity.
Qed.

Lemma upperOrNullValue_cases (w : value) :
  upperOrNullValue w = VNull
  \/ exists c s,
      w = VString (String c s)
      /\ upperOrNullValue w = VString (Text.toUpperCase (String c s)).
Proof.
  unfold upperOrNullValue, upperOrNull.
  destruct w as [| | [|] | [| z] | [| c s] | l | f]; cbn [truthy];
    try (left; reflexivity);
    try (right; do 2 eexists; split; reflexivity).
  destruct (negb (z =? 0)); left; reflexivity.
Qed.

Lemma upperOrNullValue_settles : settles upperOrNullValue.
Proof.
  intros w _. destruct (upperOrNullValue_cases w) as [E | (c & s & -> & E)];
    rewrite E.
  - split; [discriminate | split; [discriminate | reflexivity]].
  - assert (N : Text.toUpperCase (String c s) <> "").
    { intros H. apply (proj1 (toUpperCase_empty _)) in H. discriminate H. }
    split; [discriminate | split; [congruence |]].
    unfold upperOrNullValue, upperOrNull. cbn [truthy].
    destruct (String.eqb_spec (Text.toUpperCase (String c s)) "");
      [contradiction |].
    cbn [negb]. rewrite toUpperCase_idem. reflexivity.
Qed.

Lemma allFields_settle (k : string) (f : value -> value) :
  In (k, f) (("rollNumber", upperOrNullValue) :: laterFields) -> settles f.
Proof.
  intros H. cbn [In laterFields] in H.
  repeat (destruct H as [H | H]; [injection H as <- <- |]);
    try destruct H;
    first [apply upperOrNullValue_settles | apply convertEmptyToNull_settles
          | apply orNull_settles | apply processSpecializations_settles].
Qed.

Lemma entriesOf_In (data : object) (k : string) (v : value) :
  In (k, v) (entriesOf data) ->
  exists f,
    In (k, f) (("rollNumber", upperOrNullValue) :: laterFields)
    /\ get k data <> VUndefined /\ v = f (get k data).
Proof.
  unfold entriesOf. intros H. apply in_flat_map in H.
  destruct H as ([k' f] & Hin & H). unfold entry in H. cbn [fst snd] in H.
  destruct (get k' data) eqn:G; cbn [In] in H; try contradiction;
    destruct H as [H | []]; injection H as <- <-;
    exists f; rewrite G; repeat split; try assumption; discriminate.
Qed.

Lemma flat_map_same {A B : Type} (f g : A -> list B) (l : list A) :
  (forall x, In x l -> f x = g x) -> flat_map f l = flat_map g l.
Proof.
  induction l as [| x l IH]; intros H; [reflexivity |].
  cbn [flat_map]. rewrite (H x) by (left; reflexivity).
  rewrite IH; [reflexivity |]. intros y Hy. apply H. right. exact Hy.
Qed.

Lemma entry_idem (data : object) (fs : list (string * (value -> value)))
    (k : string) (f : value -> value) :
  NoDup (map fst fs) -> In (k, f) fs -> settles f ->
  entry (flat_map (entry data) fs) (k, f) = entry data (k, f).
Proof.
  intros Hnd Hin Hf.
  change (entry (flat_map (entry data) fs) (k, f))
    with (match get k (flat_map (entry data) fs) with
          | VUndefined => []
          | v => [(k, f v)]
          end).
  rewrite (get_entries data fs k f Hnd Hin).
  change (entry data (k, f))
    with (match get k data with
          | VUndefined => []
          | v => [(k, f v)]
          end).
  destruct (get k data) eqn:G; [reflexivity | ..];
    match goal with
    | |- _ = [(k, f ?w)] =>
        destruct (Hf w ltac:(discriminate)) as (H1 & _ & H3);
        destruct (f w) eqn:Fw; [contradiction | ..];
        first [reflexivity | rewrite H3; reflexivity]
    end.
Qed.

Lemma entriesOf_idem (data : object) :
  entriesOf (entriesOf data) = entriesOf data.
Proof.
  unfold entriesOf. apply flat_map_same. intros [k f] Hin.
  apply entry_idem;
    [apply allFields_NoDup | exact Hin | apply (allFields_settle k f Hin)].
Qed.

(** X16.  [processStudentData] writes a key exactly when the input defines
    it, and only the eight keys it knows, in the order of the source: any
    other key of the input ([academicYear], [_id], ...) is dropped, and no
    key is written twice. *)
Theorem processStudentData_keys (data out : object) :
  processStudentData data = Ok out ->
  map fst out = filter (fun k => defined k data) studentKeys
  /\ NoDup (map fst out)
  /\ forall k, In k (map fst out) -> In k studentKeys.
Proof.
  intros H. apply processStudentData_entries in H. subst out.
  assert (E : map fst (entriesOf data)
              = filter (fun k => defined k data) studentKeys).
  { unfold entriesOf. rewrite flat_map_entry_keys. reflexivity. }
  rewrite E. split; [reflexivity | split].
  - apply NoDup_filter.
    exact allFields_NoDup.
  - intros k Hk. apply filter_In in Hk. tauto.
Qed.

Lemma processStudentData_keys_witness :
  let out :=
    [("rollNumber", VString " IT-2K21-36 "); ("fullName", VNull);
     ("semId", VNull); ("email", VNull);
     ("specializations", VArray [VString "AI"])] in
  map fst out = filter (fun k => defined k sampleBody) studentKeys
  /\ NoDup (map fst out)
  /\ forall k, In k (map fst out) -> In k studentKeys.
Proof.
  apply (processStudentData_keys sampleBody).
  reflexivity.
Defined.

(** X17.  No value [processStudentData] writes is [undefined] or the empty
    string, and what it writes under [specializations] is never an empty
    array nor an array holding "", [null] or [undefined].  So the loop of
    [updateStudent] that deletes undefined keys finds none. *)
Theorem processStudentData_values (data out : object) :
  processStudentData data = Ok out ->
  (forall k v,
      In (k, v) out ->
      v <> VUndefined /\ v <> VString ""
      /\ (k = "specializations" ->
          forall items,
            v = VArray items ->
            items <> [] /\ forallb keepSpecialization items = true))
  /\ filter
       (fun kv => match snd kv with VUndefined => false | _ => true end) out
     = out.
Proof.
  intros H. apply processStudentData_entries in H. subst out.
  assert (Clean : forall k v,
             In (k, v) (entriesOf data) ->
             v <> VUndefined /\ v <> VString ""
             /\ (k = "specializations" ->
                 forall items,
                   v = VArray items ->
                   items <> [] /\ forallb keepSpecialization items = true)).
  { intros k v Hin. apply entriesOf_In in Hin.
    destruct Hin as (f & Hf & Hw & ->).
    destruct (allFields_settle k f Hf (get k data) Hw) as (H1 & H2 & _).
    split; [exact H1 | split; [exact H2 |]].
    intros -> items Hv.
    cbn [In laterFields] in Hf.
    assert (f = processSpecializations) as ->.
    { repeat (destruct Hf as [Hf | Hf];
              [first [discriminate Hf | injection Hf as <-; reflexivity] |]).
      destruct Hf. }
    unfold processSpecializations in Hv.
    destruct (get "specializations" data) as [| | b | n | [| c s] | l | o];
      try discriminate Hv.
    destruct (filter keepSpecialization l) as [| x l'] eqn:F;
      [discriminate Hv |].
    injection Hv as <-. split; [discriminate |].
    rewrite <- F. apply forallb_forall. intros y Hy.
    apply filter_In in Hy. tauto. }
  split; [exact Clean |].
  assert (All : forall l : object,
             (forall k v, In (k, v) l -> v <> VUndefined) ->
             filter
               (fun kv =>
                  match snd kv with VUndefined => false | _ => true end) l
             = l).
  { induction l as [| [k v] l IH]; intros Hl; [reflexivity |].
    cbn [filter snd].
    pose proof (Hl k v (or_introl eq_refl)) as Hv.
    rewrite IH by (intros k' v' Hin; apply (Hl k' v'); right; exact Hin).
    destruct v; try reflexivity. contradiction. }
  apply All. intros k v Hin. apply (Clean k v Hin).
Qed.

Lemma processStudentData_values_witness :
  let out :=
    [("rollNumber", VString " IT-2K21-36 "); ("fullName", VNull);
     ("semId", VNull); ("email", VNull);
     ("specializations", VArray [VString "AI"])] in
  (forall k v,
      In (k, v) out ->
      v <> VUndefined /\ v <> VString ""
      /\ (k = "specializations" ->
          forall items,
            v = VArray items ->
            items <> [] /\ forallb keepSpecialization items = true))
  /\ filter
       (fun kv => match snd kv with VUndefined => false | _ => true end) out
     = out.
Proof.
  apply (processStudentData_values sampleBody).
  reflexivity.
Defined.

(** X18.  [processStudentData] is idempotent: processing what it returned
    returns the same object, without throwing. *)
Theorem processStudentData_idempotent (data out : object) :
  processStudentData data = Ok out -> processStudentData out = Ok out.
Proof.
  intros H. apply processStudentData_entries in H. subst out.
  destruct (processStudentData (entriesOf data)) as [out' | e] eqn:P.
  - apply processStudentData_entries in P. rewrite entriesOf_idem in P.
    rewrite P. reflexivity.
  - exfalso. apply processStudentData_throws in P.
    destruct P as (Ht & Hs & _).
    assert (G : get "rollNumber" (entriesOf data)
                = match get "rollNumber" data with
                  | VUndefined => VUndefined
                  | v => upperOrNullValue v
                  end).
    { apply (get_entries data _ "rollNumber" upperOrNullValue
               allFields_NoDup). left. reflexivity. }
    rewrite G in Ht, Hs.
    destruct (get "rollNumber" data) eqn:R; try discriminate Ht;
      match goal with
      | _ : context [upperOrNullValue ?w] |- _ =>
          destruct (upperOrNullValue_cases w) as [E | (c0 & s0 & _ & E)];
          rewrite E in Ht, Hs;
          [cbn [truthy] in Ht; discriminate Ht | exact (Hs _ eq_refl)]
      end.
Qed.

Lemma processStudentData_idempotent_witness :
  processStudentData
    [("rollNumber", VString " IT-2K21-36 "); ("fullName", VNull);
     ("semId", VNull); ("email", VNull);
     ("specializations", VArray [VString "AI"])]
  = Ok [("rollNumber", VString " IT-2K21-36 "); ("fullName", VNull);
        ("semId", VNull); ("email", VNull);
        ("specializations", VArray [VString "AI"])].
Proof.
  apply (processStudentData_idempotent sampleBody).
  reflexivity.
Defined.

(** * The CRUD handlers *)

Lemma isValidRollNumber_trim (s : string) :
  isValidRollNumber (VString (Text.trim s)) = isValidRollNumber (VString s).
Proof. rewrite !isValidRollNumber_string, trim_idem. reflexivity. Qed.

Lemma isValidRollNumber_only_strings (v : value) :
  isValidRollNumber v = true -> exists s, v = VString s.
Proof.
  destruct v as [| | b | n | s | l | f]; try (eexists; reflexivity);
    unfold isValidRollNumber; destruct (negb (truthy _)); discriminate.
Qed.

Lemma entriesOf_defined (data : object) (k : string) (v : value) :
  In (k, v) (entriesOf data) -> v <> VUndefined.
Proof.
  intros Hin. apply entriesOf_In in Hin. destruct Hin as (f & Hf & Hw & ->).
  apply (allFields_settle k f Hf (get k data) Hw).
Qed.

Lemma deleteUndefined_processed (data out : object) :
  processStudentData data = Ok out -> deleteUndefined out = out.
Proof.
  intros H. apply processStudentData_entries in H. subst out.
  unfold deleteUndefined.
  assert (All : forall l : object,
             (forall k v, In (k, v) l -> v <> VUndefined) ->
             filter
               (fun kv =>
                  match snd kv with VUndefined => false | _ => true end) l
             = l).
  { induction l as [| [k v] l IH]; intros Hl; [reflexivity |].
    cbn [filter snd].
    pose proof (Hl k v (or_introl eq_refl)) as Hv.
    rewrite IH by (intros k' v' Hin; apply (Hl k' v'); right; exact Hin).
    destruct v; try reflexivity. contradiction. }
  apply All. apply entriesOf_defined.
Qed.

Lemma processed_keys (data out : object) (k : string) :
  processStudentData data = Ok out -> In k (map fst out) -> In k studentKeys.
Proof.
  intros H Hk. apply processStudentData_entries in H. subst out.
  unfold entriesOf in Hk. rewrite flat_map_entry_keys in Hk.
  apply filter_In in Hk. tauto.
Qed.

(** X19.  [updateStudent] refuses a roll number that is set and invalid
    with 400 before asking the store anything.  Otherwise processing the
    body cannot throw, and the handler asks the store exactly once, for one
    update of the addressed student whose keys are among the eight that
    [processStudentData] knows: an update can never set [academicYear],
    [_id] or any other key. *)
Theorem updateStudent_asks_once (id : ObjectId) (body : object)
    (storage : list Query -> Query -> Reply) :
  (truthy (get "rollNumber" body)
   && negb (isValidRollNumber (get "rollNumber" body)) = true ->
   run (updateStudent id body) storage = ((400%nat, invalidRollNumber), []))
  /\ (truthy (get "rollNumber" body)
      && negb (isValidRollNumber (get "rollNumber" body)) = false ->
      exists updateData,
        processStudentData body = Ok updateData
        /\ snd (run (updateStudent id body) storage)
           = [StudentFindByIdAndUpdate id updateData]
        /\ (forall k, In k (map fst updateData) -> In k studentKeys)
        /\ forall k v, In (k, v) updateData -> v <> VUndefined).
Proof.
  unfold updateStudent. cbv zeta. split; intros Hc; rewrite Hc.
  - reflexivity.
  - destruct (processStudentData body) as [out | e] eqn:P.
    + exists out. split; [reflexivity |].
      rewrite (deleteUndefined_processed body out P).
      split; [| split].
      * unfold run. cbn [runFrom app].
        destruct (storage [] (StudentFindByIdAndUpdate id out))
          as [v | errs | m]; cbn [orCatch runFrom]; try reflexivity.
        destruct (negb (truthy v)); reflexivity.
      * intros k. apply (processed_keys body out k P).
      * intros k v Hin. apply processStudentData_entries in P. subst out.
        apply (entriesOf_defined body k v Hin).
    + exfalso. apply processStudentData_throws in P.
      destruct P as (Ht & Hs & _). rewrite Ht in Hc. cbn [andb] in Hc.
      apply negb_false_iff in Hc.
      apply isValidRollNumber_only_strings in Hc. destruct Hc as [s Hc].
      exact (Hs s Hc).
Qed.

(** X20.  [createStudent] asks the store nothing unless the four required
    fields are truthy and the roll number is a string that passes
    [isValidRollNumber]; short of that it answers 400, or 500 when the roll
    number is truthy but not a string.  When it does ask, it asks first for
    the course of that name. *)
Theorem createStudent_checks_first (body : object)
    (storage : list Query -> Query -> Reply) :
  (snd (run (createStudent body) storage) = []
   /\ (fst (fst (run (createStudent body) storage)) = 400%nat
       \/ (fst (run (createStudent body) storage)
           = (500%nat, JsonMessage "Failed to create student")
           /\ truthy (get "rollNumber" body) = true
           /\ forall s, get "rollNumber" body <> VString s)))
  \/ (truthy (get "rollNumber" body) = true
      /\ truthy (get "fullName" body) = true
      /\ truthy (get "courseName" body) = true
      /\ truthy (get "semId" body) = true
      /\ isValidRollNumber (get "rollNumber" body) = true
      /\ exists rest,
          snd (run (createStudent body) storage)
          = CourseFindOne (get "courseName" body) :: rest).
Proof.
  unfold createStudent. cbv zeta.
  destruct (truthy (get "rollNumber" body)) eqn:T1;
    [| left; split; [reflexivity | left; reflexivity]].
  destruct (truthy (get "fullName" body)) eqn:T2;
    [| left; split; [reflexivity | left; reflexivity]].
  destruct (truthy (get "courseName" body)) eqn:T3;
    [| left; split; [reflexivity | left; reflexivity]].
  destruct (truthy (get "semId" body)) eqn:T4;
    [| left; split; [reflexivity | left; reflexivity]].
  cbn [negb orb].
  destruct (get "rollNumber" body) as [| | b | n | s | l | f] eqn:R;
    try (left; split; [reflexivity | right];
         repeat split; try reflexivity; discriminate).
  rewrite isValidRollNumber_trim.
  destruct (isValidRollNumber (VString s)) eqn:V; cbn [negb];
    [| left; split; [reflexivity | left; reflexivity]].
  right. repeat split.
  unfold run. cbn [runFrom].
  destruct (runFrom _ _ storage) as [sent qs]. eexists. reflexivity.
Qed.

Lemma studentLiteral_rollNumber (body : object) (course : value)
    (s : string) (data : object) :
  get "rollNumber" body = VString s -> truthy (VString s) = true ->
  processStudentData (studentLiteral body course) = Ok data ->
  get "rollNumber" data = VString (Text.toUpperCase s)
  /\ get "courseId" data
     = match getProp "Course_Id" course with
       | VUndefined => VUndefined
       | v => convertEmptyToNull v
       end.
Proof.
  intros R T P. apply processStudentData_entries in P. subst data.
  unfold entriesOf. split.
  - rewrite (get_entries _ _ "rollNumber" upperOrNullValue allFields_NoDup)
      by (left; reflexivity).
    change (get "rollNumber" (studentLiteral body course))
      with (get "rollNumber" body).
    rewrite R. unfold upperOrNullValue, upperOrNull. rewrite T. reflexivity.
  - rewrite (get_entries _ _ "courseId" convertEmptyToNull allFields_NoDup)
      by (right; right; left; reflexivity).
    reflexivity.
Qed.

(** X21.  [createStudent] answers 201 only after three queries, in this
    order: the course of the given name, found; a student with the roll
    number upper-cased and trimmed, not found; the save, which went
    through.  The roll number it looks up matches the pattern exactly; the
    one it saves is the input upper-cased; the course id it saves is the
    found course's [Course_Id], whatever the body says; and it saves no key
    outside the eight that [processStudentData] knows. *)
Theorem createStudent_created (body : object)
    (storage : list Query -> Query -> Reply) :
  fst (fst (run (createStudent body) storage)) = 201%nat ->
  exists s course saved studentData,
    get "rollNumber" body = VString s
    /\ run (createStudent body) storage
       = ((201%nat, JsonValue saved),
          [CourseFindOne (get "courseName" body);
           StudentFindOne (Text.trim (Text.toUpperCase s));
           StudentSave studentData])
    /\ storage [] (CourseFindOne (get "courseName" body)) = Resolved course
    /\ truthy course = true
    /\ (exists existing,
          storage [CourseFindOne (get "courseName" body)]
            (StudentFindOne (Text.trim (Text.toUpperCase s)))
          = Resolved existing
          /\ truthy existing = false)
    /\ storage
         [CourseFindOne (get "courseName" body);
          StudentFindOne (Text.trim (Text.toUpperCase s))]
         (StudentSave studentData)
       = Resolved saved
    /\ processStudentData (studentLiteral body course) = Ok studentData
    /\ Regex.test rollNumberPattern (Text.trim (Text.toUpperCase s)) = true
    /\ get "rollNumber" studentData = VString (Text.toUpperCase s)
    /\ get "courseId" studentData
       = match getProp "Course_Id" course with
         | VUndefined => VUndefined
         | v => convertEmptyToNull v
         end
    /\ forall k, In k (map fst studentData) -> In k studentKeys.
Proof.
  unfold createStudent, run. cbv zeta.
  destruct (negb (truthy (get "rollNumber" body))
            || negb (truthy (get "fullName" body))
            || negb (truthy (get "courseName" body))
            || negb (truthy (get "semId" body))) eqn:Req;
    [discriminate |].
  destruct (get "rollNumber" body) as [| | b | n | s | l | f] eqn:R;
    try discriminate.
  assert (T : truthy (VString s) = true).
  { destruct (truthy (VString s)); [reflexivity | discriminate Req]. }
  destruct (isValidRollNumber (VString (Text.trim s))) eqn:V;
    cbn [negb]; [| discriminate].
  cbn [runFrom app].
  destruct (storage [] (CourseFindOne (get "courseName" body)))
    as [course | errs | m] eqn:Q1; cbn [orCatch runFrom]; try discriminate.
  destruct (truthy course) eqn:Tc; cbn [negb runFrom app]; [| discriminate].
  destruct (storage [CourseFindOne (get "courseName" body)]
              (StudentFindOne (Text.trim (Text.toUpperCase s))))
    as [existing | errs | m] eqn:Q2; cbn [orCatch runFrom]; try discriminate.
  destruct (truthy existing) eqn:Te; cbn [runFrom]; [discriminate |].
  destruct (processStudentData (studentLiteral body course))
    as [studentData | e] eqn:P; cbn [runFrom app]; [| discriminate].
  destruct (storage
              [CourseFindOne (get "courseName" body);
               StudentFindOne (Text.trim (Text.toUpperCase s))]
              (StudentSave studentData))
    as [saved | errs | m] eqn:Q3; cbn [orCatch runFrom]; try discriminate.
  intros _. exists s, course, saved, studentData.
  destruct (studentLiteral_rollNumber body course s studentData R T P)
    as [Hroll Hcourse].
  split; [reflexivity |]. split; [reflexivity |].
  split; [first [reflexivity | exact Q1] |].
  split; [first [reflexivity | exact Tc] |].
  split;
    [exists existing;
     split; [first [reflexivity | exact Q2] | first [reflexivity | exact Te]]
    |].
  split; [first [reflexivity | exact Q3] |].
  split; [first [reflexivity | exact P] |].
  split; [| split; [exact Hroll | split; [exact Hcourse |]]].
  - rewrite isValidRollNumber_trim, isValidRollNumber_string in V.
    rewrite trim_toUpperCase. exact V.
  - intros k. apply (processed_keys _ _ k P).
Qed.

Lemma createStudent_created_witness :
  exists s course saved studentData,
    get "rollNumber" newStudent = VString s
    /\ run (createStudent newStudent) emptyCollege
       = ((201%nat, JsonValue saved),
          [CourseFindOne (get "courseName" newStudent);
           StudentFindOne (Text.trim (Text.toUpperCase s));
           StudentSave studentData])
    /\ emptyCollege [] (CourseFindOne (get "courseName" newStudent))
       = Resolved course
    /\ truthy course = true
    /\ (exists existing,
          emptyCollege [CourseFindOne (get "courseName" newStudent)]
            (StudentFindOne (Text.trim (Text.toUpperCase s)))
          = Resolved existing
          /\ truthy existing = false)
    /\ emptyCollege
         [CourseFindOne (get "courseName" newStudent);
          StudentFindOne (Text.trim (Text.toUpperCase s))]
         (StudentSave studentData)
       = Resolved saved
    /\ processStudentData (studentLiteral newStudent course)
       = Ok studentData
    /\ Regex.test rollNumberPattern (Text.trim (Text.toUpperCase s)) = true
    /\ get "rollNumber" studentData = VString (Text.toUpperCase s)
    /\ get "courseId" studentData
       = match getProp "Course_Id" course with
         | VUndefined => VUndefined
         | v => convertEmptyToNull v
         end
    /\ forall k, In k (map fst studentData) -> In k studentKeys.
Proof.
  apply (createStudent_created newStudent emptyCollege).
  reflexivity.
Defined.

Example createStudent_example :
  run (createStudent newStudent) emptyCollege
  = ((201%nat,
      JsonValue
        (VObject
           [("rollNumber", VString " IT-2K21-36 ");
            ("fullName", VString "Asha"); ("courseId", VString "C-MCA");
            ("semId", VString "1"); ("specializations", VNull)])),
     [CourseFindOne (VString "MCA"); StudentFindOne "IT-2K21-36";
      StudentSave
        [("rollNumber", VString " IT-2K21-36 ");
         ("fullName", VString "Asha"); ("courseId", VString "C-MCA");
         ("semId", VString "1"); ("specializations", VNull)]]).
Proof. reflexivity. Qed.

(** * Promotions and rollbacks repeated *)

Lemma Rollback_courses (db : Database) (ids : list ObjectId) (reset : bool) :
  courses (snd (Rollback ids reset db)) = courses db.
Proof.
  rewrite Rollback_unfold. destruct ids as [| i r]; reflexivity.
Qed.

Lemma Advance_once (db : Database) (ids : list ObjectId) (s : Student.t)
    (course : Course.t) (c : Z) :
  uniqueIds db -> resolved db ids s ->
  courseOf db s = Some course ->
  JS.parseInt10 (Student.semId s) = JS.Num c ->
  c <= Course.No_of_Sem course ->
  exists s',
    uniqueIds (snd (Advance ids db))
    /\ resolved (snd (Advance ids db)) ids s'
    /\ Student._id s' = Student._id s
    /\ courseOf (snd (Advance ids db)) s' = Some course
    /\ JS.parseInt10 (Student.semId s')
       = JS.Num (Z.min (c + 1) (Course.No_of_Sem course)).
Proof.
  intros Hu Hr Hc Hp HT.
  pose proof (Advance_uniqueIds db ids s Hu Hr) as Hu'.
  destruct (Z_lt_le_dec c (Course.No_of_Sem course)) as [Hlt | Hge].
  - pose proof (promoteDecision_apply db s course c Hc Hp Hlt) as Hd.
    cbv zeta in Hd.
    destruct (Advance_apply db ids s _ _ Hu Hr Hd) as (Hs & _ & _).
    eexists. split; [exact Hu' |].
    split; [split; [apply findById_In in Hs; apply Hs | exact (proj2 Hr)] |].
    split; [reflexivity |].
    split; [unfold courseOf; rewrite Advance_courses; exact Hc |].
    cbn [applySet Payload.semId Student.semId].
    rewrite parseInt10_toString. f_equal. lia.
  - pose proof (promoteDecision_final db s course c Hc Hp Hge) as Hd.
    destruct (Advance_skip db ids s _ Hu Hr Hd) as (Hs & _ & _).
    exists s. split; [exact Hu' |].
    split; [split; [apply findById_In in Hs; apply Hs | exact (proj2 Hr)] |].
    split; [reflexivity |].
    split; [unfold courseOf; rewrite Advance_courses; exact Hc |].
    rewrite Hp. f_equal. lia.
Qed.

Lemma Advance_many (n : nat) (ids : list ObjectId) (course : Course.t) :
  forall db s c,
    uniqueIds db -> resolved db ids s ->
    courseOf db s = Some course ->
    JS.parseInt10 (Student.semId s) = JS.Num c ->
    c <= Course.No_of_Sem course ->
    exists s',
      uniqueIds (Nat.iter n (fun d => snd (Advance ids d)) db)
      /\ resolved (Nat.iter n (fun d => snd (Advance ids d)) db) ids s'
      /\ Student._id s' = Student._id s
      /\ courseOf (Nat.iter n (fun d => snd (Advance ids d)) db) s'
         = Some course
      /\ JS.parseInt10 (Student.semId s')
         = JS.Num (Z.min (c + Z.of_nat n) (Course.No_of_Sem course)).
Proof.
  induction n as [| n IH]; intros db s c Hu Hr Hc Hp HT.
  - exists s. cbn [Nat.iter]. repeat split; try assumption; try apply Hr.
    rewrite Hp. f_equal. lia.
  - destruct (IH db s c Hu Hr Hc Hp HT) as (s1 & Hu1 & Hr1 & Hid1 & Hc1 & Hp1).
    cbn [Nat.iter].
    destruct (Advance_once _ ids s1 course _ Hu1 Hr1 Hc1 Hp1 ltac:(lia))
      as (s2 & Hu2 & Hr2 & Hid2 & Hc2 & Hp2).
    exists s2. split; [exact Hu2 |]. split; [exact Hr2 |].
    split; [congruence |]. split; [exact Hc2 |].
    rewrite Hp2. f_equal. lia.
Qed.

(** X22.  Promotions saturate at the last semester: [n] promotions in a
    row take a resolved student from semester [c] to [min (c + n)
    No_of_Sem], so no number of promotions takes a student past the end of
    the course. *)
Theorem promotions_saturate
    (n : nat) (db : Database) (ids : list ObjectId) (s : Student.t)
    (course : Course.t) (c : Z) :
  uniqueIds db -> resolved db ids s ->
  courseOf db s = Some course ->
  JS.parseInt10 (Student.semId s) = JS.Num c ->
  c <= Course.No_of_Sem course ->
  JS.safeInteger c -> JS.safeInteger (Course.No_of_Sem course) ->
  exists s',
    findById (Student._id s)
      (students (Nat.iter n (fun d => snd (Advance ids d)) db))
    = Some s'
    /\ JS.parseInt10 (Student.semId s')
       = JS.Num (Z.min (c + Z.of_nat n) (Course.No_of_Sem course)).
Proof.
  intros Hu Hr Hc Hp HT _ _.
  destruct (Advance_many n ids course db s c Hu Hr Hc Hp HT)
    as (s' & Hu' & Hr' & Hid & _ & Hp').
  exists s'. split; [| exact Hp'].
  rewrite <- Hid. apply findById_unique; [exact Hu' | apply Hr'].
Qed.

Lemma promotions_saturate_witness :
  exists s',
    findById "s1"
      (students
         (Nat.iter 7 (fun d => snd (Advance ["s1"; "s2"] d)) twoStudents))
    = Some s'
    /\ JS.parseInt10 (Student.semId s') = JS.Num (Z.min (4 + Z.of_nat 7) 8).
Proof.
  apply (promotions_saturate 7 twoStudents ["s1"; "s2"]
           (Student.mk "s1" "MCA" "4" "2024-25") (Course.mk "MCA" 8) 4).
  - repeat constructor; simpl; intuition discriminate.
  - split; simpl; tauto.
  - reflexivity.
  - reflexivity.
  - simpl. lia.
  - split; vm_compute; discriminate.
  - split; vm_compute; discriminate.
Defined.

Lemma Rollback_once (db : Database) (ids : list ObjectId) (s : Student.t)
    (c : Z) :
  uniqueIds db -> resolved db ids s ->
  JS.parseInt10 (Student.semId s) = JS.Num c ->
  1 <= c ->
  exists s',
    uniqueIds (snd (Rollback ids false db))
    /\ resolved (snd (Rollback ids false db)) ids s'
    /\ Student._id s' = Student._id s
    /\ JS.parseInt10 (Student.semId s') = JS.Num (Z.max (c - 1) 1).
Proof.
  intros Hu Hr Hp H1.
  pose proof (Rollback_uniqueIds db ids false s Hu Hr) as Hu'.
  destruct (Z_le_gt_dec c 1) as [Hle | Hgt].
  - pose proof (rollbackDecision_first s c Hp Hle) as Hd.
    destruct (Rollback_skip db ids false s _ Hu Hr Hd) as (Hs & _ & _).
    exists s. split; [exact Hu' |].
    split; [split; [apply findById_In in Hs; apply Hs | exact (proj2 Hr)] |].
    split; [reflexivity |]. rewrite Hp. f_equal. lia.
  - pose proof (rollbackDecision_normal s c Hp ltac:(lia)) as Hd.
    cbv zeta in Hd.
    destruct (Rollback_apply db ids false s _ _ Hu Hr Hd) as (Hs & _ & _).
    eexists. split; [exact Hu' |].
    split; [split; [apply findById_In in Hs; apply Hs | exact (proj2 Hr)] |].
    split; [reflexivity |].
    cbn [applySet Payload.semId Student.semId].
    rewrite parseInt10_toString. f_equal. lia.
Qed.

(** X23.  Normal rollbacks saturate at the first semester: [n] rollbacks
    in a row take a resolved student from semester [c >= 1] to
    [max (c - n) 1]. *)
Theorem rollbacks_saturate
    (n : nat) (db : Database) (ids : list ObjectId) (s : Student.t)
    (c : Z) :
  uniqueIds db -> resolved db ids s ->
  JS.parseInt10 (Student.semId s) = JS.Num c ->
  1 <= c -> JS.safeInteger c ->
  exists s',
    findById (Student._id s)
      (students (Nat.iter n (fun d => snd (Rollback ids false d)) db))
    = Some s'
    /\ JS.parseInt10 (Student.semId s') = JS.Num (Z.max (c - Z.of_nat n) 1).
Proof.
  intros Hu Hr Hp H1 _.
  assert (Many : forall m db0 s0 c0,
             uniqueIds db0 -> resolved db0 ids s0 ->
             JS.parseInt10 (Student.semId s0) = JS.Num c0 -> 1 <= c0 ->
             exists s',
               uniqueIds
                 (Nat.iter m (fun d => snd (Rollback ids false d)) db0)
               /\ resolved
                    (Nat.iter m (fun d => snd (Rollback ids false d)) db0)
                    ids s'
               /\ Student._id s' = Student._id s0
               /\ JS.parseInt10 (Student.semId s')
                  = JS.Num (Z.max (c0 - Z.of_nat m) 1)).
  { induction m as [| m IH]; intros db0 s0 c0 Hu0 Hr0 Hp0 Hc0.
    - exists s0. cbn [Nat.iter]. repeat split; try assumption; try apply Hr0.
      rewrite Hp0. f_equal. lia.
    - destruct (IH db0 s0 c0 Hu0 Hr0 Hp0 Hc0)
        as (s1 & Hu1 & Hr1 & Hid1 & Hp1).
      cbn [Nat.iter].
      destruct (Rollback_once _ ids s1 _ Hu1 Hr1 Hp1 ltac:(lia))
        as (s2 & Hu2 & Hr2 & Hid2 & Hp2).
      exists s2. split; [exact Hu2 |]. split; [exact Hr2 |].
      split; [congruence |]. rewrite Hp2. f_equal. lia. }
  destruct (Many n db s c Hu Hr Hp H1) as (s' & Hu' & Hr' & Hid & Hp').
  exists s'. split; [| exact Hp'].
  rewrite <- Hid. apply findById_unique; [exact Hu' | apply Hr'].
Qed.

Lemma rollbacks_saturate_witness :
  exists s',
    findById "s2"
      (students
         (Nat.iter 9 (fun d => snd (Rollback ["s2"] false d)) twoStudents))
    = Some s'
    /\ JS.parseInt10 (Student.semId s') = JS.Num (Z.max (8 - Z.of_nat 9) 1).
Proof.
  apply (rollbacks_saturate 9 twoStudents ["s2"]
           (Student.mk "s2" "MCA" "8" "2022-23") 8).
  - repeat constructor; simpl; intuition discriminate.
  - split; simpl; tauto.
  - reflexivity.
  - lia.
  - split; vm_compute; discriminate.
Defined.
